(** * Heartsnaps: pricing, promo codes, order lifecycle and admin authorization

    A shallow embedding of the logic of [server.js] and of the stored
    procedures of [supabase-schema.sql].

    Conventions of the embedding.
    - Money, counters and quantities are JavaScript numbers holding integers;
      they are modelled as [Z].  Products and sums of such integers are taken
      exactly, as JavaScript computes them while they stay below 2^53.
    - The one computation that leaves the integers is the percentage
      discount, [Math.floor(subtotal * (discount_value / 100))]: the quotient
      and the product are rounded to binary64, as JavaScript rounds them
      (module [Double]).
    - A nullable SQL column, or a request field that may be absent, is an
      [option]; JavaScript truthiness of such a value is written out
      ([truthyZ], [truthyS]).
    - Timestamps are milliseconds since the epoch, as [Z]; [new Date()] is the
      parameter [now] of the handler that reads the clock.
    - A table is the list of its rows; [select ... eq ... single()],
      [update ... eq] and [delete ... eq] of the Supabase client are the
      functions of module [Sql].  A database call is taken to succeed unless
      a constraint of the schema makes it fail. *)

From Stdlib Require Import ZArith List Bool Lia Ascii String.
From Stdlib Require Import DecimalString.
From Stdlib Require Import Reals Lra SpecFloat.
From stdpp Require Import base tactics option list.

Open Scope string_scope.
Open Scope Z_scope.

(** ** JavaScript helpers *)

Module Js.

(** [!!x] for a number that may be [null]/[undefined]: only a present,
    non-zero number is truthy. *)
Definition truthyZ (x : option Z) : bool :=
  match x with
  | Some n => negb (n =? 0)
  | None => false
  end.

(** [!!s] for a string that may be absent: only a present, non-empty string
    is truthy. *)
Definition truthyS (x : option string) : bool :=
  match x with
  | Some s => negb (String.eqb s "")
  | None => false
  end.

(** [Number(x)] for an integer column that may be [null]: [null] converts
    to [0] in a relational comparison. *)
Definition toNumber (x : option Z) : Z := default 0 x.

(** [x || 0] on a number that may be absent. *)
Definition orZero (x : option Z) : Z :=
  if truthyZ x then default 0 x else 0.

Definition upper_ascii (c : ascii) : ascii :=
  let n := nat_of_ascii c in
  if ((97 <=? n) && (n <=? 122))%nat then ascii_of_nat (n - 32) else c.

Definition lower_ascii (c : ascii) : ascii :=
  let n := nat_of_ascii c in
  if ((65 <=? n) && (n <=? 90))%nat then ascii_of_nat (n + 32) else c.

Fixpoint map_string (f : ascii -> ascii) (s : string) : string :=
  match s with
  | EmptyString => EmptyString
  | String c r => String (f c) (map_string f r)
  end.

(** [s.toUpperCase()] and [s.toLowerCase()], on the ASCII letters. *)
Definition toUpperCase : string -> string := map_string upper_ascii.
Definition toLowerCase : string -> string := map_string lower_ascii.

(** [arr.includes(x)] on an array of strings. *)
Definition includes (arr : list string) (x : string) : bool :=
  existsb (String.eqb x) arr.

(** Own properties every object literal inherits from [Object.prototype]:
    indexing an object literal with one of them yields a function or an
    object, which is truthy. *)
Definition object_prototype_keys : list string :=
  [ "constructor"; "__defineGetter__"; "__defineSetter__"; "hasOwnProperty";
    "__lookupGetter__"; "__lookupSetter__"; "isPrototypeOf";
    "propertyIsEnumerable"; "toString"; "valueOf"; "__proto__";
    "toLocaleString" ].

End Js.

(** ** JavaScript numbers: binary64 *)

(** A finite double is [mant * 2^expo].  Rounding is to the nearest double,
    ties to the even mantissa, with 53 significant bits.  The range of the
    exponent is not modelled: overflow starts at 2^1024 and underflow below
    2^-1022, and the numbers of the program are prices in cents and
    [INTEGER] columns. *)

Module Double.

Record t := { mant : Z; expo : Z }.

(** The integer nearest to [n / d], the even one when [n / d] lies half-way
    between two integers; for [0 <= n] and [0 < d]. *)
Definition nearest_even (n d : Z) : Z :=
  let q := n / d in
  let r := n mod d in
  if 2 * r <? d then q
  else if d <? 2 * r then q + 1
  else if Z.even q then q else q + 1.

(** [n / d * 2^(-e)] as a fraction of two integers. *)
Definition scaled (n d e : Z) : Z * Z :=
  (n * 2 ^ Z.max 0 (- e), d * 2 ^ Z.max 0 e).

(** The double nearest to [n / d], for [0 < n] and [0 < d]: the exponent
    [e] is the one with [2^52 <= n / d * 2^(-e) < 2^53], and the mantissa
    is that number rounded. *)
Definition round_pos (n d : Z) : t :=
  let e0 := Z.log2 n - Z.log2 d - 53 in
  let e := if 2 ^ 53 * (scaled n d e0).2 <=? (scaled n d e0).1 then e0 + 1 else e0 in
  {| mant := nearest_even (scaled n d e).1 (scaled n d e).2; expo := e |}.

(** The double nearest to [n / d], for [0 < d]. *)
Definition round (n d : Z) : t :=
  match n with
  | 0 => {| mant := 0; expo := 0 |}
  | Z.pos _ => round_pos n d
  | Z.neg _ => let r := round_pos (- n) d in {| mant := - r.(mant); expo := r.(expo) |}
  end.

(** The double of an integer literal or of an integer column. *)
Definition of_Z (z : Z) : t := round z 1.

(** [x * y] *)
Definition mul (x y : t) : t :=
  let r := round (x.(mant) * y.(mant)) 1 in
  {| mant := r.(mant); expo := r.(expo) + (x.(expo) + y.(expo)) |}.

(** [x / y], for [y] other than zero (the program divides by the literal
    [100] only). *)
Definition div (x y : t) : t :=
  let r := round (x.(mant) * Z.sgn y.(mant)) (Z.abs y.(mant)) in
  {| mant := r.(mant); expo := r.(expo) + (x.(expo) - y.(expo)) |}.

(** The real number a double stands for. *)
Definition val (x : t) : R := (IZR x.(mant) * powerRZ 2 x.(expo))%R.

(** Whether two doubles are the same number. *)
Definition same (x y : t) : bool :=
  let e := Z.min x.(expo) y.(expo) in
  x.(mant) * 2 ^ (x.(expo) - e) =? y.(mant) * 2 ^ (y.(expo) - e).

End Double.

Module Math.

(** [Math.floor(x)] *)
Definition floor (x : Double.t) : Z :=
  if 0 <=? x.(Double.expo) then x.(Double.mant) * 2 ^ x.(Double.expo)
  else x.(Double.mant) / 2 ^ (- x.(Double.expo)).

End Math.

(** The same operations in the IEEE 754 formalisation of the Standard
    Library, at the parameters of binary64; used to check [Double] against
    it. *)

Module Binary64.

Definition prec : Z := 53.
Definition emax : Z := 1024.

Definition of_Z (z : Z) : spec_float := binary_normalize prec emax z 0 false.

Definition mul : spec_float -> spec_float -> spec_float := SFmul prec emax.

Definition div : spec_float -> spec_float -> spec_float := SFdiv prec emax.

(** The finite number a float stands for, if it is one. *)
Definition finite (x : spec_float) : option Double.t :=
  match x with
  | S754_zero _ => Some {| Double.mant := 0; Double.expo := 0 |}
  | S754_finite s m e =>
      Some {| Double.mant := if s then Z.neg m else Z.pos m; Double.expo := e |}
  | _ => None
  end.

(** [a * (b / 100)] gives the same number in both. *)
Definition agrees (a b : Z) : bool :=
  match finite (mul (of_Z a) (div (of_Z b) (of_Z 100))) with
  | Some r =>
      Double.same r
        (Double.mul (Double.of_Z a) (Double.div (Double.of_Z b) (Double.of_Z 100)))
  | None => false
  end.

End Binary64.

(** ** Pricing engine ([PRICING], [calculatePrice], [calculate_order_price]) *)

Module Pricing.

Record tier := { min : Z; max : Z; pricePerUnit : Z }.

Record tiers := { tier1 : tier; tier2 : tier; tier3 : tier }.

(** What indexing [PRICING] with a string can yield. *)
Inductive entry :=
| Tiers (t : tiers)
| Num (n : Z)
| Str (s : string)
| Inherited.

Definition personal : tiers :=
  {| tier1 := {| min := 1; max := 5; pricePerUnit := 1000 |};
     tier2 := {| min := 6; max := 11; pricePerUnit := 800 |};
     tier3 := {| min := 12; max := 999; pricePerUnit := 700 |} |}.

Definition business : tiers :=
  {| tier1 := {| min := 1; max := 5; pricePerUnit := 1000 |};
     tier2 := {| min := 6; max := 11; pricePerUnit := 800 |};
     tier3 := {| min := 12; max := 999; pricePerUnit := 700 |} |}.

Definition shipping : Z := 800.

Definition freePickupLocation : string := "Forbes NSW".

(** [PRICING[key]]; [None] is [undefined]. *)
Definition PRICING (key : string) : option entry :=
  if String.eqb key "personal" then Some (Tiers personal)
  else if String.eqb key "business" then Some (Tiers business)
  else if String.eqb key "shipping" then Some (Num shipping)
  else if String.eqb key "freePickupLocation" then Some (Str freePickupLocation)
  else if Js.includes Js.object_prototype_keys key then Some Inherited
  else None.

(** Truthiness of an entry of [PRICING]. *)
Definition truthy_entry (e : entry) : bool :=
  match e with
  | Tiers _ => true
  | Num n => negb (n =? 0)
  | Str s => negb (String.eqb s "")
  | Inherited => true
  end.

(** [calculatePrice(quantity, productType = 'personal')].  [None] is the
    [TypeError] thrown by [tiers.tier3.min] when [tiers] is not a table of
    tiers ([tiers.tier3] is then [undefined]). *)
Definition calculatePrice (quantity : Z) (productType : option string) : option Z :=
  let productType := default "personal" productType in
  let tiers :=
    match PRICING productType with
    | Some e => if truthy_entry e then e else Tiers personal
    | None => Tiers personal
    end in
  match tiers with
  | Tiers t =>
      if t.(tier3).(min) <=? quantity then Some (quantity * t.(tier3).(pricePerUnit))
      else if t.(tier2).(min) <=? quantity then Some (quantity * t.(tier2).(pricePerUnit))
      else Some (quantity * t.(tier1).(pricePerUnit))
  | _ => None
  end.

(** The product types of the price list: the keys of [PRICING] that hold a
    table of tiers. *)
Definition product_types : list string := ["personal"; "business"].

(** Keys of [PRICING] that do not hold a table of tiers. *)
Definition non_product_key (key : string) : bool :=
  match PRICING key with
  | Some (Tiers _) => false
  | Some _ => true
  | None => false
  end.

(** PostgreSQL [INTEGER]: 32-bit signed; arithmetic out of range raises
    "integer out of range". *)
Definition int4 (x : Z) : option Z :=
  if (-2147483648 <=? x) && (x <=? 2147483647) then Some x else None.

(** [calculate_order_price(qty INTEGER) RETURNS INTEGER] of the schema. *)
Definition calculate_order_price (qty : Z) : option Z :=
  if 12 <=? qty then int4 (qty * 700)
  else if 6 <=? qty then int4 (qty * 800)
  else int4 (qty * 1000).

End Pricing.

(** ** The Supabase query builder, on tables as lists of rows *)

Module Sql.

(** [.single()]: the row when the query matches exactly one, an error (no
    data) otherwise. *)
Definition single {A} (rows : list A) : option A :=
  match rows with
  | [r] => Some r
  | _ => None
  end.

(** [.select('*').eq(...)]: the rows satisfying the filter. *)
Definition select {A} (p : A -> bool) (table : list A) : list A :=
  List.filter p table.

(** [.update(...).eq(...)]: every row satisfying the filter is rewritten. *)
Definition update {A} (p : A -> bool) (f : A -> A) (table : list A) : list A :=
  List.map (fun r => if p r then f r else r) table.

(** [.delete().eq(...)]: the rows satisfying the filter are dropped. *)
Definition delete {A} (p : A -> bool) (table : list A) : list A :=
  List.filter (fun r => negb (p r)) table.

(** [.select('*', { count: 'exact', head: true })]. *)
Definition count {A} (p : A -> bool) (table : list A) : Z :=
  Z.of_nat (length (List.filter p table)).

(** Equality of a nullable text column with a given text. *)
Definition eq_opt (col : option string) (v : string) : bool :=
  match col with
  | Some c => String.eqb c v
  | None => false
  end.

End Sql.

(** ** Promo codes: tables [promo_codes], [promo_code_usage] and
       [POST /api/validate-promo] *)

Module PromoCode.

Record row := {
  id : string;
  code : string;
  discount_type : string;
  discount_value : Z;
  min_order_amount : option Z;
  max_uses : option Z;
  uses_count : option Z;
  max_uses_per_customer : option Z;
  is_active : option bool;
  starts_at : option Z;
  expires_at : option Z;
  description : option string
}.

End PromoCode.

Module PromoUsage.

Record row := {
  promo_code_id : string;
  order_id : string;
  customer_id : option string;
  discount_applied : Z
}.

End PromoUsage.

Module Promo.

(** Body of the request: [{ code, subtotal, customerId }]. *)
Record request := {
  code : option string;
  subtotal : option Z;
  customerId : option string
}.

(** The rejections of the endpoint, in the order of the checks, named by
    reason; [status] and [message] give what the handler sends. *)
Inductive rejection :=
| CODE_REQUIRED
| NOT_FOUND
| EXPIRED
| NOT_YET_ACTIVE
| LIMIT_REACHED
| BELOW_MINIMUM
| CUSTOMER_LIMIT_REACHED.

(** HTTP status sent with each rejection (the message sent with
    [BELOW_MINIMUM] quotes [min_order_amount], the others are fixed texts). *)
Definition status (r : rejection) : Z :=
  match r with
  | NOT_FOUND => 404
  | _ => 400
  end.

Record valid := {
  promoId : string;
  v_code : string;
  discountType : string;
  discountValue : Z;
  calculatedDiscount : Z
}.

Inductive response :=
| Rejected (r : rejection)
| Valid (v : valid).

(** [.eq('code', c.toUpperCase()).eq('is_active', true).single()] on
    [promo_codes]. *)
Definition find_active (promo_codes : list PromoCode.row) (c : string) : option PromoCode.row :=
  Sql.single
    (Sql.select
       (fun p => String.eqb p.(PromoCode.code) (Js.toUpperCase c)
                 && match p.(PromoCode.is_active) with Some b => b | None => false end)
       promo_codes).

(** The conditions of the checks, each as the source writes it. *)
Definition expired (now : Z) (promo : PromoCode.row) : bool :=
  match promo.(PromoCode.expires_at) with
  | Some t => t <? now
  | None => false
  end.

Definition not_yet_active (now : Z) (promo : PromoCode.row) : bool :=
  match promo.(PromoCode.starts_at) with
  | Some t => now <? t
  | None => false
  end.

Definition limit_reached (promo : PromoCode.row) : bool :=
  Js.truthyZ promo.(PromoCode.max_uses)
  && (Js.toNumber promo.(PromoCode.max_uses) <=? Js.toNumber promo.(PromoCode.uses_count)).

Definition below_minimum (subtotal : option Z) (promo : PromoCode.row) : bool :=
  Js.truthyZ subtotal
  && (Js.toNumber subtotal <? Js.toNumber promo.(PromoCode.min_order_amount)).

Definition customer_limit_reached (usage : list PromoUsage.row) (customerId : option string)
    (promo : PromoCode.row) : bool :=
  Js.truthyS customerId
  && Js.truthyZ promo.(PromoCode.max_uses_per_customer)
  && (Js.toNumber promo.(PromoCode.max_uses_per_customer)
      <=? Sql.count
            (fun u => String.eqb u.(PromoUsage.promo_code_id) promo.(PromoCode.id)
                      && Sql.eq_opt u.(PromoUsage.customer_id) (default "" customerId))
            usage).

(** [Math.floor(subtotal * (discount_value / 100))] for a percentage code,
    [discount_value] otherwise.  The quotient and the product are those of
    doubles, so the floor can be one less than the integer quotient. *)
Definition discount_of (subtotal : Z) (promo : PromoCode.row) : Z :=
  if String.eqb promo.(PromoCode.discount_type) "percentage"
  then Math.floor
         (Double.mul (Double.of_Z subtotal)
            (Double.div (Double.of_Z promo.(PromoCode.discount_value)) (Double.of_Z 100)))
  else promo.(PromoCode.discount_value).

(** The handler of [POST /api/validate-promo]. *)
Definition validate_promo (now : Z) (promo_codes : list PromoCode.row)
    (usage : list PromoUsage.row) (req : request) : response :=
  if negb (Js.truthyS req.(code)) then Rejected CODE_REQUIRED
  else
    match find_active promo_codes (default "" req.(code)) with
    | None => Rejected NOT_FOUND
    | Some promo =>
        if expired now promo then Rejected EXPIRED
        else if not_yet_active now promo then Rejected NOT_YET_ACTIVE
        else if limit_reached promo then Rejected LIMIT_REACHED
        else if below_minimum req.(subtotal) promo then Rejected BELOW_MINIMUM
        else if customer_limit_reached usage req.(customerId) promo
        then Rejected CUSTOMER_LIMIT_REACHED
        else
          Valid {| promoId := promo.(PromoCode.id);
                   v_code := promo.(PromoCode.code);
                   discountType := promo.(PromoCode.discount_type);
                   discountValue := promo.(PromoCode.discount_value);
                   calculatedDiscount := discount_of (Js.orZero req.(subtotal)) promo |}
    end.

End Promo.

(** ** Tables [customers] and [orders] *)

Module Customer.

Record row := {
  id : string;
  phone : string;
  name : string;
  email : option string;
  order_count : option Z;
  total_spent : option Z;
  updated_at : option Z
}.

End Customer.

Module Order.

(** The columns the handlers below read or write.  The address, gift and
    note columns are copied from the request and never read back by them;
    they are left out. *)
Record row := {
  id : string;
  order_number : string;
  customer_id : option string;
  customer_name : string;
  customer_phone : string;
  customer_email : option string;
  shipping_type : string;
  product_type : string;
  quantity : Z;
  subtotal : Z;
  shipping_cost : Z;
  discount_amount : Z;
  promo_code_id : option string;
  promo_code_used : option string;
  total : Z;
  admin_notes : option string;
  status : string;
  stripe_payment_intent_id : option string;
  stripe_checkout_session_id : option string;
  tracking_number : option string;
  carrier : option string;
  paid_at : option Z;
  printed_at : option Z;
  shipped_at : option Z;
  completed_at : option Z;
  updated_at : option Z
}.

End Order.

(** ** Order numbers: [generate_order_number()] of the schema and
       [generateOrderNumber] of the server *)

Module OrderNumber.

(** [n::TEXT] for a non-negative integer. *)
Definition to_text (n : nat) : string := NilEmpty.string_of_uint (Nat.to_uint n).

Fixpoint repeat_char (c : ascii) (n : nat) : string :=
  match n with
  | O => EmptyString
  | S k => String c (repeat_char c k)
  end.

(** PostgreSQL [LPAD(s, len, fill)] with a one-character fill: [s] is filled
    on the left up to [len] characters, and truncated to its first [len]
    characters when it is longer. *)
Definition LPAD (s : string) (len : nat) (fill : ascii) : string :=
  if (String.length s <=? len)%nat
  then repeat_char fill (len - String.length s) ++ s
  else substring 0 len s.

(** JavaScript [s.padStart(len, fill)] with a one-character fill: a string
    longer than [len] is returned whole. *)
Definition padStart (s : string) (len : nat) (fill : ascii) : string :=
  repeat_char fill (len - String.length s) ++ s.

(** PostgreSQL [s LIKE pat]: [%] matches any run of characters, [_] any one
    character, every other character itself (escapes are not modelled: the
    patterns built below contain none). *)
Fixpoint like_pat (pat : string) : string -> bool :=
  match pat with
  | EmptyString => fun s => String.eqb s ""
  | String c p =>
      if Ascii.eqb c "%" then
        fix star (s : string) : bool :=
          like_pat p s
          || match s with
             | EmptyString => false
             | String _ r => star r
             end
      else if Ascii.eqb c "_" then
        fun s => match s with
                 | EmptyString => false
                 | String _ r => like_pat p r
                 end
      else
        fun s => match s with
                 | EmptyString => false
                 | String d r => Ascii.eqb c d && like_pat p r
                 end
  end.

Definition LIKE (s pat : string) : bool := like_pat pat s.

(** The body of [generate_order_number()].  [today_date] is
    [TO_CHAR(NOW() AT TIME ZONE 'Australia/Sydney', 'YYYYMMDD')]. *)
Definition generate_order_number (today_date : string) (orders : list Order.row) : string :=
  let today_count :=
    (length (Sql.select
               (fun o => LIKE o.(Order.order_number) ("HS-" ++ today_date ++ "-%"))
               orders) + 1)%nat in
  "HS-" ++ today_date ++ "-" ++ LPAD (to_text today_count) 3 "0".

(** [generateOrderNumber()]: the stored procedure, and when the call fails
    a number drawn at random.  [rpc_fails] says whether the call fails,
    [utc_date] is [new Date().toISOString().slice(0, 10)] without its
    dashes and [random] is [Math.floor(Math.random() * 1000)]. *)
Definition generateOrderNumber (rpc_fails : bool) (today_date utc_date : string)
    (random : nat) (orders : list Order.row) : string :=
  if rpc_fails
  then "HS-" ++ utc_date ++ "-" ++ padStart (to_text random) 3 "0"
  else generate_order_number today_date orders.

End OrderNumber.

(** ** The database and the clock *)

Module AdminLog.

Record row := {
  admin_id : string;
  action : string;
  target_type : string;
  target_id : string
}.

End AdminLog.

Module Admin.

Record row := {
  user_id : string;
  role : string
}.

End Admin.

Module Db.

Record t := {
  promo_codes : list PromoCode.row;
  promo_code_usage : list PromoUsage.row;
  customers : list Customer.row;
  orders : list Order.row;
  admins : list Admin.row;
  admin_logs : list AdminLog.row
}.

Definition with_customers (d : t) (c : list Customer.row) : t :=
  {| promo_codes := d.(promo_codes); promo_code_usage := d.(promo_code_usage);
     customers := c; orders := d.(orders); admins := d.(admins);
     admin_logs := d.(admin_logs) |}.

Definition with_orders (d : t) (o : list Order.row) : t :=
  {| promo_codes := d.(promo_codes); promo_code_usage := d.(promo_code_usage);
     customers := d.(customers); orders := o; admins := d.(admins);
     admin_logs := d.(admin_logs) |}.

Definition with_admins (d : t) (a : list Admin.row) : t :=
  {| promo_codes := d.(promo_codes); promo_code_usage := d.(promo_code_usage);
     customers := d.(customers); orders := d.(orders); admins := a;
     admin_logs := d.(admin_logs) |}.

(** [logAdminAction]: one more row in [admin_logs]. *)
Definition log (d : t) (l : AdminLog.row) : t :=
  {| promo_codes := d.(promo_codes); promo_code_usage := d.(promo_code_usage);
     customers := d.(customers); orders := d.(orders); admins := d.(admins);
     admin_logs := (d.(admin_logs) ++ [l])%list |}.

End Db.

(** What a handler takes from outside the database during one request. *)
Module World.

Record t := {
  now : Z;                 (* new Date() *)
  today_date : string;     (* the day in Sydney, as YYYYMMDD *)
  utc_date : string;       (* the day in UTC, as YYYYMMDD *)
  rpc_fails : bool;        (* whether rpc('generate_order_number') errors *)
  random : nat;            (* Math.floor(Math.random() * 1000) *)
  customer_uuid : string;  (* gen_random_uuid() for a new customer *)
  order_uuid : string      (* gen_random_uuid() for a new order *)
}.

End World.

(** ** Order creation: [POST /api/orders] *)

Module Orders.

Record address := {
  line1 : option string;
  line2 : option string;
  city : option string;
  state : option string;
  postcode : option string
}.

Record request := {
  customerName : option string;
  customerPhone : option string;
  customerEmail : option string;
  shippingType : option string;
  shippingAddress : option address;
  productType : option string;
  quantity : option Z;
  promoCode : option string
}.

Inductive response :=
| MissingFields        (* 400 'Missing required fields' *)
| AddressRequired      (* 400 'Shipping address required for delivery' *)
| Failed               (* 500 'Failed to create order' *)
| Created (o : Order.row).

(** The promo code of the request, as the handler looks it up. *)
Definition lookup_promo (promo_codes : list PromoCode.row) (promoCode : option string)
    : option PromoCode.row :=
  if Js.truthyS promoCode
  then Promo.find_active promo_codes (default "" promoCode)
  else None.

(** [shippingType === 'pickup' ? 0 : PRICING.shipping] *)
Definition shipping_cost_of (shippingType : option string) : Z :=
  if Sql.eq_opt shippingType "pickup" then 0 else Pricing.shipping.

(** The discount the handler applies for the promo it found:
    [Math.floor(subtotal * (promo.discount_value / 100))] for a percentage
    code, [promo.discount_value] otherwise, [0] without a promo. *)
Definition discount_amount_of (subtotal : Z) (promo : option PromoCode.row) : Z :=
  match promo with
  | Some p =>
      if String.eqb p.(PromoCode.discount_type) "percentage"
      then Math.floor
             (Double.mul (Double.of_Z subtotal)
                (Double.div (Double.of_Z p.(PromoCode.discount_value)) (Double.of_Z 100)))
      else p.(PromoCode.discount_value)
  | None => 0
  end.

(** Find or create the customer by phone; the id and the new table. *)
Definition resolve_customer (w : World.t) (customers : list Customer.row)
    (name phone : string) (email : option string) : string * list Customer.row :=
  match Sql.single (Sql.select (fun c => String.eqb c.(Customer.phone) phone) customers) with
  | Some existing =>
      (existing.(Customer.id),
       Sql.update
         (fun c => String.eqb c.(Customer.id) existing.(Customer.id))
         (fun c =>
            {| Customer.id := c.(Customer.id);
               Customer.phone := c.(Customer.phone);
               Customer.name := name;
               Customer.email := match email with
                                 | Some e => Some e
                                 | None => c.(Customer.email)
                                 end;
               Customer.order_count := c.(Customer.order_count);
               Customer.total_spent := c.(Customer.total_spent);
               Customer.updated_at := Some w.(World.now) |})
         customers)
  | None =>
      (w.(World.customer_uuid),
       (customers ++
        [ {| Customer.id := w.(World.customer_uuid);
             Customer.phone := phone;
             Customer.name := name;
             Customer.email := email;
             Customer.order_count := Some 0;
             Customer.total_spent := Some 0;
             Customer.updated_at := Some w.(World.now) |} ])%list)
  end.

(** Whether [INSERT INTO orders] accepts the row: [order_number] is
    [UNIQUE] and the integer columns are 32-bit. *)
Definition insert_ok (orders : list Order.row) (o : Order.row) : bool :=
  negb (existsb (fun r => String.eqb r.(Order.order_number) o.(Order.order_number)) orders)
  && forallb (fun x => match Pricing.int4 x with Some _ => true | None => false end)
       [ o.(Order.quantity); o.(Order.subtotal); o.(Order.shipping_cost);
         o.(Order.discount_amount); o.(Order.total) ].

(** The handler of [POST /api/orders]. *)
Definition create_order (w : World.t) (d : Db.t) (req : request) : response * Db.t :=
  if negb (Js.truthyS req.(customerName)) || negb (Js.truthyS req.(customerPhone))
     || negb (Js.truthyS req.(productType)) || negb (Js.truthyZ req.(quantity))
  then (MissingFields, d)
  else if Sql.eq_opt req.(shippingType) "delivery"
          && match req.(shippingAddress) with Some _ => false | None => true end
  then (AddressRequired, d)
  else
    match Pricing.calculatePrice (Js.toNumber req.(quantity)) req.(productType) with
    | None => (Failed, d)
    | Some subtotal =>
        let shippingCost := shipping_cost_of req.(shippingType) in
        let promo := lookup_promo d.(Db.promo_codes) req.(promoCode) in
        let discountAmount := discount_amount_of subtotal promo in
        let total := subtotal + shippingCost - discountAmount in
        let orderNumber :=
          OrderNumber.generateOrderNumber w.(World.rpc_fails) w.(World.today_date)
            w.(World.utc_date) w.(World.random) d.(Db.orders) in
        let '(customerId, customers') :=
          resolve_customer w d.(Db.customers) (default "" req.(customerName))
            (default "" req.(customerPhone)) req.(customerEmail) in
        let d' := Db.with_customers d customers' in
        let order :=
          {| Order.id := w.(World.order_uuid);
             Order.order_number := orderNumber;
             Order.customer_id := Some customerId;
             Order.customer_name := default "" req.(customerName);
             Order.customer_phone := default "" req.(customerPhone);
             Order.customer_email := req.(customerEmail);
             Order.shipping_type := default "delivery" req.(shippingType);
             Order.product_type := default "" req.(productType);
             Order.quantity := Js.toNumber req.(quantity);
             Order.subtotal := subtotal;
             Order.shipping_cost := shippingCost;
             Order.discount_amount := discountAmount;
             Order.promo_code_id := PromoCode.id <$> promo;
             Order.promo_code_used := PromoCode.code <$> promo;
             Order.total := total;
             Order.admin_notes := None;
             Order.status := "pending";
             Order.stripe_payment_intent_id := None;
             Order.stripe_checkout_session_id := None;
             Order.tracking_number := None;
             Order.carrier := None;
             Order.paid_at := None;
             Order.printed_at := None;
             Order.shipped_at := None;
             Order.completed_at := None;
             Order.updated_at := Some w.(World.now) |} in
        if insert_ok d'.(Db.orders) order
        then (Created order, Db.with_orders d' (d'.(Db.orders) ++ [order])%list)
        else (Failed, d')
    end.

End Orders.

(** ** Payment confirmation: [POST /api/stripe-webhook] *)

Module Webhook.

(** The fields of the checkout session the handler reads. *)
Record session := {
  session_id : string;
  payment_intent : option string;
  orderId : option string;       (* session.metadata?.orderId *)
  orderNumber : option string    (* session.metadata?.orderNumber *)
}.

Record event := {
  type : string;
  object : session
}.

(** The notification settings of the process environment. *)
Record config := {
  RESEND_API_KEY : option string;
  NTFY_TOPIC : option string;
  ADMIN_EMAIL : option string
}.

(** A message handed to a notification channel. *)
Inductive notification :=
| ConfirmationEmail (to : string) (order_number : string)
| AdminPush (order_number : string)
| AdminEmail (to : string) (order_number : string).

(** The database together with the messages sent so far. *)
Record state := {
  db : Db.t;
  sent : list notification
}.

Inductive response :=
| SignatureError       (* 400 *)
| Received             (* 200 { received: true } *)
| ProcessingFailed.    (* 500 *)

(** [sendOrderConfirmationEmail(order)] *)
Definition sendOrderConfirmationEmail (cfg : config) (order : Order.row) : list notification :=
  if negb (Js.truthyS cfg.(RESEND_API_KEY)) || negb (Js.truthyS order.(Order.customer_email))
  then []
  else [ConfirmationEmail (default "" order.(Order.customer_email)) order.(Order.order_number)].

(** [sendAdminNotification(order)] *)
Definition sendAdminNotification (cfg : config) (order : Order.row) : list notification :=
  ((if Js.truthyS cfg.(NTFY_TOPIC) then [AdminPush order.(Order.order_number)] else [])
   ++
   (if Js.truthyS cfg.(RESEND_API_KEY) && Js.truthyS cfg.(ADMIN_EMAIL)
    then [AdminEmail (default "" cfg.(ADMIN_EMAIL)) order.(Order.order_number)]
    else []))%list.

(** [increment_customer_stats(p_customer_id, p_order_total)] of the schema;
    a [NULL] counter stays [NULL]. *)
Definition increment_customer_stats (now : Z) (p_customer_id : string) (p_order_total : Z)
    (customers : list Customer.row) : list Customer.row :=
  Sql.update
    (fun c => String.eqb c.(Customer.id) p_customer_id)
    (fun c =>
       {| Customer.id := c.(Customer.id);
          Customer.phone := c.(Customer.phone);
          Customer.name := c.(Customer.name);
          Customer.email := c.(Customer.email);
          Customer.order_count := (fun n => n + 1) <$> c.(Customer.order_count);
          Customer.total_spent := (fun n => n + p_order_total) <$> c.(Customer.total_spent);
          Customer.updated_at := Some now |})
    customers.

(** The update that marks an order paid. *)
Definition mark_paid (now : Z) (s : session) (o : Order.row) : Order.row :=
  {| Order.id := o.(Order.id);
     Order.order_number := o.(Order.order_number);
     Order.customer_id := o.(Order.customer_id);
     Order.customer_name := o.(Order.customer_name);
     Order.customer_phone := o.(Order.customer_phone);
     Order.customer_email := o.(Order.customer_email);
     Order.shipping_type := o.(Order.shipping_type);
     Order.product_type := o.(Order.product_type);
     Order.quantity := o.(Order.quantity);
     Order.subtotal := o.(Order.subtotal);
     Order.shipping_cost := o.(Order.shipping_cost);
     Order.discount_amount := o.(Order.discount_amount);
     Order.promo_code_id := o.(Order.promo_code_id);
     Order.promo_code_used := o.(Order.promo_code_used);
     Order.total := o.(Order.total);
     Order.admin_notes := o.(Order.admin_notes);
     Order.status := "paid";
     Order.stripe_payment_intent_id :=
       match s.(payment_intent) with
       | Some pi => Some pi
       | None => o.(Order.stripe_payment_intent_id)
       end;
     Order.stripe_checkout_session_id := Some s.(session_id);
     Order.tracking_number := o.(Order.tracking_number);
     Order.carrier := o.(Order.carrier);
     Order.paid_at := Some now;
     Order.printed_at := o.(Order.printed_at);
     Order.shipped_at := o.(Order.shipped_at);
     Order.completed_at := o.(Order.completed_at);
     Order.updated_at := Some now |}.

(** [.from('orders').select(...).eq('id', orderId).single()] *)
Definition order_by_id (orders : list Order.row) (id : string) : option Order.row :=
  Sql.single (Sql.select (fun o => String.eqb o.(Order.id) id) orders).

(** The handler.  [delivery] is the event when
    [stripe.webhooks.constructEvent] accepts the signature, [None] when it
    throws. *)
Definition handle (cfg : config) (now : Z) (st : state) (delivery : option event)
    : response * state :=
  match delivery with
  | None => (SignatureError, st)
  | Some ev =>
      if negb (String.eqb ev.(type) "checkout.session.completed") then (Received, st)
      else
        let s := ev.(object) in
        if negb (Js.truthyS s.(orderId)) then (Received, st)
        else
          let id := default "" s.(orderId) in
          let existingOrder := order_by_id st.(db).(Db.orders) id in
          if negb (match existingOrder with
                   | Some o => String.eqb o.(Order.status) "pending"
                   | None => false
                   end)
          then (Received, st)
          else
            let orders' :=
              Sql.update (fun o => String.eqb o.(Order.id) id) (mark_paid now s)
                st.(db).(Db.orders) in
            let d1 := Db.with_orders st.(db) orders' in
            match order_by_id orders' id with
            | None =>
                (* [order.customer_email] or [order.order_number] throws *)
                (ProcessingFailed, {| db := d1; sent := st.(sent) |})
            | Some order =>
                let d2 :=
                  if Js.truthyS order.(Order.customer_id)
                  then Db.with_customers d1
                         (increment_customer_stats now
                            (default "" order.(Order.customer_id)) order.(Order.total)
                            d1.(Db.customers))
                  else d1 in
                (Received,
                 {| db := d2;
                    sent := (st.(sent) ++ sendOrderConfirmationEmail cfg order
                                       ++ sendAdminNotification cfg order)%list |})
            end
  end.

End Webhook.

(** ** Admin authorization: [verifyAdmin] and [DELETE /api/admin/admins/:userId] *)

Module Auth.

(** A user of the identity provider. *)
Record user := {
  uid : string;
  uemail : option string
}.

(** What [verifyAdmin] returns for an authorized caller. *)
Record principal := {
  userId : string;
  email : option string;
  role : string
}.

(** The configuration and the identity provider. *)
Record env := {
  OWNER_EMAILS : list string;
  getUser : string -> option user;        (* auth.getUser(token) *)
  getUserById : string -> option user     (* auth.admin.getUserById(id) *)
}.

(** A value read from the [roleHierarchy] object literal: one of its
    numbers, or what [Object.prototype] supplies for an inherited key. *)
Inductive level :=
| Level (n : Z)
| InheritedValue.

(** [roleHierarchy[key]]; [None] is [undefined]. *)
Definition roleHierarchy (key : string) : option level :=
  if String.eqb key "owner" then Some (Level 4)
  else if String.eqb key "super_admin" then Some (Level 3)
  else if String.eqb key "admin" then Some (Level 2)
  else if String.eqb key "moderator" then Some (Level 1)
  else if Js.includes Js.object_prototype_keys key then Some InheritedValue
  else None.

(** [roleHierarchy[key] || dflt] *)
Definition level_or (key : string) (dflt : Z) : level :=
  match roleHierarchy key with
  | Some (Level n) => if n =? 0 then Level dflt else Level n
  | Some InheritedValue => InheritedValue
  | None => Level dflt
  end.

(** [a >= b]; a function or object operand converts to [NaN], and every
    comparison with [NaN] is false. *)
Definition geq (a b : level) : bool :=
  match a, b with
  | Level x, Level y => y <=? x
  | _, _ => false
  end.

Fixpoint split_on (c : ascii) (s : string) : list string :=
  match s with
  | EmptyString => [EmptyString]
  | String d r =>
      if Ascii.eqb c d then EmptyString :: split_on c r
      else match split_on c r with
           | h :: t => String d h :: t
           | [] => [String d EmptyString]
           end
  end.

(** [user.email?.toLowerCase()] checked against the owner list. *)
Definition is_owner (e : env) (mail : option string) : bool :=
  match mail with
  | Some m => Js.includes e.(OWNER_EMAILS) (Js.toLowerCase m)
  | None => false
  end.

(** The token of the request: [authHeader.split(' ')[1]] when the header
    is present and starts with ['Bearer ']. *)
Definition bearer_token (authorization : option string) : option string :=
  match authorization with
  | None => None
  | Some authHeader =>
      if negb (String.prefix "Bearer " authHeader) then None
      else nth_error (split_on " " authHeader) 1
  end.

(** [.from('admins').select('role').eq('user_id', id).single()] *)
Definition admin_row (admins : list Admin.row) (id : string) : option Admin.row :=
  Sql.single (Sql.select (fun a => String.eqb a.(Admin.user_id) id) admins).

(** [verifyAdmin(req, requiredRole = 'admin')]; [authorization] is
    [req.headers.authorization]. *)
Definition verifyAdmin (e : env) (admins : list Admin.row) (authorization : option string)
    (requiredRole : option string) : option principal :=
  let requiredRole := default "admin" requiredRole in
  match bearer_token authorization with
  | None => None
  | Some token =>
      match e.(getUser) token with
      | None => None
      | Some user =>
          if is_owner e user.(uemail)
          then Some {| userId := user.(uid); email := user.(uemail); role := "owner" |}
          else
            match admin_row admins user.(uid) with
            | None => None
            | Some admin =>
                let requiredLevel := level_or requiredRole 2 in
                let userLevel := level_or admin.(Admin.role) 0 in
                if geq userLevel requiredLevel
                then Some {| userId := user.(uid); email := user.(uemail);
                             role := admin.(Admin.role) |}
                else None
            end
      end
  end.

Inductive response :=
| Unauthorized         (* 403 *)
| CannotRemoveOwner    (* 400 'Cannot remove owner' *)
| Success.             (* 200 { success: true } *)

(** The handler of [DELETE /api/admin/admins/:userId]. *)
Definition remove_admin (e : env) (d : Db.t) (authorization : option string)
    (target : string) : response * Db.t :=
  match verifyAdmin e d.(Db.admins) authorization (Some "super_admin") with
  | None => (Unauthorized, d)
  | Some admin =>
      if is_owner e (e.(getUserById) target ≫= uemail)
      then (CannotRemoveOwner, d)
      else
        let d1 :=
          Db.with_admins d
            (Sql.delete (fun a => String.eqb a.(Admin.user_id) target) d.(Db.admins)) in
        (Success,
         Db.log d1 {| AdminLog.admin_id := admin.(userId);
                      AdminLog.action := "remove_admin";
                      AdminLog.target_type := "admin";
                      AdminLog.target_id := target |})
  end.

End Auth.

(** ** Staff status updates: [PUT /api/admin/orders/:id/status] *)

Module AdminOrders.

(** Body of the request.  For [admin_notes], [None] is an absent field
    and [Some None] an explicit [null]. *)
Record body := {
  status : option string;
  tracking_number : option string;
  carrier : option string;
  admin_notes : option (option string)
}.

Definition validStatuses : list string :=
  [ "pending"; "paid"; "printing"; "shipped"; "ready_pickup"; "completed";
    "cancelled"; "archived" ].

(** The row after [.update(updateData)]: the columns named in [updateData]
    are overwritten, the others kept. *)
Definition apply_update (now : Z) (b : body) (o : Order.row) : Order.row :=
  let st := default "" b.(status) in
  {| Order.id := o.(Order.id);
     Order.order_number := o.(Order.order_number);
     Order.customer_id := o.(Order.customer_id);
     Order.customer_name := o.(Order.customer_name);
     Order.customer_phone := o.(Order.customer_phone);
     Order.customer_email := o.(Order.customer_email);
     Order.shipping_type := o.(Order.shipping_type);
     Order.product_type := o.(Order.product_type);
     Order.quantity := o.(Order.quantity);
     Order.subtotal := o.(Order.subtotal);
     Order.shipping_cost := o.(Order.shipping_cost);
     Order.discount_amount := o.(Order.discount_amount);
     Order.promo_code_id := o.(Order.promo_code_id);
     Order.promo_code_used := o.(Order.promo_code_used);
     Order.total := o.(Order.total);
     Order.admin_notes :=
       match b.(admin_notes) with
       | Some v => v
       | None => o.(Order.admin_notes)
       end;
     Order.status := st;
     Order.stripe_payment_intent_id := o.(Order.stripe_payment_intent_id);
     Order.stripe_checkout_session_id := o.(Order.stripe_checkout_session_id);
     Order.tracking_number :=
       if Js.truthyS b.(tracking_number) then b.(tracking_number)
       else o.(Order.tracking_number);
     Order.carrier :=
       if Js.truthyS b.(carrier) then b.(carrier) else o.(Order.carrier);
     Order.paid_at := o.(Order.paid_at);
     Order.printed_at :=
       if String.eqb st "printing" then Some now else o.(Order.printed_at);
     Order.shipped_at :=
       if String.eqb st "ready_pickup" then Some now
       else if String.eqb st "shipped" then Some now
       else o.(Order.shipped_at);
     Order.completed_at :=
       if String.eqb st "completed" then Some now else o.(Order.completed_at);
     Order.updated_at := Some now |}.

Inductive response :=
| Unauthorized         (* 403 *)
| InvalidStatus        (* 400 'Invalid status' *)
| Success.             (* 200 { success: true } *)

(** The handler; [id] is [req.params.id]. *)
Definition update_order_status (e : Auth.env) (now : Z) (d : Db.t)
    (authorization : option string) (id : string) (b : body) : response * Db.t :=
  match Auth.verifyAdmin e d.(Db.admins) authorization None with
  | None => (Unauthorized, d)
  | Some admin =>
      if negb (match b.(status) with
               | Some s => Js.includes validStatuses s
               | None => false
               end)
      then (InvalidStatus, d)
      else
        let d1 :=
          Db.with_orders d
            (Sql.update (fun o => String.eqb o.(Order.id) id) (apply_update now b)
               d.(Db.orders)) in
        (Success,
         Db.log d1 {| AdminLog.admin_id := admin.(Auth.userId);
                      AdminLog.action := "update_order_status";
                      AdminLog.target_type := "order";
                      AdminLog.target_id := id |})
  end.

End AdminOrders.

(** ** Reference definitions for the properties *)

Module Spec.

(** The price the tiers give: the unit price of the tier of [q], for every
    unit. *)
Definition tier_price (q : Z) : Z :=
  if q <=? 5 then q * 1000
  else if q <=? 11 then q * 800
  else q * 700.

(** The monetary invariant as the specification words it: the total is
    the sum less the discount, and is never negative. *)
Definition total_invariant (o : Order.row) : Prop :=
  o.(Order.total) = o.(Order.subtotal) + o.(Order.shipping_cost) - o.(Order.discount_amount)
  /\ 0 <= o.(Order.total).

(** The shipping rule as the specification words it: the flat fee is
    charged exactly for the mode [delivery], and [pickup] is free. *)
Definition fee_iff_delivery (o : Order.row) : Prop :=
  (o.(Order.shipping_cost) = Pricing.shipping <-> o.(Order.shipping_type) = "delivery")
  /\ (o.(Order.shipping_type) = "pickup" -> o.(Order.shipping_cost) = 0).

(** The milestone rule as the specification words it: a milestone
    timestamp that is set is never overwritten by a later update. *)
Definition milestones_kept (o o' : Order.row) : Prop :=
  forall t,
    (o.(Order.paid_at) = Some t -> o'.(Order.paid_at) = Some t)
    /\ (o.(Order.printed_at) = Some t -> o'.(Order.printed_at) = Some t)
    /\ (o.(Order.shipped_at) = Some t -> o'.(Order.shipped_at) = Some t)
    /\ (o.(Order.completed_at) = Some t -> o'.(Order.completed_at) = Some t).

(** The hierarchy as the specification gives it: owner 4 > super_admin 3 >
    admin 2 > moderator 1; any other text is no role and has level 0. *)
Definition level (role : string) : Z :=
  if String.eqb role "owner" then 4
  else if String.eqb role "super_admin" then 3
  else if String.eqb role "admin" then 2
  else if String.eqb role "moderator" then 1
  else 0.

(** The level an operation requires; [admin] when it names no role, or
    none of the hierarchy. *)
Definition required_level (required : option string) : Z :=
  match required with
  | Some r => if level r =? 0 then 2 else level r
  | None => 2
  end.

(** A verified email is on the owner allowlist: there is an email, and it
    is one of the entries of the list, letter case apart (the entries are
    kept in lower case). *)
Definition allowlisted (e : Auth.env) (mail : option string) : Prop :=
  exists m, mail = Some m /\ In (Js.toLowerCase m) e.(Auth.OWNER_EMAILS).

(** The role of a principal: [owner] when the verified email is on the
    allowlist, whatever the role table says; otherwise the role of the
    principal's row in the role table, if there is one. *)
Definition principal_role (e : Auth.env) (admins : list Admin.row) (u : Auth.user)
    : option string :=
  match u.(Auth.uemail) with
  | Some m =>
      if in_dec string_dec (Js.toLowerCase m) e.(Auth.OWNER_EMAILS) then Some "owner"
      else Admin.role <$> Auth.admin_row admins u.(Auth.uid)
  | None => Admin.role <$> Auth.admin_row admins u.(Auth.uid)
  end.

(** A sequence number as the specification writes it: in decimal, with
    zeros on the left up to [width] digits, and whole when it is longer. *)
Definition zero_padded (width k : nat) : string :=
  OrderNumber.repeat_char "0" (width - String.length (OrderNumber.to_text k))
  ++ OrderNumber.to_text k.

(** The order number of the [k]-th order of a day: prefix, date, sequence. *)
Definition order_number_of (date : string) (k : nat) : string :=
  "HS-" ++ date ++ "-" ++ zero_padded 3 k.

Definition is_digit (c : ascii) : bool :=
  ((48 <=? nat_of_ascii c) && (nat_of_ascii c <=? 57))%nat.

Fixpoint all_digits (s : string) : bool :=
  match s with
  | EmptyString => true
  | String c r => is_digit c && all_digits r
  end.

(** A text in which [LIKE] finds no wildcard. *)
Fixpoint no_wildcard (p : string) : bool :=
  match p with
  | EmptyString => true
  | String c r => negb (Ascii.eqb c "%") && negb (Ascii.eqb c "_") && no_wildcard r
  end.

(** A day as [TO_CHAR(..., 'YYYYMMDD')] prints it: eight digits. *)
Definition is_date (s : string) : bool :=
  (String.length s =? 8)%nat && all_digits s.

(** The number a string of digits denotes. *)
Fixpoint read_digits (acc : nat) (s : string) : nat :=
  match s with
  | EmptyString => acc
  | String c r => read_digits (10 * acc + (nat_of_ascii c - 48)) r
  end.

(** How many orders of the table carry a number of the given day. *)
Definition todays (date : string) (orders : list Order.row) : nat :=
  length (Sql.select
            (fun o => OrderNumber.LIKE o.(Order.order_number) ("HS-" ++ date ++ "-%"))
            orders).

(** Requests for orders handled one after another: the orders created, in
    order, and the database at the end. *)
Fixpoint place_orders (d : Db.t) (inputs : list (World.t * Orders.request))
    : list Order.row * Db.t :=
  match inputs with
  | [] => ([], d)
  | (w, req) :: rest =>
      let '(r, d1) := Orders.create_order w d req in
      let '(os, d2) := place_orders d1 rest in
      (match r with
       | Orders.Created o => o :: os
       | _ => os
       end, d2)
  end.

(** The allocation rule as the specification words it: the next order of
    the day gets the next sequence number, which no order carries yet. *)
Definition allocates_next (date : string) (orders : list Order.row) : Prop :=
  OrderNumber.generate_order_number date orders
  = order_number_of date (todays date orders + 1)
  /\ ~ In (OrderNumber.generate_order_number date orders)
         (List.map Order.order_number orders).

(** The state after a delivery that confirms the pending order [o]. *)
Definition confirmed (cfg : Webhook.config) (now : Z) (st : Webhook.state)
    (ev : Webhook.event) (o : Order.row) : Webhook.state :=
  let id := default "" ev.(Webhook.object).(Webhook.orderId) in
  let paid := Webhook.mark_paid now ev.(Webhook.object) o in
  let d1 :=
    Db.with_orders st.(Webhook.db)
      (Sql.update (fun r => String.eqb r.(Order.id) id)
         (Webhook.mark_paid now ev.(Webhook.object)) st.(Webhook.db).(Db.orders)) in
  {| Webhook.db :=
       if Js.truthyS paid.(Order.customer_id)
       then Db.with_customers d1
              (Webhook.increment_customer_stats now (default "" paid.(Order.customer_id))
                 paid.(Order.total) d1.(Db.customers))
       else d1;
     Webhook.sent :=
       (st.(Webhook.sent) ++ Webhook.sendOrderConfirmationEmail cfg paid
                          ++ Webhook.sendAdminNotification cfg paid)%list |}.



(** A request of the given day, answered by the stored procedure. *)
Definition of_the_day (date : string) (input : World.t * Orders.request) : Prop :=
  input.1.(World.today_date) = date /\ input.1.(World.rpc_fails) = false.


End Spec.

(** ** Concrete data for the examples *)

Module Sample.

Definition promo (code kind : string) (value : Z) (minimum : option Z)
    (expires : option Z) : PromoCode.row :=
  {| PromoCode.id := "promo-" ++ code;
     PromoCode.code := code;
     PromoCode.discount_type := kind;
     PromoCode.discount_value := value;
     PromoCode.min_order_amount := minimum;
     PromoCode.max_uses := None;
     PromoCode.uses_count := Some 0;
     PromoCode.max_uses_per_customer := Some 1;
     PromoCode.is_active := Some true;
     PromoCode.starts_at := Some 0;
     PromoCode.expires_at := expires;
     PromoCode.description := None |}.

(** Ten percent off, minimum order 5000, expired at time 1000. *)
Definition old10 : PromoCode.row := promo "OLD10" "percentage" 10 (Some 5000) (Some 1000).

(** 5000 off, no minimum, no expiry. *)
Definition big50 : PromoCode.row := promo "BIG50" "fixed" 5000 (Some 0) None.

(** Ten percent off, minimum order 5000, no expiry. *)
Definition min50 : PromoCode.row := promo "MIN50" "percentage" 10 (Some 5000) None.

(** Twenty-nine percent off, no minimum, no expiry. *)
Definition off29 : PromoCode.row := promo "OFF29" "percentage" 29 (Some 0) None.

(** A database that holds the given promo codes and nothing else. *)
Definition db_of (promo_codes : list PromoCode.row) : Db.t :=
  {| Db.promo_codes := promo_codes;
     Db.promo_code_usage := [];
     Db.customers := [];
     Db.orders := [];
     Db.admins := [];
     Db.admin_logs := [] |}.

Definition db : Db.t :=
  {| Db.promo_codes := [old10; big50; min50];
     Db.promo_code_usage := [];
     Db.customers := [];
     Db.orders := [];
     Db.admins := [];
     Db.admin_logs := [] |}.

Definition world : World.t :=
  {| World.now := 2000;
     World.today_date := "20240301";
     World.utc_date := "20240229";
     World.rpc_fails := false;
     World.random := 7%nat;
     World.customer_uuid := "customer-1";
     World.order_uuid := "order-1" |}.

(** The world of the [k]-th request of the day 2024-03-01. *)
Definition world_at (k : nat) : World.t :=
  {| World.now := 2000 + Z.of_nat k;
     World.today_date := "20240301";
     World.utc_date := "20240229";
     World.rpc_fails := false;
     World.random := 7%nat;
     World.customer_uuid := "customer-" ++ OrderNumber.to_text k;
     World.order_uuid := "order-" ++ OrderNumber.to_text k |}.

Definition order_request (qty : Z) (shipping : option string) (code : option string)
    : Orders.request :=
  {| Orders.customerName := Some "Ada";
     Orders.customerPhone := Some "0400000000";
     Orders.customerEmail := Some "ada@example.com";
     Orders.shippingType := shipping;
     Orders.shippingAddress := None;
     Orders.productType := Some "personal";
     Orders.quantity := Some qty;
     Orders.promoCode := code |}.

(** One owner of the allowlist, one user with the role [admin], one with
    the role [moderator] and one with no role. *)
Definition auth : Auth.env :=
  {| Auth.OWNER_EMAILS := ["owner@heartsnaps.com.au"];
     Auth.getUser := fun token =>
       if String.eqb token "owner-token"
       then Some {| Auth.uid := "u-owner"; Auth.uemail := Some "Owner@Heartsnaps.com.au" |}
       else if String.eqb token "admin-token"
       then Some {| Auth.uid := "u-admin"; Auth.uemail := Some "admin@example.com" |}
       else if String.eqb token "super-token"
       then Some {| Auth.uid := "u-super"; Auth.uemail := Some "super@example.com" |}
       else if String.eqb token "guest-token"
       then Some {| Auth.uid := "u-guest"; Auth.uemail := Some "guest@example.com" |}
       else None;
     Auth.getUserById := fun id =>
       if String.eqb id "u-owner"
       then Some {| Auth.uid := "u-owner"; Auth.uemail := Some "Owner@Heartsnaps.com.au" |}
       else if String.eqb id "u-admin"
       then Some {| Auth.uid := "u-admin"; Auth.uemail := Some "admin@example.com" |}
       else if String.eqb id "u-super"
       then Some {| Auth.uid := "u-super"; Auth.uemail := Some "super@example.com" |}
       else None |}.

Definition admins : list Admin.row :=
  [ {| Admin.user_id := "u-admin"; Admin.role := "admin" |};
    {| Admin.user_id := "u-super"; Admin.role := "super_admin" |} ].

Definition customer : Customer.row :=
  {| Customer.id := "customer-1";
     Customer.phone := "0400000000";
     Customer.name := "Ada";
     Customer.email := Some "ada@example.com";
     Customer.order_count := Some 2;
     Customer.total_spent := Some 9600;
     Customer.updated_at := Some 50 |}.

(** An order of six magnets for pickup, in a given state. *)
Definition order (status : string) (paid printed : option Z) : Order.row :=
  {| Order.id := "order-1";
     Order.order_number := "HS-20240301-001";
     Order.customer_id := Some "customer-1";
     Order.customer_name := "Ada";
     Order.customer_phone := "0400000000";
     Order.customer_email := Some "ada@example.com";
     Order.shipping_type := "pickup";
     Order.product_type := "personal";
     Order.quantity := 6;
     Order.subtotal := 4800;
     Order.shipping_cost := 0;
     Order.discount_amount := 0;
     Order.promo_code_id := None;
     Order.promo_code_used := None;
     Order.total := 4800;
     Order.admin_notes := None;
     Order.status := status;
     Order.stripe_payment_intent_id := None;
     Order.stripe_checkout_session_id := None;
     Order.tracking_number := None;
     Order.carrier := None;
     Order.paid_at := paid;
     Order.printed_at := printed;
     Order.shipped_at := None;
     Order.completed_at := None;
     Order.updated_at := Some 60 |}.

Definition db_with (o : Order.row) : Db.t :=
  {| Db.promo_codes := [];
     Db.promo_code_usage := [];
     Db.customers := [customer];
     Db.orders := [o];
     Db.admins := admins;
     Db.admin_logs := [] |}.

Definition status_body (status : string) : AdminOrders.body :=
  {| AdminOrders.status := Some status;
     AdminOrders.tracking_number := None;
     AdminOrders.carrier := None;
     AdminOrders.admin_notes := None |}.

Definition config : Webhook.config :=
  {| Webhook.RESEND_API_KEY := Some "re_key";
     Webhook.NTFY_TOPIC := Some "heartsnaps-orders";
     Webhook.ADMIN_EMAIL := Some "shop@heartsnaps.com.au" |}.

Definition checkout_completed : Webhook.event :=
  {| Webhook.type := "checkout.session.completed";
     Webhook.object :=
       {| Webhook.session_id := "cs_1";
          Webhook.payment_intent := Some "pi_1";
          Webhook.orderId := Some "order-1";
          Webhook.orderNumber := Some "HS-20240301-001" |} |}.

(** The table after [n] orders of the day 2024-03-01, numbered 1 to [n]. *)
Definition numbered (k : nat) : Order.row :=
  {| Order.id := "order-" ++ OrderNumber.to_text k;
     Order.order_number := Spec.order_number_of "20240301" k;
     Order.customer_id := Some "customer-1";
     Order.customer_name := "Ada";
     Order.customer_phone := "0400000000";
     Order.customer_email := Some "ada@example.com";
     Order.shipping_type := "pickup";
     Order.product_type := "personal";
     Order.quantity := 6;
     Order.subtotal := 4800;
     Order.shipping_cost := 0;
     Order.discount_amount := 0;
     Order.promo_code_id := None;
     Order.promo_code_used := None;
     Order.total := 4800;
     Order.admin_notes := None;
     Order.status := "pending";
     Order.stripe_payment_intent_id := None;
     Order.stripe_checkout_session_id := None;
     Order.tracking_number := None;
     Order.carrier := None;
     Order.paid_at := None;
     Order.printed_at := None;
     Order.shipped_at := None;
     Order.completed_at := None;
     Order.updated_at := Some 60 |}.

Definition day_orders (n : nat) : list Order.row := List.map numbered (seq 1 n).

Definition promo_request (code : string) (subtotal : option Z) : Promo.request :=
  {| Promo.code := Some code;
     Promo.subtotal := subtotal;
     Promo.customerId := None |}.

End Sample.

(** * The rest of the server and its callers *)

(** ** The order flow of the browser ([public/app.js]) *)

Module Client.

(** [calculateSubtotal()], on [orderState.quantity]; the result is in
    dollars. *)
Definition calculateSubtotal (qty : Z) : Z :=
  if 12 <=? qty then qty * 7
  else if 6 <=? qty then qty * 8
  else qty * 10.

(** The body [applyPromoCode()] posts to [/api/validate-promo]:
    [{ code, subtotal: subtotal * 100 }]. *)
Definition promo_preview (code : string) (qty : Z) : Promo.request :=
  {| Promo.code := Some code;
     Promo.subtotal := Some (calculateSubtotal qty * 100);
     Promo.customerId := None |}.

End Client.

(** ** Checkout sessions: [POST /api/create-checkout] *)

Module Checkout.

(** A line item of the session: the amount and the quantity; the texts
    shown to the customer are left out. *)
Record line_item := {
  unit_amount : Z;
  li_quantity : Z
}.

(** What the handler asks of the payment gateway: the line items, the
    [amount_off] of each one-time coupon it created, the metadata and the
    customer's email. *)
Record session_params := {
  line_items : list line_item;
  discounts : list Z;
  metadata_orderId : string;
  metadata_orderNumber : string;
  customer_email : option string
}.

Inductive response :=
| OrderIdRequired      (* 400 'Order ID required' *)
| OrderNotFound        (* 404 'Order not found' *)
| AlreadyProcessed     (* 400 'Order already processed' *)
| SessionCreated (p : session_params).

(** The handler; [orderId] is [req.body.orderId]. *)
Definition create_checkout (orders : list Order.row) (orderId : option string) : response :=
  if negb (Js.truthyS orderId) then OrderIdRequired
  else
    match Webhook.order_by_id orders (default "" orderId) with
    | None => OrderNotFound
    | Some order =>
        if negb (String.eqb order.(Order.status) "pending") then AlreadyProcessed
        else
          let lineItems :=
            ([ {| unit_amount := order.(Order.subtotal); li_quantity := 1 |} ]
             ++ (if 0 <? order.(Order.shipping_cost)
                 then [ {| unit_amount := order.(Order.shipping_cost); li_quantity := 1 |} ]
                 else []))%list in
          let discounts :=
            if (0 <? order.(Order.discount_amount)) && Js.truthyS order.(Order.promo_code_used)
            then [ order.(Order.discount_amount) ]
            else [] in
          SessionCreated
            {| line_items := lineItems;
               discounts := discounts;
               metadata_orderId := order.(Order.id);
               metadata_orderNumber := order.(Order.order_number);
               customer_email :=
                 if Js.truthyS order.(Order.customer_email)
                 then order.(Order.customer_email) else None |}
    end.

End Checkout.

(** ** Order tracking: [GET /api/track/:orderNumber] *)

Module Track.

(** The columns of the answer that the table of this development holds. *)
Record view := {
  order_number : string;
  status : string;
  product_type : string;
  quantity : Z;
  total : Z;
  shipping_type : string;
  tracking_number : option string;
  carrier : option string;
  paid_at : option Z;
  printed_at : option Z;
  shipped_at : option Z;
  completed_at : option Z
}.

Definition view_of (o : Order.row) : view :=
  {| order_number := o.(Order.order_number);
     status := o.(Order.status);
     product_type := o.(Order.product_type);
     quantity := o.(Order.quantity);
     total := o.(Order.total);
     shipping_type := o.(Order.shipping_type);
     tracking_number := o.(Order.tracking_number);
     carrier := o.(Order.carrier);
     paid_at := o.(Order.paid_at);
     printed_at := o.(Order.printed_at);
     shipped_at := o.(Order.shipped_at);
     completed_at := o.(Order.completed_at) |}.

(** The handler; [None] is the 404 'Order not found'. *)
Definition track_order (orders : list Order.row) (orderNumber : string) : option view :=
  view_of <$>
    Sql.single
      (Sql.select
         (fun o => String.eqb o.(Order.order_number) (Js.toUpperCase orderNumber))
         orders).

End Track.

(** ** Promo code administration: [POST] and [DELETE /api/admin/promo-codes] *)

Module PromoAdmin.

Record body := {
  code : option string;
  discount_type : option string;
  discount_value : option Z;
  min_order_amount : option Z;
  max_uses : option Z;
  max_uses_per_customer : option Z;
  expires_at : option Z;
  description : option string
}.

Inductive response :=
| Unauthorized         (* 403 *)
| MissingFields        (* 400 'Code, discount type, and value required' *)
| Failed               (* 500 *)
| Created (p : PromoCode.row)
| Success.             (* 200 { success: true } *)

Definition with_promo_codes (d : Db.t) (p : list PromoCode.row) : Db.t :=
  {| Db.promo_codes := p; Db.promo_code_usage := d.(Db.promo_code_usage);
     Db.customers := d.(Db.customers); Db.orders := d.(Db.orders);
     Db.admins := d.(Db.admins); Db.admin_logs := d.(Db.admin_logs) |}.

(** The row [INSERT INTO promo_codes] stores for a body: the code in upper
    case, the defaults of the handler ([min_order_amount || 0],
    [max_uses_per_customer || 1]) and those of the schema ([uses_count] 0,
    [is_active] true, [starts_at] now). *)
Definition new_row (now : Z) (uuid : string) (b : body) : PromoCode.row :=
  {| PromoCode.id := uuid;
     PromoCode.code := Js.toUpperCase (default "" b.(code));
     PromoCode.discount_type := default "" b.(discount_type);
     PromoCode.discount_value := Js.toNumber b.(discount_value);
     PromoCode.min_order_amount := Some (Js.orZero b.(min_order_amount));
     PromoCode.max_uses := b.(max_uses);
     PromoCode.uses_count := Some 0;
     PromoCode.max_uses_per_customer :=
       Some (if Js.truthyZ b.(max_uses_per_customer)
             then Js.toNumber b.(max_uses_per_customer) else 1);
     PromoCode.is_active := Some true;
     PromoCode.starts_at := Some now;
     PromoCode.expires_at := b.(expires_at);
     PromoCode.description := b.(description) |}.

(** Whether the insertion is accepted: [code] is [UNIQUE] and the integer
    columns are 32-bit. *)
Definition insert_ok (promo_codes : list PromoCode.row) (p : PromoCode.row) : bool :=
  negb (existsb (fun r => String.eqb r.(PromoCode.code) p.(PromoCode.code)) promo_codes)
  && forallb (fun x => match Pricing.int4 x with Some _ => true | None => false end)
       [ p.(PromoCode.discount_value); Js.toNumber p.(PromoCode.min_order_amount);
         Js.toNumber p.(PromoCode.max_uses); Js.toNumber p.(PromoCode.max_uses_per_customer) ].

(** The handler of [POST /api/admin/promo-codes]; [uuid] is the id the
    database draws for the row. *)
Definition create_promo (e : Auth.env) (now : Z) (uuid : string) (d : Db.t)
    (authorization : option string) (b : body) : response * Db.t :=
  match Auth.verifyAdmin e d.(Db.admins) authorization None with
  | None => (Unauthorized, d)
  | Some admin =>
      if negb (Js.truthyS b.(code)) || negb (Js.truthyS b.(discount_type))
         || negb (Js.truthyZ b.(discount_value))
      then (MissingFields, d)
      else
        let promo := new_row now uuid b in
        if insert_ok d.(Db.promo_codes) promo
        then (Created promo,
              Db.log (with_promo_codes d (d.(Db.promo_codes) ++ [promo])%list)
                {| AdminLog.admin_id := admin.(Auth.userId);
                   AdminLog.action := "create_promo_code";
                   AdminLog.target_type := "promo_code";
                   AdminLog.target_id := promo.(PromoCode.id) |})
        else (Failed, d)
  end.

Definition deactivate (p : PromoCode.row) : PromoCode.row :=
  {| PromoCode.id := p.(PromoCode.id);
     PromoCode.code := p.(PromoCode.code);
     PromoCode.discount_type := p.(PromoCode.discount_type);
     PromoCode.discount_value := p.(PromoCode.discount_value);
     PromoCode.min_order_amount := p.(PromoCode.min_order_amount);
     PromoCode.max_uses := p.(PromoCode.max_uses);
     PromoCode.uses_count := p.(PromoCode.uses_count);
     PromoCode.max_uses_per_customer := p.(PromoCode.max_uses_per_customer);
     PromoCode.is_active := Some false;
     PromoCode.starts_at := p.(PromoCode.starts_at);
     PromoCode.expires_at := p.(PromoCode.expires_at);
     PromoCode.description := p.(PromoCode.description) |}.

(** The handler of [DELETE /api/admin/promo-codes/:id]: the code is kept
    and made inactive. *)
Definition deactivate_promo (e : Auth.env) (d : Db.t) (authorization : option string)
    (id : string) : response * Db.t :=
  match Auth.verifyAdmin e d.(Db.admins) authorization None with
  | None => (Unauthorized, d)
  | Some admin =>
      (Success,
       Db.log
         (with_promo_codes d
            (Sql.update (fun p => String.eqb p.(PromoCode.id) id) deactivate
               d.(Db.promo_codes)))
         {| AdminLog.admin_id := admin.(Auth.userId);
            AdminLog.action := "deactivate_promo_code";
            AdminLog.target_type := "promo_code";
            AdminLog.target_id := id |})
  end.

End PromoAdmin.

(** ** Admin users: [POST /api/admin/admins] *)

Module AdminUsers.

(** Body of the request; an absent [role] is ['admin']. *)
Record body := {
  email : option string;
  role : option string
}.

Inductive response :=
| Unauthorized         (* 403 *)
| EmailRequired        (* 400 'Email required' *)
| CannotAssignOwner    (* 400 'Cannot assign owner role' *)
| UserNotFound         (* 404 'User not found. They must sign up first.' *)
| AlreadyAdmin         (* 400 'User is already an admin' *)
| Failed               (* 500 *)
| Success.             (* 200 { success: true } *)

(** [users.find(u => u.email?.toLowerCase() === email.toLowerCase())] *)
Definition find_user (users : list Auth.user) (email : string) : option Auth.user :=
  List.find
    (fun u => match u.(Auth.uemail) with
              | Some m => String.eqb (Js.toLowerCase m) (Js.toLowerCase email)
              | None => false
              end)
    users.

(** The handler; [users] is what [auth.admin.listUsers()] returns. *)
Definition add_admin (e : Auth.env) (users : list Auth.user) (d : Db.t)
    (authorization : option string) (b : body) : response * Db.t :=
  match Auth.verifyAdmin e d.(Db.admins) authorization (Some "super_admin") with
  | None => (Unauthorized, d)
  | Some admin =>
      let role := default "admin" b.(role) in
      if negb (Js.truthyS b.(email)) then (EmailRequired, d)
      else if String.eqb role "owner" then (CannotAssignOwner, d)
      else
        match find_user users (default "" b.(email)) with
        | None => (UserNotFound, d)
        | Some user =>
            match Auth.admin_row d.(Db.admins) user.(Auth.uid) with
            | Some _ => (AlreadyAdmin, d)
            | None =>
                (* [user_id] is [UNIQUE] *)
                if existsb (fun a => String.eqb a.(Admin.user_id) user.(Auth.uid))
                     d.(Db.admins)
                then (Failed, d)
                else
                  (Success,
                   Db.log
                     (Db.with_admins d
                        (d.(Db.admins)
                         ++ [ {| Admin.user_id := user.(Auth.uid); Admin.role := role |} ])%list)
                     {| AdminLog.admin_id := admin.(Auth.userId);
                        AdminLog.action := "add_admin";
                        AdminLog.target_type := "admin";
                        AdminLog.target_id := user.(Auth.uid) |})
            end
        end
  end.

End AdminUsers.

(** ** Deleting an order: [DELETE /api/admin/orders/:id] *)

Module OrderItem.

Record row := {
  order_id : string;
  original_file_path : string;
  original_filename : string;
  position : Z
}.

End OrderItem.

Module AdminDelete.

(** The table [order_items] and the objects of the bucket [order-photos],
    by path. *)
Record store := {
  order_items : list OrderItem.row;
  order_photos : list string
}.

Inductive response :=
| Unauthorized         (* 403 'Unauthorized - requires super_admin' *)
| NotFound             (* 404 'Order not found' *)
| Success.             (* 200 { success: true } *)

(** The handler.  The photos of the order's items are removed from the
    bucket, then the items, then the order.  The result of the last
    [delete()] is not looked at: when a row of [promo_code_usage] still
    refers to the order, the database refuses to drop it and the handler
    answers as if it had. *)
Definition delete_order (e : Auth.env) (d : Db.t) (st : store)
    (authorization : option string) (id : string) : response * Db.t * store :=
  match Auth.verifyAdmin e d.(Db.admins) authorization (Some "super_admin") with
  | None => (Unauthorized, d, st)
  | Some admin =>
      match Webhook.order_by_id d.(Db.orders) id with
      | None => (NotFound, d, st)
      | Some order =>
          let items :=
            Sql.select (fun i => String.eqb i.(OrderItem.order_id) id) st.(order_items) in
          let filePaths := List.map OrderItem.original_file_path items in
          let photos' :=
            List.filter (fun path => negb (Js.includes filePaths path)) st.(order_photos) in
          let items' :=
            Sql.delete (fun i => String.eqb i.(OrderItem.order_id) id) st.(order_items) in
          let orders' :=
            if existsb (fun u => String.eqb u.(PromoUsage.order_id) id)
                 d.(Db.promo_code_usage)
            then d.(Db.orders)
            else Sql.delete (fun o => String.eqb o.(Order.id) id) d.(Db.orders) in
          (Success,
           Db.log (Db.with_orders d orders')
             {| AdminLog.admin_id := admin.(Auth.userId);
                AdminLog.action := "delete_order";
                AdminLog.target_type := "order";
                AdminLog.target_id := id |},
           {| order_items := items'; order_photos := photos' |})
      end
  end.

End AdminDelete.

(** ** Reference definitions for the further properties *)

Module Derived.

(** What the gateway charges for a session: the line items, less the
    coupons. *)
Definition charged (p : Checkout.session_params) : Z :=
  fold_right Z.add 0
    (List.map (fun i => i.(Checkout.unit_amount) * i.(Checkout.li_quantity))
       p.(Checkout.line_items))
  - fold_right Z.add 0 p.(Checkout.discounts).

(** The identity and the money of an order. *)
Definition money (o : Order.row) : string * string * option string * Z * Z * Z * Z * Z :=
  (o.(Order.id), o.(Order.order_number), o.(Order.customer_id), o.(Order.quantity),
   o.(Order.subtotal), o.(Order.shipping_cost), o.(Order.discount_amount), o.(Order.total)).

(** The running totals of a customer. *)
Definition stats (c : Customer.row) : option Z * option Z :=
  (c.(Customer.order_count), c.(Customer.total_spent)).

(** The identifying fields of a customer. *)
Definition identity (c : Customer.row) : string * string :=
  (c.(Customer.id), c.(Customer.phone)).

(** A configuration with no notification channel. *)
Definition silent : Webhook.config :=
  {| Webhook.RESEND_API_KEY := None;
     Webhook.NTFY_TOPIC := None;
     Webhook.ADMIN_EMAIL := None |}.

End Derived.

Module Numbering.

(** A table of orders as a day of sequential creation leaves it: the
    [k]-th row carries sequence [k] of the day. *)
Definition numbered (date : string) (orders : list Order.row) : Prop :=
  forall k o, nth_error orders k = Some o ->
              o.(Order.order_number) = Spec.order_number_of date (S k).

(** A text without lower-case letters. *)
Fixpoint no_lower (s : string) : bool :=
  match s with
  | EmptyString => true
  | String c r =>
      negb ((97 <=? nat_of_ascii c) && (nat_of_ascii c <=? 122))%nat && no_lower r
  end.

End Numbering.

Module Audit.

(** What an admin handler does to the audit log: when it succeeds, one row
    more, in the name of the verified caller; when it does not, nothing
    changes in the database. *)
Definition logged (d d' : Db.t) (caller : option Auth.principal) (succeeded : bool) : Prop :=
  if succeeded
  then exists c row,
         caller = Some c
         /\ row.(AdminLog.admin_id) = c.(Auth.userId)
         /\ d'.(Db.admin_logs) = (d.(Db.admin_logs) ++ [row])%list
  else d' = d.

End Audit.

(** ** Concrete data for the further examples *)

Module Cases.

(** The database of a day with [n] orders and the sample admins. *)
Definition day_db (n : nat) : Db.t :=
  Db.with_orders (Sample.db_with (Sample.order "paid" None None)) (Sample.day_orders n).

Definition item (order path : string) (position : Z) : OrderItem.row :=
  {| OrderItem.order_id := order;
     OrderItem.original_file_path := path;
     OrderItem.original_filename := "photo.jpg";
     OrderItem.position := position |}.

(** Two photos of the first order and one of the second. *)
Definition store : AdminDelete.store :=
  {| AdminDelete.order_items :=
       [ item "order-1" "orders/order-1/0_10.jpg" 0;
         item "order-1" "orders/order-1/1_11.jpg" 1;
         item "order-2" "orders/order-2/0_12.jpg" 0 ];
     AdminDelete.order_photos :=
       [ "orders/order-1/0_10.jpg"; "orders/order-1/1_11.jpg"; "orders/order-2/0_12.jpg" ] |}.

End Cases.

(** ** The dashboard: [GET /api/admin/stats] *)

Module Stats.

(** A row of [.from('orders').select('id, status, total, product_type,
    created_at')]. *)
Record row := {
  id : string;
  status : string;
  total : Z;
  product_type : string;
  created_at : Z
}.

Record order_counts := {
  oc_total : nat;
  pending : nat;
  paid : nat;
  printing : nat;
  shipped : nat;
  ready_pickup : nat;
  completed : nat;
  cancelled : nat;
  needsAction : nat
}.

Record revenue := {
  rv_total : Z;
  today : Z;
  week : Z;
  month : Z
}.

Record t := {
  orders : order_counts;
  rev : revenue;
  personal : nat;
  business : nat;
  customers : Z
}.

(** [rows.filter(o => o.status === s).length] *)
Definition with_status (s : string) (rows : list row) : nat :=
  length (List.filter (fun o => String.eqb o.(status) s) rows).

(** [rows.reduce((sum, o) => sum + o.total, 0)] *)
Definition sum_total (rows : list row) : Z :=
  fold_left (fun sum o => sum + o.(total)) rows 0.

(** [rows.filter(o => new Date(o.created_at) >= start)] *)
Definition since (start : Z) (rows : list row) : list row :=
  List.filter (fun o => start <=? o.(created_at)) rows.

(** The statistics the handler computes from the rows of [orders] and the
    count of [customers].  [todayStart], [weekStart] and [monthStart] are
    the three dates it derives from the clock: the local midnight of the
    day, of seven days before and of one month before. *)
Definition compute (todayStart weekStart monthStart : Z) (rows : list row)
    (customerCount : Z) : t :=
  let paidOrders :=
    List.filter
      (fun o => negb (String.eqb o.(status) "pending")
                && negb (String.eqb o.(status) "cancelled"))
      rows in
  {| orders :=
       {| oc_total := length rows;
          pending := with_status "pending" rows;
          paid := with_status "paid" rows;
          printing := with_status "printing" rows;
          shipped := with_status "shipped" rows;
          ready_pickup := with_status "ready_pickup" rows;
          completed := with_status "completed" rows;
          cancelled := with_status "cancelled" rows;
          needsAction :=
            length (List.filter (fun o => Js.includes ["paid"] o.(status)) rows) |};
     rev :=
       {| rv_total := sum_total paidOrders;
          today := sum_total (since todayStart paidOrders);
          week := sum_total (since weekStart paidOrders);
          month := sum_total (since monthStart paidOrders) |};
     personal := length (List.filter (fun o => String.eqb o.(product_type) "personal") rows);
     business := length (List.filter (fun o => String.eqb o.(product_type) "business") rows);
     customers := customerCount |}.

(** The handler: 403 ([None]) unless the caller is an admin. *)
Definition admin_stats (e : Auth.env) (admins : list Admin.row)
    (authorization : option string) (todayStart weekStart monthStart : Z)
    (rows : list row) (customerCount : Z) : option t :=
  match Auth.verifyAdmin e admins authorization None with
  | None => None
  | Some _ => Some (compute todayStart weekStart monthStart rows customerCount)
  end.

(** The statuses the dashboard counts one by one. *)
Definition counted : list string :=
  [ "pending"; "paid"; "printing"; "shipped"; "ready_pickup"; "completed"; "cancelled" ].

End Stats.

(** ** The list of admins: [GET /api/admin/admins] *)

Module AdminList.

Record entry := {
  user_id : option string;
  role : string;
  email : option string;
  isOwner : bool
}.

(** [a.email?.toLowerCase() === ownerEmail] *)
Definition has_email (ownerEmail : string) (a : entry) : bool :=
  match a.(email) with
  | Some m => String.eqb (Js.toLowerCase m) ownerEmail
  | None => false
  end.

(** The entry of a row of the table, with the email of its user. *)
Definition of_row (e : Auth.env) (a : Admin.row) : entry :=
  let mail := e.(Auth.getUserById) a.(Admin.user_id) ≫= Auth.uemail in
  {| user_id := Some a.(Admin.user_id);
     role := a.(Admin.role);
     email := mail;
     isOwner := Auth.is_owner e mail |}.

(** The loop that puts in front the owners the list does not hold yet. *)
Definition add_owners (owners : list string) (adminList : list entry) : list entry :=
  fold_left
    (fun acc ownerEmail =>
       if existsb (has_email ownerEmail) acc then acc
       else {| user_id := None; role := "owner"; email := Some ownerEmail;
               isOwner := true |} :: acc)
    owners adminList.

(** The handler: 403 ([None]) unless the caller is a super admin; the rows
    of the table come in the order of their creation. *)
Definition list_admins (e : Auth.env) (admins : list Admin.row)
    (authorization : option string) : option (list entry) :=
  match Auth.verifyAdmin e admins authorization (Some "super_admin") with
  | None => None
  | Some _ => Some (add_owners e.(Auth.OWNER_EMAILS) (List.map (of_row e) admins))
  end.

End AdminList.

Module Header.

(** A text without a space. *)
Fixpoint no_space (s : string) : bool :=
  match s with
  | EmptyString => true
  | String c r => negb (Ascii.eqb " " c) && no_space r
  end.

End Header.
(** * Properties *)

(** ** Doubles *)

Lemma IZR_pow2 (k : Z) : 0 <= k -> IZR (2 ^ k) = powerRZ 2 k.
Proof.
  destruct k as [ | p | p]; [reflexivity | | lia].
  intros _. apply (Zpower_pos_powerRZ 2).
Qed.

Lemma powerRZ_2_pos (e : Z) : (0 < powerRZ 2 e)%R.
Proof. apply powerRZ_lt. lra. Qed.

Lemma powerRZ_2_add (a b : Z) : powerRZ 2 (a + b) = (powerRZ 2 a * powerRZ 2 b)%R.
Proof. apply powerRZ_add. lra. Qed.

Lemma powerRZ_2_52 : powerRZ 2 52 = 4503599627370496%R.
Proof. rewrite <- IZR_pow2 by lia. reflexivity. Qed.

Lemma powerRZ_2_53 : powerRZ 2 53 = 9007199254740992%R.
Proof. rewrite <- IZR_pow2 by lia. reflexivity. Qed.

Lemma powerRZ_2_1 : powerRZ 2 1 = 2%R.
Proof. simpl. lra. Qed.

Lemma powerRZ_2_le (a b : Z) : a <= b -> (powerRZ 2 a <= powerRZ 2 b)%R.
Proof.
  intros H. replace b with (a + (b - a)) by lia. rewrite powerRZ_2_add.
  rewrite <- (IZR_pow2 (b - a)) by lia.
  assert (1 <= 2 ^ (b - a)) by (apply (Z.pow_le_mono_r 2 0); lia).
  apply IZR_le in H0. pose proof (powerRZ_2_pos a). nra.
Qed.

Lemma nearest_even_spec (n d : Z) :
  0 <= n -> 0 < d ->
  2 * Z.abs (Double.nearest_even n d * d - n) <= d
  /\ (forall a, a * d <= n -> a <= Double.nearest_even n d)
  /\ (forall b, n <= b * d -> Double.nearest_even n d <= b).
Proof.
  intros Hn Hd. unfold Double.nearest_even.
  pose proof (Z.div_mod n d ltac:(lia)) as Hdm.
  pose proof (Z.mod_pos_bound n d Hd) as Hr.
  set (q := n / d) in *. set (r := n mod d) in *.
  destruct (Z.ltb_spec (2 * r) d); [ | destruct (Z.ltb_spec d (2 * r)); [ | destruct (Z.even q)]];
    (split; [nia | split; intros; nia]).
Qed.

Lemma scaled_spec (n d e : Z) :
  0 < d ->
  0 < (Double.scaled n d e).2
  /\ (0 <= n -> 0 <= (Double.scaled n d e).1)
  /\ (IZR (Double.scaled n d e).1 / IZR (Double.scaled n d e).2
      = IZR n / IZR d * powerRZ 2 (- e))%R.
Proof.
  intros Hd. unfold Double.scaled. cbn [fst snd].
  assert (Hp : forall k, 0 < 2 ^ Z.max 0 k) by (intros; apply Z.pow_pos_nonneg; lia).
  split; [pose proof (Hp e); nia | ].
  split; [intros; pose proof (Hp (- e)); nia | ].
  rewrite !mult_IZR, !IZR_pow2 by lia.
  pose proof (powerRZ_2_pos (Z.max 0 e)). pose proof (powerRZ_2_pos (Z.max 0 (- e))).
  apply IZR_lt in Hd.
  replace (- e) with (Z.max 0 (- e) + - Z.max 0 e) at 2 by lia.
  rewrite powerRZ_2_add, powerRZ_neg'. field. split; lra.
Qed.

Lemma powerRZ_2_sub (a b : Z) : powerRZ 2 (a - b) = (powerRZ 2 a / powerRZ 2 b)%R.
Proof.
  unfold Z.sub. rewrite powerRZ_2_add, powerRZ_neg'. reflexivity.
Qed.

Lemma Rdiv_le_intro (a b x : R) : (0 < b -> a <= x * b -> a / b <= x)%R.
Proof.
  intros Hb H. apply (Rmult_le_reg_r b); [exact Hb | ].
  replace (a / b * b)%R with a by (field; lra). exact H.
Qed.

Lemma Rdiv_lt_intro (a b x : R) : (0 < b -> x * b < a -> x < a / b)%R.
Proof.
  intros Hb H. apply (Rmult_lt_reg_r b); [exact Hb | ].
  replace (a / b * b)%R with a by (field; lra). exact H.
Qed.

Lemma Rdiv_le_intro' (a b x : R) : (0 < b -> x * b <= a -> x <= a / b)%R.
Proof.
  intros Hb H. apply (Rmult_le_reg_r b); [exact Hb | ].
  replace (a / b * b)%R with a by (field; lra). exact H.
Qed.

Lemma round_pos_expo (n d : Z) :
  0 < n -> 0 < d ->
  (powerRZ 2 (52 + (Double.round_pos n d).(Double.expo)) <= IZR n / IZR d
   < powerRZ 2 (53 + (Double.round_pos n d).(Double.expo)))%R.
Proof.
  intros Hn Hd. unfold Double.round_pos. cbn [Double.expo].
  set (e0 := Z.log2 n - Z.log2 d - 53).
  pose proof (Z.log2_spec n Hn) as [Hn1 Hn2]. pose proof (Z.log2_spec d Hd) as [Hd1 Hd2].
  pose proof (Z.log2_nonneg n) as Ha. pose proof (Z.log2_nonneg d) as Hb.
  apply IZR_le in Hn1, Hd1. apply IZR_lt in Hn2, Hd2.
  rewrite IZR_pow2 in Hn1, Hn2, Hd1, Hd2 by lia.
  unfold Z.succ in Hn2, Hd2. rewrite powerRZ_2_add, powerRZ_2_1 in Hn2, Hd2.
  set (A := powerRZ 2 (Z.log2 n)) in *. set (B := powerRZ 2 (Z.log2 d)) in *.
  assert (HA : (0 < A)%R) by apply powerRZ_2_pos.
  assert (HB : (0 < B)%R) by apply powerRZ_2_pos.
  assert (HE : powerRZ 2 e0 = (A / (B * 9007199254740992))%R).
  { unfold e0. rewrite !powerRZ_2_sub, powerRZ_2_53. fold A B. field. lra. }
  set (X := (IZR n / IZR d)%R).
  assert (HX : (X * IZR d = IZR n)%R) by (unfold X; field; lra).
  assert (HX0 : (0 < X)%R) by (unfold X; apply Rdiv_lt_0_compat; lra).
  assert (Hlo : (A < 2 * B * X)%R) by nra.
  assert (Hhi : (B * X < 2 * A)%R) by nra.
  destruct (scaled_spec n d e0 Hd) as (HD & _ & Hratio). fold X in Hratio.
  set (N0 := (Double.scaled n d e0).1) in *. set (D0 := (Double.scaled n d e0).2) in *.
  rewrite powerRZ_neg', HE in Hratio.
  assert (Hratio' : (IZR N0 * A = X * (B * 9007199254740992) * IZR D0)%R).
  { apply IZR_lt in HD.
    apply (Rmult_eq_compat_r (IZR D0 * A)) in Hratio.
    field_simplify in Hratio; try lra. }
  destruct (Z.leb_spec (2 ^ 53 * D0) N0) as [Hge | Hlt].
  - apply IZR_le in Hge. rewrite mult_IZR in Hge. change (IZR (2 ^ 53)) with 9007199254740992%R in Hge.
    apply IZR_lt in HD.
    replace (52 + (e0 + 1)) with (e0 + 53) by lia. replace (53 + (e0 + 1)) with (e0 + 53 + 1) by lia.
    rewrite !powerRZ_2_add, powerRZ_2_53, powerRZ_2_1, HE.
    replace (A / (B * 9007199254740992) * 9007199254740992)%R with (A / B)%R by (field; lra).
    split.
    + apply Rdiv_le_intro; [lra | ]. nra.
    + replace (A / B * 2)%R with (2 * A / B)%R by (field; lra).
      apply Rdiv_lt_intro; [lra | nra].
  - apply IZR_lt in Hlt. rewrite mult_IZR in Hlt. change (IZR (2 ^ 53)) with 9007199254740992%R in Hlt.
    apply IZR_lt in HD.
    replace (52 + e0) with (e0 + 53 + - 1) by lia. replace (53 + e0) with (e0 + 53) by lia.
    rewrite !powerRZ_2_add, powerRZ_2_53, HE.
    change (powerRZ 2 (-1)) with (/ (2 * 1))%R.
    replace (A / (B * 9007199254740992) * 9007199254740992)%R with (A / B)%R by (field; lra).
    replace (A / B * / (2 * 1))%R with (A / (2 * B))%R by (field; lra).
    split.
    + apply Rdiv_le_intro; [lra | nra].
    + apply Rdiv_lt_intro; [lra | ]. nra.
Qed.

Lemma round_pos_mant (n d : Z) :
  (Double.round_pos n d).(Double.mant)
  = Double.nearest_even (Double.scaled n d (Double.round_pos n d).(Double.expo)).1
      (Double.scaled n d (Double.round_pos n d).(Double.expo)).2.
Proof. reflexivity. Qed.

Lemma round_pos_spec (n d : Z) :
  0 < n -> 0 < d ->
  (Rabs (Double.val (Double.round_pos n d) - IZR n / IZR d)
   <= powerRZ 2 (Double.round_pos n d).(Double.expo) / 2)%R
  /\ 2 ^ 52 <= (Double.round_pos n d).(Double.mant) <= 2 ^ 53.
Proof.
  intros Hn Hd. pose proof (round_pos_expo n d Hn Hd) as Hexp.
  unfold Double.val. rewrite round_pos_mant.
  set (e := (Double.round_pos n d).(Double.expo)) in *.
  destruct (scaled_spec n d e Hd) as (HD & HN & Hratio).
  specialize (HN ltac:(lia)).
  set (N := (Double.scaled n d e).1) in *. set (D := (Double.scaled n d e).2) in *.
  destruct (nearest_even_spec N D HN HD) as (Hnear & Hlow & Hupp).
  set (m := Double.nearest_even N D) in *.
  set (X := (IZR n / IZR d)%R) in *.
  pose proof (powerRZ_2_pos e) as HE. set (E := powerRZ 2 e) in *.
  rewrite !powerRZ_2_add, powerRZ_2_52, powerRZ_2_53 in Hexp. fold E in Hexp.
  rewrite powerRZ_neg' in Hratio. fold E in Hratio.
  assert (HDr : (0 < IZR D)%R) by (apply IZR_lt in HD; exact HD).
  assert (HNX : (IZR N = X / E * IZR D)%R).
  { apply (Rmult_eq_compat_r (IZR D)) in Hratio.
    replace (IZR N / IZR D * IZR D)%R with (IZR N) in Hratio by (field; lra).
    rewrite Hratio. field. lra. }
  split.
  - assert (Hnr : (2 * Rabs (IZR m * IZR D - IZR N) <= IZR D)%R).
    { rewrite <- mult_IZR, <- minus_IZR, <- abs_IZR.
      change 2%R with (IZR 2). rewrite <- mult_IZR. apply IZR_le. exact Hnear. }
    replace (IZR m * E - X)%R with ((IZR m * IZR D - IZR N) * (E / IZR D))%R
      by (rewrite HNX; field; lra).
    rewrite Rabs_mult, (Rabs_pos_eq (E / IZR D)) by (apply Rlt_le, Rdiv_lt_0_compat; lra).
    apply (Rmult_le_reg_r (IZR D / E)); [apply Rdiv_lt_0_compat; lra | ].
    replace (Rabs (IZR m * IZR D - IZR N) * (E / IZR D) * (IZR D / E))%R
      with (Rabs (IZR m * IZR D - IZR N)) by (field; lra).
    replace (E / 2 * (IZR D / E))%R with (IZR D / 2)%R by (field; lra).
    lra.
  - split.
    + apply Hlow. apply le_IZR. rewrite mult_IZR. change (IZR (2 ^ 52)) with 4503599627370496%R.
      rewrite HNX.
      assert (4503599627370496 <= X / E)%R by (apply Rdiv_le_intro'; lra).
      nra.
    + apply Hupp. apply le_IZR. rewrite mult_IZR. change (IZR (2 ^ 53)) with 9007199254740992%R.
      rewrite HNX.
      assert (X / E <= 9007199254740992)%R by (apply Rdiv_le_intro; lra).
      nra.
Qed.

(** The relative error of one rounding is at most [2^-53]. *)
Lemma round_pos_error (n d : Z) :
  0 < n -> 0 < d ->
  (Rabs (Double.val (Double.round_pos n d) - IZR n / IZR d)
   <= IZR n / IZR d / 9007199254740992)%R.
Proof.
  intros Hn Hd. destruct (round_pos_spec n d Hn Hd) as [Herr _].
  pose proof (round_pos_expo n d Hn Hd) as [Hlo _].
  rewrite powerRZ_2_add, powerRZ_2_52 in Hlo.
  pose proof (powerRZ_2_pos (Double.round_pos n d).(Double.expo)). lra.
Qed.

Lemma round_error (n d : Z) :
  0 < d ->
  (Rabs (Double.val (Double.round n d) - IZR n / IZR d)
   <= Rabs (IZR n / IZR d) / 9007199254740992)%R.
Proof.
  intros Hd. assert (Hdr : (0 < IZR d)%R) by (apply IZR_lt in Hd; exact Hd).
  destruct n as [ | p | p]; cbn [Double.round].
  - unfold Double.val. simpl. unfold Rdiv. rewrite !Rmult_0_l, Rminus_0_r, Rabs_R0. lra.
  - pose proof (round_pos_error (Z.pos p) d ltac:(lia) Hd) as H.
    rewrite (Rabs_pos_eq (IZR (Z.pos p) / IZR d)); [exact H | ].
    apply Rlt_le, Rdiv_lt_0_compat; [apply IZR_lt; lia | lra].
  - pose proof (round_pos_error (- Z.neg p) d ltac:(lia) Hd) as H.
    unfold Double.val in *. cbn [Double.mant Double.expo].
    rewrite opp_IZR in *.
    set (r := Double.round_pos (- Z.neg p) d) in *.
    set (V := (IZR (Double.mant r) * powerRZ 2 (Double.expo r))%R) in *.
    set (X := (IZR (Z.neg p) / IZR d)%R).
    replace (- IZR (Z.neg p) / IZR d)%R with (- X)%R in H by (unfold X; field; lra).
    assert (HX : (X < 0)%R).
    { unfold X. apply Ropp_lt_cancel. rewrite Ropp_0.
      replace (- (IZR (Z.neg p) / IZR d))%R with (- IZR (Z.neg p) / IZR d)%R by (field; lra).
      apply Rdiv_lt_0_compat; [ | lra]. rewrite <- opp_IZR. apply IZR_lt. lia. }
    replace (- IZR (Double.mant r) * powerRZ 2 (Double.expo r) - X)%R with (- (V - - X))%R
      by (unfold V; ring).
    rewrite Rabs_Ropp, (Rabs_left X HX). exact H.
Qed.

(** An integer below [2^53] is a double. *)
Lemma of_Z_exact (z : Z) :
  0 <= z < 2 ^ 53 -> Double.val (Double.of_Z z) = IZR z.
Proof.
  intros [H0 H53]. unfold Double.of_Z.
  destruct z as [ | p | p]; [unfold Double.val; simpl; lra | | lia].
  cbn [Double.round]. set (z := Z.pos p) in *.
  pose proof (round_pos_expo z 1 ltac:(lia) ltac:(lia)) as [Hlo _].
  unfold Double.val. rewrite round_pos_mant.
  set (e := (Double.round_pos z 1).(Double.expo)) in *.
  assert (He : e <= 0).
  { destruct (Z.le_gt_cases e 0) as [ | Hgt]; [assumption | exfalso].
    pose proof (powerRZ_2_le 53 (52 + e) ltac:(lia)) as Hle. rewrite powerRZ_2_53 in Hle.
    apply IZR_lt in H53. change (IZR (2 ^ 53)) with 9007199254740992%R in H53.
    unfold Rdiv in Hlo. rewrite Rinv_1, Rmult_1_r in Hlo. lra. }
  unfold Double.scaled. cbn [fst snd].
  replace (Z.max 0 e) with 0 by lia. replace (Z.max 0 (- e)) with (- e) by lia.
  change (1 * 2 ^ 0) with 1.
  assert (Hn : Double.nearest_even (z * 2 ^ (- e)) 1 = z * 2 ^ (- e)).
  { unfold Double.nearest_even. rewrite Z.mod_1_r, Z.div_1_r. reflexivity. }
  rewrite Hn, mult_IZR, IZR_pow2, powerRZ_neg' by lia.
  pose proof (powerRZ_2_pos e). field. lra.
Qed.

Lemma mul_error (x y : Double.t) :
  (Rabs (Double.val (Double.mul x y) - Double.val x * Double.val y)
   <= Rabs (Double.val x * Double.val y) / 9007199254740992)%R.
Proof.
  pose proof (round_error (x.(Double.mant) * y.(Double.mant)) 1 ltac:(lia)) as H.
  unfold Double.mul, Double.val in *. cbn [Double.mant Double.expo].
  set (r := Double.round _ 1) in *.
  rewrite mult_IZR in H. unfold Rdiv in H. rewrite Rinv_1, !Rmult_1_r in H.
  rewrite !powerRZ_2_add.
  pose proof (powerRZ_2_pos x.(Double.expo)). pose proof (powerRZ_2_pos y.(Double.expo)).
  set (ex := powerRZ 2 x.(Double.expo)) in *. set (ey := powerRZ 2 y.(Double.expo)) in *.
  replace (IZR (Double.mant r) * (powerRZ 2 (Double.expo r) * (ex * ey))
           - IZR (Double.mant x) * ex * (IZR (Double.mant y) * ey))%R
    with ((IZR (Double.mant r) * powerRZ 2 (Double.expo r)
           - IZR (Double.mant x) * IZR (Double.mant y)) * (ex * ey))%R by ring.
  replace (IZR (Double.mant x) * ex * (IZR (Double.mant y) * ey))%R
    with (IZR (Double.mant x) * IZR (Double.mant y) * (ex * ey))%R by ring.
  assert (Hs : (0 < ex * ey)%R) by nra.
  set (s := (ex * ey)%R) in *.
  rewrite (Rabs_mult _ s), (Rabs_mult _ s), (Rabs_pos_eq s) by lra.
  unfold Rdiv. rewrite Rmult_assoc, (Rmult_comm s), <- Rmult_assoc.
  apply Rmult_le_compat_r; [lra | exact H].
Qed.

Lemma div_error (x y : Double.t) :
  y.(Double.mant) <> 0 ->
  (Rabs (Double.val (Double.div x y) - Double.val x / Double.val y)
   <= Rabs (Double.val x / Double.val y) / 9007199254740992)%R.
Proof.
  intros Hy.
  pose proof (round_error (x.(Double.mant) * Z.sgn y.(Double.mant)) (Z.abs y.(Double.mant))
                ltac:(lia)) as H.
  unfold Double.div, Double.val in *. cbn [Double.mant Double.expo].
  set (r := Double.round _ _) in *.
  assert (Hq : (IZR (Double.mant x * Z.sgn (Double.mant y)) / IZR (Z.abs (Double.mant y))
                = IZR (Double.mant x) / IZR (Double.mant y))%R).
  { assert (IZR (Double.mant y) <> 0%R) by (apply not_0_IZR; exact Hy).
    rewrite mult_IZR. destruct (Double.mant y) as [ | p | p]; [lia | | ].
    - change (Z.sgn (Z.pos p)) with 1. change (Z.abs (Z.pos p)) with (Z.pos p).
      field. exact H0.
    - change (Z.abs (Z.neg p)) with (- Z.neg p). change (Z.sgn (Z.neg p)) with (- (1)).
      rewrite !opp_IZR. field. exact H0. }
  rewrite Hq in H.
  assert (Hym : IZR (Double.mant y) <> 0%R) by (apply not_0_IZR; exact Hy).
  rewrite powerRZ_2_add, powerRZ_2_sub.
  pose proof (powerRZ_2_pos x.(Double.expo)). pose proof (powerRZ_2_pos y.(Double.expo)).
  set (ex := powerRZ 2 x.(Double.expo)) in *. set (ey := powerRZ 2 y.(Double.expo)) in *.
  assert (Hs : (0 < ex / ey)%R) by (apply Rdiv_lt_0_compat; lra).
  set (s := (ex / ey)%R) in *.
  replace (IZR (Double.mant r) * (powerRZ 2 (Double.expo r) * s)
           - IZR (Double.mant x) * ex / (IZR (Double.mant y) * ey))%R
    with ((IZR (Double.mant r) * powerRZ 2 (Double.expo r)
           - IZR (Double.mant x) / IZR (Double.mant y)) * s)%R
    by (unfold s; field; lra).
  replace (IZR (Double.mant x) * ex / (IZR (Double.mant y) * ey))%R
    with (IZR (Double.mant x) / IZR (Double.mant y) * s)%R by (unfold s; field; lra).
  rewrite (Rabs_mult _ s), (Rabs_mult _ s), (Rabs_pos_eq s) by lra.
  set (a := Rabs (_ - _)) in *. set (b := Rabs (_ / _)) in *. clearbody a b. nra.
Qed.

Lemma floor_spec (x : Double.t) :
  (IZR (Math.floor x) <= Double.val x < IZR (Math.floor x) + 1)%R.
Proof.
  unfold Math.floor, Double.val.
  destruct (Z.leb_spec 0 x.(Double.expo)) as [He | He].
  - rewrite mult_IZR, IZR_pow2 by exact He. lra.
  - set (k := - x.(Double.expo)). assert (Hk : 0 < 2 ^ k) by (apply Z.pow_pos_nonneg; lia).
    pose proof (Z.div_mod x.(Double.mant) (2 ^ k) ltac:(lia)) as Hdm.
    pose proof (Z.mod_pos_bound x.(Double.mant) (2 ^ k) Hk) as Hr.
    replace x.(Double.expo) with (- k) by lia. rewrite powerRZ_neg', <- IZR_pow2 by lia.
    set (q := x.(Double.mant) / 2 ^ k) in *. set (r := x.(Double.mant) mod 2 ^ k) in *.
    rewrite Hdm, plus_IZR, mult_IZR.
    apply IZR_lt in Hk. destruct Hr as [Hr1 Hr2]. apply IZR_le in Hr1. apply IZR_lt in Hr2.
    set (P := IZR (2 ^ k)) in *.
    replace ((P * IZR q + IZR r) * / P)%R with (IZR q + IZR r / P)%R by (field; lra).
    assert (0 <= IZR r / P < 1)%R.
    { split; [apply Rdiv_le_intro'; lra | ].
      apply (Rmult_lt_reg_r P); [lra | ]. replace (IZR r / P * P)%R with (IZR r) by (field; lra). lra. }
    lra.
Qed.

Lemma of_Z_100 :
  Double.val (Double.of_Z 100) = 100%R /\ (Double.of_Z 100).(Double.mant) <> 0.
Proof.
  split; [apply of_Z_exact; lia | ]. vm_compute. discriminate.
Qed.

Lemma floor_zero (x : Double.t) : Double.val x = 0%R -> Math.floor x = 0.
Proof.
  intros Hx. pose proof (floor_spec x) as [H1 H2]. rewrite Hx in *.
  assert (Math.floor x <= 0) by (apply le_IZR; exact H1).
  assert (-1 < Math.floor x) by (apply lt_IZR; lra).
  lia.
Qed.

Lemma Rabs_le_bounds (a b : R) : (Rabs a <= b -> - b <= a <= b)%R.
Proof. unfold Rabs. destruct (Rcase_abs a); lra. Qed.

Lemma Rabs_zero_bound (a b : R) :
  b = 0%R -> (Rabs a <= Rabs b / 9007199254740992)%R -> a = 0%R.
Proof.
  intros ->. rewrite Rabs_R0. unfold Rdiv. rewrite Rmult_0_l. intros H.
  destruct (Req_dec a 0) as [ | Hne]; [assumption | ].
  apply Rabs_pos_lt in Hne. lra.
Qed.

(** [Math.floor(s * (v / 100))] against the exact quotient. *)
Lemma percent_floor_bounds (s v : Z) :
  0 <= s -> 0 <= v -> s * v < 2 ^ 52 ->
  let F := Math.floor (Double.mul (Double.of_Z s)
                         (Double.div (Double.of_Z v) (Double.of_Z 100))) in
  s * v / 100 - 1 <= F <= s * v / 100
  /\ ((s * v) mod 100 <> 0 -> F = s * v / 100).
Proof.
  intros Hs Hv Hsv F. subst F.
  destruct of_Z_100 as [H100 Hm100].
  set (y := Double.div (Double.of_Z v) (Double.of_Z 100)).
  set (p := Double.mul (Double.of_Z s) y).
  pose proof (div_error (Double.of_Z v) (Double.of_Z 100) Hm100) as Hy. fold y in Hy.
  pose proof (mul_error (Double.of_Z s) y) as Hp. fold p in Hp.
  rewrite H100 in Hy.
  destruct (Z.eq_dec (s * v) 0) as [Hz | Hnz].
  - assert (Hp0 : Double.val p = 0%R).
    { apply Z.eq_mul_0 in Hz as [-> | ->].
      - rewrite (of_Z_exact 0) in Hp by lia.
        apply Rabs_zero_bound in Hp; lra.
      - rewrite (of_Z_exact 0) in Hy by lia.
        apply Rabs_zero_bound in Hy; [ | lra].
        assert (Hy0 : Double.val y = 0%R) by lra. rewrite Hy0 in Hp.
        apply Rabs_zero_bound in Hp; lra. }
    rewrite (floor_zero p Hp0), Hz. change (0 / 100) with 0. change (0 mod 100) with 0.
    split; [lia | intros []; reflexivity].
  - assert (Hs1 : 1 <= s) by nia. assert (Hv1 : 1 <= v) by nia.
    rewrite (of_Z_exact v) in Hy by nia. rewrite (of_Z_exact s) in Hp by nia.
    pose proof (floor_spec p) as [Hf1 Hf2].
    set (F := Math.floor p) in *. set (vp := Double.val p) in *. set (vy := Double.val y) in *.
    pose proof (Z.div_mod (s * v) 100 ltac:(lia)) as Hdm.
    pose proof (Z.mod_pos_bound (s * v) 100 ltac:(lia)) as Hr.
    set (E := s * v / 100) in *. set (r := (s * v) mod 100) in *.
    assert (HQ : (IZR s * IZR v = 100 * IZR E + IZR r)%R)
      by (rewrite <- mult_IZR, Hdm, plus_IZR, mult_IZR; reflexivity).
    assert (HQ52 : (IZR s * IZR v <= 4503599627370495)%R)
      by (rewrite <- mult_IZR; apply IZR_le; change (2 ^ 52) with 4503599627370496 in Hsv; lia).
    assert (HS : (1 <= IZR s)%R) by (apply IZR_le; exact Hs1).
    assert (HV : (1 <= IZR v)%R) by (apply IZR_le; exact Hv1).
    assert (Hr99 : (IZR r <= 99)%R) by (apply IZR_le; lia).
    destruct Hr as [Hr0 _]. apply IZR_le in Hr0.
    rewrite (Rabs_pos_eq (IZR v / 100)) in Hy by lra.
    apply Rabs_le_bounds in Hy.
    assert (Hvy : (0 <= vy)%R) by lra.
    rewrite (Rabs_pos_eq (IZR s * vy)) in Hp by nra.
    apply Rabs_le_bounds in Hp.
    assert (Hlo : (IZR s * (IZR v / 100 - IZR v / 100 / 9007199254740992) <= IZR s * vy)%R)
      by (apply Rmult_le_compat_l; lra).
    assert (Hhi : (IZR s * vy <= IZR s * (IZR v / 100 + IZR v / 100 / 9007199254740992))%R)
      by (apply Rmult_le_compat_l; lra).
    set (Q := (IZR s * IZR v)%R) in *. set (T := (IZR s * vy)%R) in *.
    replace (IZR s * (IZR v / 100 - IZR v / 100 / 9007199254740992))%R
      with (Q / 100 - Q / 100 / 9007199254740992)%R in Hlo by (unfold Q; field).
    replace (IZR s * (IZR v / 100 + IZR v / 100 / 9007199254740992))%R
      with (Q / 100 + Q / 100 / 9007199254740992)%R in Hhi by (unfold Q; field).
    assert (Hnear : (Q / 100 - 1 / 100 < vp < Q / 100 + 1 / 100)%R) by lra.
    clearbody Q T E r F vp vy.
    assert (HF1 : E - 1 <= F) by (apply Z.lt_succ_r, lt_IZR; unfold Z.succ; rewrite plus_IZR, minus_IZR; lra).
    assert (HF2 : F <= E) by (apply Z.lt_succ_r, lt_IZR; unfold Z.succ; rewrite plus_IZR; lra).
    split; [lia | ].
    intros Hr. assert (Hr1 : 1 <= r) by (apply le_IZR in Hr0; lia).
    apply IZR_le in Hr1.
    assert (E <= F) by (apply Z.lt_succ_r, lt_IZR; unfold Z.succ; rewrite plus_IZR; lra).
    lia.
Qed.

(** A product with the double [0] is [0], whatever the other factor. *)
Lemma floor_mul_zero (y : Double.t) :
  Math.floor (Double.mul (Double.of_Z 0) y) = 0.
Proof.
  unfold Math.floor, Double.mul. cbn -[Z.leb Z.pow Z.div].
  destruct (0 <=? _); [reflexivity | apply Zdiv_0_l].
Qed.

(** Percentages that come out one cent short of the integer quotient: 29
    percent of 3000, 35 and 70 percent of 5600; and one that does not: 10
    percent of 8400. *)
Lemma percent_floor_examples :
  Math.floor (Double.mul (Double.of_Z 3000) (Double.div (Double.of_Z 29) (Double.of_Z 100)))
  = 869
  /\ Math.floor (Double.mul (Double.of_Z 5600) (Double.div (Double.of_Z 35) (Double.of_Z 100)))
     = 1959
  /\ Math.floor (Double.mul (Double.of_Z 5600) (Double.div (Double.of_Z 70) (Double.of_Z 100)))
     = 3919
  /\ Math.floor (Double.mul (Double.of_Z 8400) (Double.div (Double.of_Z 10) (Double.of_Z 100)))
     = 840.
Proof. vm_compute. repeat split. Qed.

(** [Double] against the IEEE 754 formalisation of the Standard Library:
    for the price of every quantity up to 30 and every percentage up to
    100, and for some negative and some large operands, [a * (b / 100)] is
    the same double in both. *)
Lemma double_agrees_with_binary64 :
  (forall q b : nat,
      (q <= 30)%nat -> (b <= 100)%nat ->
      Binary64.agrees (Spec.tier_price (Z.of_nat q)) (Z.of_nat b) = true)
  /\ Binary64.agrees (-3000) 29 = true
  /\ Binary64.agrees 3000 (-29) = true
  /\ Binary64.agrees (2 ^ 53 + 1) 33 = true
  /\ Binary64.agrees 12345678901234567890 2147483647 = true.
Proof.
  split; [ | vm_compute; repeat split].
  assert (H : forallb (fun q => forallb (fun b => Binary64.agrees (Spec.tier_price (Z.of_nat q))
                                                   (Z.of_nat b))
                                  (seq 0 101)) (seq 0 31) = true)
    by (vm_compute; reflexivity).
  intros q b Hq Hb. rewrite List.forallb_forall in H.
  specialize (H q ltac:(apply in_seq; lia)). rewrite List.forallb_forall in H.
  apply H, in_seq. lia.
Qed.

(** ** Pricing *)

Lemma PRICING_product_type pt :
  In pt Pricing.product_types -> Pricing.non_product_key pt = false.
Proof.
  simpl. intros [<- | [<- | []]]; reflexivity.
Qed.

Lemma calculatePrice_tiers q pt :
  Pricing.non_product_key pt = false ->
  Pricing.calculatePrice q (Some pt)
  = Some (if 12 <=? q then q * 700 else if 6 <=? q then q * 800 else q * 1000).
Proof.
  unfold Pricing.non_product_key, Pricing.calculatePrice. simpl.
  unfold Pricing.PRICING.
  repeat (case_match; try discriminate; simplify_eq; simpl); reflexivity.
Qed.

(** C7.  For every quantity [q >= 1], and every product type (indeed every
    text that is not one of the other keys of the price list, and also when
    the product type is left out), [calculatePrice] is [q * 1000] up to 5,
    [q * 800] from 6 to 11 and [q * 700] from 12 on, the unit price applying
    to every unit; so 12 costs 8400, 11 costs 8800, 6 costs 4800, 5 costs
    5000 and 1 costs 1000. *)
Theorem calculatePrice_tiered (q : Z) (pt : string) :
  1 <= q ->
  Pricing.non_product_key pt = false ->
  Pricing.calculatePrice q (Some pt) = Some (Spec.tier_price q)
  /\ Pricing.calculatePrice q None = Some (Spec.tier_price q)
  /\ (1 <= q <= 5 -> Pricing.calculatePrice q (Some pt) = Some (q * 1000))
  /\ (6 <= q <= 11 -> Pricing.calculatePrice q (Some pt) = Some (q * 800))
  /\ (12 <= q -> Pricing.calculatePrice q (Some pt) = Some (q * 700))
  /\ Pricing.calculatePrice 12 (Some pt) = Some 8400
  /\ Pricing.calculatePrice 11 (Some pt) = Some 8800
  /\ Pricing.calculatePrice 6 (Some pt) = Some 4800
  /\ Pricing.calculatePrice 5 (Some pt) = Some 5000
  /\ Pricing.calculatePrice 1 (Some pt) = Some 1000.
Proof.
  intros Hq Hpt.
  assert (Hdef : Pricing.calculatePrice q None = Pricing.calculatePrice q (Some "personal"))
    by reflexivity.
  rewrite Hdef, !(calculatePrice_tiers _ pt Hpt), (calculatePrice_tiers q "personal") by reflexivity.
  unfold Spec.tier_price.
  repeat split; intros; try reflexivity;
    repeat (case_match; try lia); f_equal; lia.
Qed.

Lemma calculatePrice_tiered_witness :
  1 <= 7 /\ Pricing.non_product_key "business" = false
  /\ Pricing.calculatePrice 7 (Some "business") = Some 5600.
Proof.
  split; [lia | split; [reflexivity | ]].
  destruct (calculatePrice_tiered 7 "business") as [H _]; [lia | reflexivity | exact H].
Defined.

(** The stored procedure of the schema has the same tiers; it agrees with
    [calculatePrice] wherever its 32-bit result does not overflow. *)
Lemma calculate_order_price_agrees (q : Z) :
  1 <= q <= 3067833 ->
  Pricing.calculate_order_price q = Pricing.calculatePrice q None.
Proof.
  intros Hq. unfold Pricing.calculate_order_price, Pricing.calculatePrice, Pricing.int4.
  simpl.
  repeat (case_match; try lia); reflexivity.
Qed.

(** A key of the price list that is not a product type makes
    [calculatePrice] throw. *)
Lemma calculatePrice_shipping_key_throws (q : Z) :
  Pricing.calculatePrice q (Some "shipping") = None.
Proof. reflexivity. Qed.

(** ** Promo validation *)

Section PromoChecks.

Variables (now : Z) (promo_codes : list PromoCode.row) (usage : list PromoUsage.row).
Variable req : Promo.request.

(** C6.  For a request that carries a code, the checks are made in the
    order: code not found or inactive, expired, not yet active, global usage
    limit, below the minimum order, per-customer limit; the first check that
    fails gives the rejection, and the code is valid when none fails.  In
    particular a code whose expiry has passed is rejected as expired
    whatever the subtotal and the minimum order, never as below the
    minimum. *)
Theorem validate_promo_first_failing_check :
  Js.truthyS req.(Promo.code) = true ->
  (Promo.find_active promo_codes (default "" req.(Promo.code)) = None ->
   Promo.validate_promo now promo_codes usage req = Promo.Rejected Promo.NOT_FOUND)
  /\ (forall promo,
        Promo.find_active promo_codes (default "" req.(Promo.code)) = Some promo ->
        (Promo.expired now promo = true -> Promo.validate_promo now promo_codes usage req = Promo.Rejected Promo.EXPIRED)
        /\ (Promo.expired now promo = false ->
            Promo.not_yet_active now promo = true ->
            Promo.validate_promo now promo_codes usage req = Promo.Rejected Promo.NOT_YET_ACTIVE)
        /\ (Promo.expired now promo = false ->
            Promo.not_yet_active now promo = false ->
            Promo.limit_reached promo = true ->
            Promo.validate_promo now promo_codes usage req = Promo.Rejected Promo.LIMIT_REACHED)
        /\ (Promo.expired now promo = false ->
            Promo.not_yet_active now promo = false ->
            Promo.limit_reached promo = false ->
            Promo.below_minimum req.(Promo.subtotal) promo = true ->
            Promo.validate_promo now promo_codes usage req = Promo.Rejected Promo.BELOW_MINIMUM)
        /\ (Promo.expired now promo = false ->
            Promo.not_yet_active now promo = false ->
            Promo.limit_reached promo = false ->
            Promo.below_minimum req.(Promo.subtotal) promo = false ->
            Promo.customer_limit_reached usage req.(Promo.customerId) promo = true ->
            Promo.validate_promo now promo_codes usage req = Promo.Rejected Promo.CUSTOMER_LIMIT_REACHED)
        /\ (Promo.expired now promo = false ->
            Promo.not_yet_active now promo = false ->
            Promo.limit_reached promo = false ->
            Promo.below_minimum req.(Promo.subtotal) promo = false ->
            Promo.customer_limit_reached usage req.(Promo.customerId) promo = false ->
            exists v, Promo.validate_promo now promo_codes usage req = Promo.Valid v)
        /\ (forall t s m,
              promo.(PromoCode.expires_at) = Some t -> t < now ->
              req.(Promo.subtotal) = Some s ->
              promo.(PromoCode.min_order_amount) = Some m -> s < m ->
              Promo.validate_promo now promo_codes usage req = Promo.Rejected Promo.EXPIRED
              /\ Promo.validate_promo now promo_codes usage req <> Promo.Rejected Promo.BELOW_MINIMUM)).
Proof.
  intros Hcode. unfold Promo.validate_promo. rewrite Hcode. simpl.
  split.
  - intros ->. reflexivity.
  - intros promo ->.
    repeat split; intros; simplify_eq;
      repeat match goal with
             | H : _ = true |- _ => rewrite H
             | H : _ = false |- _ => rewrite H
             end; eauto.
    + unfold Promo.expired.
      match goal with H : PromoCode.expires_at _ = _ |- _ => rewrite H end.
      replace (t <? now) with true by (symmetry; apply Z.ltb_lt; assumption).
      reflexivity.
    + unfold Promo.expired.
      match goal with H : PromoCode.expires_at _ = _ |- _ => rewrite H end.
      replace (t <? now) with true by (symmetry; apply Z.ltb_lt; assumption).
      discriminate.
Qed.

(** C10.  When the request's subtotal is absent or zero, the minimum-order
    check is not made: the request is never rejected as below the minimum,
    a code that passes the other checks is valid whatever its
    [min_order_amount], and the discount computed for a percentage code is
    0. *)
Theorem validate_promo_falsy_subtotal_skips_minimum :
  req.(Promo.subtotal) = None \/ req.(Promo.subtotal) = Some 0 ->
  Promo.validate_promo now promo_codes usage req <> Promo.Rejected Promo.BELOW_MINIMUM
  /\ (forall promo,
        Js.truthyS req.(Promo.code) = true ->
        Promo.find_active promo_codes (default "" req.(Promo.code)) = Some promo ->
        Promo.expired now promo = false ->
        Promo.not_yet_active now promo = false ->
        Promo.limit_reached promo = false ->
        Promo.customer_limit_reached usage req.(Promo.customerId) promo = false ->
        exists v, Promo.validate_promo now promo_codes usage req = Promo.Valid v
                  /\ v.(Promo.promoId) = promo.(PromoCode.id)
                  /\ (promo.(PromoCode.discount_type) = "percentage" ->
                      v.(Promo.calculatedDiscount) = 0))
  /\ (forall v,
        Promo.validate_promo now promo_codes usage req = Promo.Valid v ->
        v.(Promo.discountType) = "percentage" ->
        v.(Promo.calculatedDiscount) = 0).
Proof.
  intros Hsub. unfold Promo.validate_promo.
  assert (Hbelow : forall promo, Promo.below_minimum req.(Promo.subtotal) promo = false)
    by (intros promo; unfold Promo.below_minimum; destruct Hsub as [-> | ->]; reflexivity).
  assert (Hzero : Js.orZero req.(Promo.subtotal) = 0)
    by (destruct Hsub as [-> | ->]; reflexivity).
  assert (Hpct : forall promo, promo.(PromoCode.discount_type) = "percentage" ->
                               Promo.discount_of 0 promo = 0)
    by (intros promo Hp; unfold Promo.discount_of; rewrite Hp; apply floor_mul_zero).
  repeat split.
  - repeat (case_match; try discriminate). rewrite Hbelow in *. discriminate.
  - intros promo -> -> -> -> -> Hc. simpl. rewrite Hbelow, Hc, Hzero.
    eexists; repeat split; simpl. apply Hpct.
  - intros v. repeat (case_match; try discriminate).
    intros [= <-]. simpl. rewrite Hzero. apply Hpct.
Qed.

End PromoChecks.

Lemma validate_promo_first_failing_check_witness :
  Promo.validate_promo 2000 [Sample.old10] [] (Sample.promo_request "old10" (Some 1000))
  = Promo.Rejected Promo.EXPIRED.
Proof.
  destruct (validate_promo_first_failing_check 2000 [Sample.old10] []
              (Sample.promo_request "old10" (Some 1000)) eq_refl) as [_ H].
  destruct (H Sample.old10 eq_refl) as [H1 _].
  exact (H1 eq_refl).
Defined.

Lemma validate_promo_falsy_subtotal_skips_minimum_witness :
  exists v,
    Promo.validate_promo 2000 [Sample.min50] [] (Sample.promo_request "MIN50" (Some 0))
    = Promo.Valid v
    /\ v.(Promo.calculatedDiscount) = 0.
Proof.
  destruct (validate_promo_falsy_subtotal_skips_minimum 2000 [Sample.min50] []
              (Sample.promo_request "MIN50" (Some 0)) (or_intror eq_refl)) as (_ & H & _).
  destruct (H Sample.min50 eq_refl eq_refl eq_refl eq_refl eq_refl eq_refl)
    as (v & Hv & _ & Hd).
  exists v. split; [exact Hv | exact (Hd eq_refl)].
Defined.

(** With a subtotal that reaches the handler, the same code is rejected as
    below its minimum. *)
Lemma validate_promo_minimum_checked :
  Promo.validate_promo 2000 [Sample.min50] [] (Sample.promo_request "MIN50" (Some 1000))
  = Promo.Rejected Promo.BELOW_MINIMUM.
Proof. reflexivity. Qed.

(** ** Order creation *)

(** What a created order holds, in terms of the request. *)
Lemma create_order_created w d req o d' :
  Orders.create_order w d req = (Orders.Created o, d') ->
  exists subtotal,
    Pricing.calculatePrice (Js.toNumber req.(Orders.quantity)) req.(Orders.productType)
    = Some subtotal
    /\ Js.truthyZ req.(Orders.quantity) = true
    /\ o.(Order.quantity) = Js.toNumber req.(Orders.quantity)
    /\ o.(Order.subtotal) = subtotal
    /\ o.(Order.shipping_type) = default "delivery" req.(Orders.shippingType)
    /\ o.(Order.shipping_cost) = Orders.shipping_cost_of req.(Orders.shippingType)
    /\ o.(Order.discount_amount)
       = Orders.discount_amount_of subtotal
           (Orders.lookup_promo d.(Db.promo_codes) req.(Orders.promoCode))
    /\ o.(Order.promo_code_id)
       = PromoCode.id <$> Orders.lookup_promo d.(Db.promo_codes) req.(Orders.promoCode)
    /\ o.(Order.total) = subtotal + o.(Order.shipping_cost) - o.(Order.discount_amount)
    /\ o.(Order.status) = "pending".
Proof.
  unfold Orders.create_order.
  destruct (Js.truthyZ (Orders.quantity req)) eqn:Hq.
  2: { rewrite !orb_true_r. discriminate. }
  repeat (case_match; try discriminate);
    intros [= <- <-]; simpl; eexists; repeat split; eauto.
Qed.

Lemma calculatePrice_nonneg q pt s :
  1 <= q -> Pricing.calculatePrice q pt = Some s -> q * 700 <= s.
Proof.
  unfold Pricing.calculatePrice, Pricing.PRICING. intros Hq.
  repeat (case_match; try discriminate; simplify_eq; simpl in * );
    intros [= <-]; lia.
Qed.

(** An order is stored only if the table accepts it. *)
Lemma create_order_insert_ok w d req o d' :
  Orders.create_order w d req = (Orders.Created o, d') ->
  exists orders, Orders.insert_ok orders o = true.
Proof.
  unfold Orders.create_order.
  repeat (case_match; try discriminate); intros [= <- <-]; eexists; eassumption.
Qed.

(** So its subtotal fits a 32-bit column. *)
Lemma create_order_int4 w d req o d' :
  Orders.create_order w d req = (Orders.Created o, d') ->
  - 2147483648 <= o.(Order.subtotal) <= 2147483647.
Proof.
  intros H. apply create_order_insert_ok in H as [orders H].
  unfold Orders.insert_ok in H. apply andb_prop in H as [_ H].
  cbn [forallb] in H. apply andb_prop in H as [_ H]. apply andb_prop in H as [H _].
  unfold Pricing.int4 in H.
  destruct (_ && _) eqn:Hc; [ | discriminate].
  apply andb_prop in Hc as [Hlo Hhi]. apply Z.leb_le in Hlo, Hhi. lia.
Qed.

(** C2, as the code has it.  Every created order has
    [total = subtotal + shipping_cost - discount_amount]; the total is not
    clamped, so it is non-negative exactly when the discount does not
    exceed subtotal plus shipping.  That is the case, for a quantity of at
    least 1, when no promo applies or when a percentage promo has a value
    from 0 to 100: its discount is [Math.floor(subtotal * (value / 100))]
    computed in doubles, which is the integer quotient of
    [subtotal * value] by 100 or, only when that division is exact, one
    less.  The discount of a promo of any other type is its
    [discount_value], uncapped. *)
Theorem create_order_total w d req o d' :
  Orders.create_order w d req = (Orders.Created o, d') ->
  o.(Order.total) = o.(Order.subtotal) + o.(Order.shipping_cost) - o.(Order.discount_amount)
  /\ (0 <= o.(Order.total)
      <-> o.(Order.discount_amount) <= o.(Order.subtotal) + o.(Order.shipping_cost))
  /\ (1 <= o.(Order.quantity) ->
      Orders.lookup_promo d.(Db.promo_codes) req.(Orders.promoCode) = None ->
      o.(Order.discount_amount) = 0 /\ 0 <= o.(Order.total))
  /\ (forall p,
        1 <= o.(Order.quantity) ->
        Orders.lookup_promo d.(Db.promo_codes) req.(Orders.promoCode) = Some p ->
        p.(PromoCode.discount_type) = "percentage" ->
        0 <= p.(PromoCode.discount_value) <= 100 ->
        o.(Order.discount_amount)
        = Math.floor
            (Double.mul (Double.of_Z o.(Order.subtotal))
               (Double.div (Double.of_Z p.(PromoCode.discount_value)) (Double.of_Z 100)))
        /\ (o.(Order.subtotal) * p.(PromoCode.discount_value)) / 100 - 1
           <= o.(Order.discount_amount)
           <= (o.(Order.subtotal) * p.(PromoCode.discount_value)) / 100
        /\ ((o.(Order.subtotal) * p.(PromoCode.discount_value)) mod 100 <> 0 ->
            o.(Order.discount_amount)
            = (o.(Order.subtotal) * p.(PromoCode.discount_value)) / 100)
        /\ 0 <= o.(Order.total))
  /\ (forall p,
        Orders.lookup_promo d.(Db.promo_codes) req.(Orders.promoCode) = Some p ->
        p.(PromoCode.discount_type) <> "percentage" ->
        o.(Order.discount_amount) = p.(PromoCode.discount_value)).
Proof.
  intros H. pose proof (create_order_int4 _ _ _ _ _ H) as Hint.
  apply create_order_created in H
    as (s & Hs & _ & Hqty & Hsub & _ & Hship & Hdisc & _ & Htot & _).
  rewrite Htot, Hsub, Hship, Hdisc, Hqty. rewrite Hsub in Hint.
  assert (Hsc : 0 <= Orders.shipping_cost_of req.(Orders.shippingType))
    by (unfold Orders.shipping_cost_of, Pricing.shipping; case_match; lia).
  split; [lia | ]. split; [lia | ]. split; [ | split].
  - intros Hq ->. split; [reflexivity | ]. cbn [Orders.discount_amount_of].
    pose proof (calculatePrice_nonneg _ _ _ Hq Hs). lia.
  - intros p Hq -> Hp Hv. cbn [Orders.discount_amount_of]. rewrite Hp.
    change ("percentage" =? "percentage")%string with true. cbv iota.
    pose proof (calculatePrice_nonneg _ _ _ Hq Hs) as Hpos.
    destruct (percent_floor_bounds s p.(PromoCode.discount_value)) as [Hb Hex];
      [lia | lia | change (2 ^ 52) with 4503599627370496; nia | ].
    cbv zeta in Hb, Hex.
    set (F := Math.floor _) in *.
    assert (Hle : s * PromoCode.discount_value p / 100 <= s)
      by (apply Z.div_le_upper_bound; nia).
    split; [reflexivity | ]. split; [exact Hb | ]. split; [exact Hex | lia].
  - intros p -> Hp. cbn [Orders.discount_amount_of].
    apply String.eqb_neq in Hp. rewrite Hp. reflexivity.
Qed.

Lemma create_order_total_witness :
  exists o d',
    Orders.create_order Sample.world (Sample.db_of [Sample.off29])
      (Sample.order_request 3 (Some "pickup") (Some "off29")) = (Orders.Created o, d')
    /\ o.(Order.total) = o.(Order.subtotal) + o.(Order.shipping_cost) - o.(Order.discount_amount)
    /\ o.(Order.subtotal) = 3000
    /\ o.(Order.discount_amount) = 869
    /\ o.(Order.total) = 2131.
Proof.
  eexists _, _.
  eassert (E : Orders.create_order Sample.world (Sample.db_of [Sample.off29])
                 (Sample.order_request 3 (Some "pickup") (Some "off29"))
               = (Orders.Created _, _)) by (vm_compute; reflexivity).
  split; [exact E | ].
  split; [exact (proj1 (create_order_total _ _ _ _ _ E)) | repeat split].
Defined.

(** Ten percent of 8400 is exact in doubles too: twelve magnets with
    [MIN50] are stored with discount 840 and total 7560. *)
Lemma create_order_total_exact_percentage :
  exists o d',
    Orders.create_order Sample.world Sample.db
      (Sample.order_request 12 (Some "pickup") (Some "min50")) = (Orders.Created o, d')
    /\ o.(Order.discount_amount) = 840
    /\ o.(Order.total) = 7560.
Proof.
  eexists _, _. split; [vm_compute; reflexivity | ]. split; reflexivity.
Qed.

(** C2, as stated, fails: a fixed promo of 5000 on one magnet collected at
    the shop (subtotal 1000, no shipping) is stored with total -4000. *)
Lemma create_order_total_negative :
  exists o d',
    Orders.create_order Sample.world Sample.db
      (Sample.order_request 1 (Some "pickup") (Some "BIG50")) = (Orders.Created o, d')
    /\ o.(Order.total) = -4000
    /\ ~ Spec.total_invariant o.
Proof.
  eexists _, _. split; [vm_compute; reflexivity | ].
  split; [reflexivity | ].
  unfold Spec.total_invariant. simpl. lia.
Qed.

(** C9, as the code has it.  A created order is charged no shipping
    exactly when its shipping mode is [pickup]; with any other mode, and
    with [delivery] in particular (also when the request names no mode and
    the column takes its default [delivery]), it is charged the flat fee of
    800. *)
Theorem create_order_shipping w d req o d' :
  Orders.create_order w d req = (Orders.Created o, d') ->
  (o.(Order.shipping_cost) = 0 <-> o.(Order.shipping_type) = "pickup")
  /\ (o.(Order.shipping_type) <> "pickup" -> o.(Order.shipping_cost) = Pricing.shipping)
  /\ (o.(Order.shipping_type) = "delivery" -> o.(Order.shipping_cost) = Pricing.shipping)
  /\ (req.(Orders.shippingType) = None ->
      o.(Order.shipping_type) = "delivery" /\ o.(Order.shipping_cost) = Pricing.shipping)
  /\ Pricing.shipping = 800.
Proof.
  intros H. apply create_order_created in H
    as (s & _ & _ & _ & _ & Hty & Hship & _).
  rewrite Hty, Hship. unfold Orders.shipping_cost_of, Sql.eq_opt, Pricing.shipping.
  destruct req.(Orders.shippingType) as [m | ]; simpl.
  - destruct (String.eqb_spec m "pickup") as [-> | Hne].
    + repeat split; try reflexivity; try discriminate; intros; congruence.
    + repeat split; try reflexivity; try discriminate; intros; congruence.
  - repeat split; try reflexivity; try discriminate; intros; congruence.
Qed.

Lemma create_order_shipping_witness :
  exists o d',
    Orders.create_order Sample.world Sample.db
      (Sample.order_request 6 (Some "pickup") None) = (Orders.Created o, d')
    /\ (o.(Order.shipping_cost) = 0 <-> o.(Order.shipping_type) = "pickup")
    /\ o.(Order.total) = 4800.
Proof.
  eexists _, _.
  eassert (E : Orders.create_order Sample.world Sample.db
                 (Sample.order_request 6 (Some "pickup") None)
               = (Orders.Created _, _)) by (vm_compute; reflexivity).
  split; [exact E | ].
  split; [exact (proj1 (create_order_shipping _ _ _ _ _ E)) | reflexivity].
Defined.

(** C9, as stated, fails: an order whose shipping mode is [express], not
    [delivery], is created and charged the fee. *)
Lemma create_order_fee_without_delivery :
  exists o d',
    Orders.create_order Sample.world Sample.db
      (Sample.order_request 6 (Some "express") None) = (Orders.Created o, d')
    /\ o.(Order.shipping_type) = "express"
    /\ o.(Order.shipping_cost) = 800
    /\ ~ Spec.fee_iff_delivery o.
Proof.
  eexists _, _. split; [vm_compute; reflexivity | ].
  split; [reflexivity | split; [reflexivity | ]].
  unfold Spec.fee_iff_delivery. simpl. intros [[H _] _].
  specialize (H eq_refl). discriminate.
Qed.

(** C3 on the code: the code [OLD10] expired at time 1000.  At time 2000
    the validation endpoint rejects it as expired, for the subtotal 8400 of
    twelve magnets; order creation at the same time, on the same table,
    finds it by code and active flag alone and takes 840 off. *)
Theorem create_order_applies_expired_promo :
  Promo.validate_promo Sample.world.(World.now) Sample.db.(Db.promo_codes)
    Sample.db.(Db.promo_code_usage) (Sample.promo_request "OLD10" (Some 8400))
  = Promo.Rejected Promo.EXPIRED
  /\ exists o d',
      Orders.create_order Sample.world Sample.db
        (Sample.order_request 12 (Some "pickup") (Some "OLD10")) = (Orders.Created o, d')
      /\ o.(Order.subtotal) = 8400
      /\ o.(Order.discount_amount) = 840
      /\ o.(Order.promo_code_used) = Some "OLD10"
      /\ o.(Order.total) = 7560.
Proof.
  split; [reflexivity | ].
  eexists _, _. split; [vm_compute; reflexivity | ].
  repeat split.
Qed.

(** The part of C3 that holds: the discount of a created order is a
    function of the stored promo row and of the subtotal computed by the
    server; a request naming no promo, or one that is unknown or inactive,
    gets none. *)
Lemma create_order_discount_server_side w d req o d' :
  Orders.create_order w d req = (Orders.Created o, d') ->
  o.(Order.discount_amount)
  = Orders.discount_amount_of o.(Order.subtotal)
      (Orders.lookup_promo d.(Db.promo_codes) req.(Orders.promoCode))
  /\ (Orders.lookup_promo d.(Db.promo_codes) req.(Orders.promoCode) = None ->
      o.(Order.discount_amount) = 0 /\ o.(Order.promo_code_id) = None).
Proof.
  intros H. apply create_order_created in H
    as (s & _ & _ & _ & Hsub & _ & _ & Hdisc & Hid & _).
  rewrite Hsub, Hdisc, Hid. split; [reflexivity | intros ->; split; reflexivity].
Qed.

(** ** Tables *)

Lemma single_map {A B} (f : A -> B) (l : list A) :
  Sql.single (List.map f l) = f <$> Sql.single l.
Proof. destruct l as [ | a [ | b l]]; reflexivity. Qed.

Lemma select_update {A} (p : A -> bool) (f : A -> A) (l : list A) :
  (forall r, p r = true -> p (f r) = true) ->
  Sql.select p (Sql.update p f l) = List.map f (Sql.select p l).
Proof.
  intros Hp. unfold Sql.select, Sql.update.
  induction l as [ | a l IH]; simpl; [reflexivity | ].
  destruct (p a) eqn:Ha; simpl.
  - rewrite (Hp a Ha), IH. reflexivity.
  - rewrite Ha. exact IH.
Qed.

Lemma order_by_id_update (f : Order.row -> Order.row) orders id :
  (forall o, (f o).(Order.id) = o.(Order.id)) ->
  Webhook.order_by_id (Sql.update (fun o => String.eqb o.(Order.id) id) f orders) id
  = f <$> Webhook.order_by_id orders id.
Proof.
  intros Hf. unfold Webhook.order_by_id.
  rewrite select_update, single_map; [reflexivity | ].
  intros r. rewrite Hf. trivial.
Qed.


(** ** Staff status updates *)

(** C4, as the code has it.  A successful status update to [s] writes the
    current time into the milestone of [s] ([printed_at] for [printing],
    [shipped_at] for [shipped] and for [ready_pickup], [completed_at] for
    [completed]) whether or not that milestone was already set, and leaves
    the other milestones, [paid_at] among them, as they were. *)
Theorem update_order_status_stamps e now d authorization id b d' s o :
  AdminOrders.update_order_status e now d authorization id b = (AdminOrders.Success, d') ->
  b.(AdminOrders.status) = Some s ->
  Webhook.order_by_id d.(Db.orders) id = Some o ->
  exists o',
    Webhook.order_by_id d'.(Db.orders) id = Some o'
    /\ o'.(Order.status) = s
    /\ o'.(Order.paid_at) = o.(Order.paid_at)
    /\ (s = "printing" -> o'.(Order.printed_at) = Some now)
    /\ (s <> "printing" -> o'.(Order.printed_at) = o.(Order.printed_at))
    /\ (s = "shipped" \/ s = "ready_pickup" -> o'.(Order.shipped_at) = Some now)
    /\ (s <> "shipped" -> s <> "ready_pickup" -> o'.(Order.shipped_at) = o.(Order.shipped_at))
    /\ (s = "completed" -> o'.(Order.completed_at) = Some now)
    /\ (s <> "completed" -> o'.(Order.completed_at) = o.(Order.completed_at)).
Proof.
  unfold AdminOrders.update_order_status. intros H Hs Ho.
  destruct (Auth.verifyAdmin _ _ _ _); [ | discriminate].
  destruct (negb _); [discriminate | ].
  injection H as <-. simpl.
  rewrite order_by_id_update, Ho by reflexivity. simpl.
  eexists. split; [reflexivity | ]. simpl. rewrite Hs. simpl.
  repeat split.
  - intros ->. reflexivity.
  - intros Hn. apply String.eqb_neq in Hn. rewrite Hn. reflexivity.
  - intros [-> | ->]; reflexivity.
  - intros Hn1 Hn2. apply String.eqb_neq in Hn1, Hn2. rewrite Hn1, Hn2. reflexivity.
  - intros ->. reflexivity.
  - intros Hn. apply String.eqb_neq in Hn. rewrite Hn. reflexivity.
Qed.

Lemma update_order_status_stamps_witness :
  exists d' o',
    AdminOrders.update_order_status Sample.auth 200
      (Sample.db_with (Sample.order "paid" (Some 90) None))
      (Some "Bearer admin-token") "order-1" (Sample.status_body "printing")
    = (AdminOrders.Success, d')
    /\ Webhook.order_by_id d'.(Db.orders) "order-1" = Some o'
    /\ o'.(Order.paid_at) = Some 90
    /\ o'.(Order.printed_at) = Some 200.
Proof.
  eexists _.
  eassert (E : AdminOrders.update_order_status Sample.auth 200
                 (Sample.db_with (Sample.order "paid" (Some 90) None))
                 (Some "Bearer admin-token") "order-1" (Sample.status_body "printing")
               = (AdminOrders.Success, _)) by (vm_compute; reflexivity).
  destruct (update_order_status_stamps _ _ _ _ _ _ _ "printing"
              (Sample.order "paid" (Some 90) None) E eq_refl eq_refl)
    as (o' & Ho' & _ & Hpaid & Hprinted & _).
  exists o'. split; [exact E | ]. split; [exact Ho' | ].
  split; [exact Hpaid | exact (Hprinted eq_refl)].
Defined.

(** C4, as stated, fails: an order printed at time 100 and put in state
    [printing] again at time 200 has its [printed_at] moved to 200. *)
Lemma update_order_status_overwrites_printed_at :
  exists d' o',
    AdminOrders.update_order_status Sample.auth 200
      (Sample.db_with (Sample.order "printing" (Some 90) (Some 100)))
      (Some "Bearer admin-token") "order-1" (Sample.status_body "printing")
    = (AdminOrders.Success, d')
    /\ Webhook.order_by_id d'.(Db.orders) "order-1" = Some o'
    /\ o'.(Order.printed_at) = Some 200
    /\ ~ Spec.milestones_kept (Sample.order "printing" (Some 90) (Some 100)) o'.
Proof.
  eexists _, _. split; [vm_compute; reflexivity | ].
  split; [vm_compute; reflexivity | ].
  split; [reflexivity | ].
  intros H. destruct (H 100) as (_ & Hp & _).
  specialize (Hp eq_refl). discriminate.
Qed.

(** ** Payment confirmation *)

Section Confirmation.

Variable cfg : Webhook.config.

Lemma handle_skip now st ev :
  ev.(Webhook.type) <> "checkout.session.completed"
  \/ Js.truthyS ev.(Webhook.object).(Webhook.orderId) = false
  \/ (forall o,
        Webhook.order_by_id st.(Webhook.db).(Db.orders)
          (default "" ev.(Webhook.object).(Webhook.orderId)) = Some o ->
        o.(Order.status) <> "pending") ->
  Webhook.handle cfg now st (Some ev) = (Webhook.Received, st).
Proof.
  intros Hskip. unfold Webhook.handle.
  destruct (String.eqb_spec ev.(Webhook.type) "checkout.session.completed")
    as [Hty | Hty]; [ | reflexivity].
  destruct (Js.truthyS _) eqn:Hid; [ | reflexivity].
  destruct (Webhook.order_by_id _ _) as [o | ] eqn:Ho; [ | reflexivity].
  destruct (String.eqb_spec o.(Order.status) "pending") as [Hp | Hp]; [ | reflexivity].
  destruct Hskip as [Hs | [Hs | Hs]]; [easy | easy | destruct (Hs o eq_refl Hp)].
Qed.

Lemma handle_confirm now st ev o :
  ev.(Webhook.type) = "checkout.session.completed" ->
  Js.truthyS ev.(Webhook.object).(Webhook.orderId) = true ->
  Webhook.order_by_id st.(Webhook.db).(Db.orders)
    (default "" ev.(Webhook.object).(Webhook.orderId)) = Some o ->
  o.(Order.status) = "pending" ->
  Webhook.handle cfg now st (Some ev) = (Webhook.Received, Spec.confirmed cfg now st ev o).
Proof.
  intros Hty Hid Ho Hp. unfold Webhook.handle, Spec.confirmed.
  rewrite Hty, Hid, Ho, Hp. simpl.
  rewrite order_by_id_update, Ho by reflexivity. reflexivity.
Qed.

Lemma handle_cases st ev :
  (ev.(Webhook.type) <> "checkout.session.completed"
   \/ Js.truthyS ev.(Webhook.object).(Webhook.orderId) = false
   \/ (forall o,
         Webhook.order_by_id st.(Webhook.db).(Db.orders)
           (default "" ev.(Webhook.object).(Webhook.orderId)) = Some o ->
         o.(Order.status) <> "pending"))
  \/ (ev.(Webhook.type) = "checkout.session.completed"
      /\ Js.truthyS ev.(Webhook.object).(Webhook.orderId) = true
      /\ exists o,
          Webhook.order_by_id st.(Webhook.db).(Db.orders)
            (default "" ev.(Webhook.object).(Webhook.orderId)) = Some o
          /\ o.(Order.status) = "pending").
Proof.
  destruct (String.eqb_spec ev.(Webhook.type) "checkout.session.completed")
    as [Hty | Hty]; [ | auto].
  destruct (Js.truthyS ev.(Webhook.object).(Webhook.orderId)) eqn:Hid; [ | auto].
  destruct (Webhook.order_by_id _ _) as [o | ] eqn:Ho;
    [ | left; right; right; discriminate].
  destruct (String.eqb_spec o.(Order.status) "pending") as [Hp | Hp].
  - right. eauto.
  - left. right. right. intros ? [= <-]. exact Hp.
Qed.

Lemma confirmed_order now st ev o :
  Webhook.order_by_id st.(Webhook.db).(Db.orders)
    (default "" ev.(Webhook.object).(Webhook.orderId)) = Some o ->
  Webhook.order_by_id (Spec.confirmed cfg now st ev o).(Webhook.db).(Db.orders)
    (default "" ev.(Webhook.object).(Webhook.orderId))
  = Some (Webhook.mark_paid now ev.(Webhook.object) o).
Proof.
  intros Ho. unfold Spec.confirmed. simpl.
  destruct (Js.truthyS _); simpl; rewrite order_by_id_update, Ho by reflexivity; reflexivity.
Qed.



End Confirmation.



(** ** Admin authorization *)

Lemma includes_In (l : list string) (x : string) : Js.includes l x = true <-> In x l.
Proof.
  unfold Js.includes. rewrite existsb_exists. split.
  - intros (y & Hy & E). apply String.eqb_eq in E. subst. exact Hy.
  - intros H. exists x. split; [exact H | apply String.eqb_refl].
Qed.

Lemma level_bounds r : 0 <= Spec.level r <= 4.
Proof. unfold Spec.level. repeat case_match; lia. Qed.

Lemma required_level_bounds r : 1 <= Spec.required_level r <= 4.
Proof.
  unfold Spec.required_level. pose proof (level_bounds (default "" r)).
  destruct r as [r | ]; simpl in *; [ | lia].
  destruct (Z.eqb_spec (Spec.level r) 0); lia.
Qed.

(** The level the code reads for a required role that is a key of its own
    of the hierarchy, or no key at all. *)
Lemma level_or_required r :
  Js.includes Js.object_prototype_keys r = false ->
  Auth.level_or r 2 = Auth.Level (Spec.required_level (Some r)).
Proof.
  intros Hr. unfold Auth.level_or, Auth.roleHierarchy, Spec.required_level, Spec.level.
  rewrite Hr. repeat (case_match; simplify_eq; simpl in * ); try reflexivity; try lia.
Qed.

(** The level the code reads for a role of the table. *)
Lemma level_or_user r :
  Auth.level_or r 0 = Auth.Level (Spec.level r)
  \/ (Auth.level_or r 0 = Auth.InheritedValue /\ Spec.level r = 0).
Proof.
  unfold Auth.level_or, Auth.roleHierarchy, Spec.level.
  repeat (case_match; simplify_eq; simpl in * ); auto; try lia.
Qed.

Lemma geq_levels r required :
  Js.includes Js.object_prototype_keys (default "admin" required) = false ->
  Auth.geq (Auth.level_or r 0) (Auth.level_or (default "admin" required) 2) = true
  <-> Spec.required_level required <= Spec.level r.
Proof.
  intros Hreq.
  assert (Hl : Auth.level_or (default "admin" required) 2
               = Auth.Level (Spec.required_level required)).
  { destruct required as [q | ]; simpl in *; [apply level_or_required, Hreq | reflexivity]. }
  rewrite Hl. pose proof (required_level_bounds required).
  destruct (level_or_user r) as [-> | [-> H0]]; simpl.
  - apply Z.leb_le.
  - split; [discriminate | lia].
Qed.

(** The allowlist test of the code is membership of the lower-cased email
    in the list. *)
Lemma is_owner_allowlisted (e : Auth.env) (mail : option string) :
  Auth.is_owner e mail = true <-> Spec.allowlisted e mail.
Proof.
  unfold Auth.is_owner, Spec.allowlisted. destruct mail as [m | ].
  - rewrite includes_In. split.
    + intros H. exists m. split; [reflexivity | exact H].
    + intros (m' & [= <-] & H). exact H.
  - split; [discriminate | intros (m' & [=] & _)].
Qed.

Lemma principal_role_cases (e : Auth.env) (admins : list Admin.row) (u : Auth.user) :
  Spec.principal_role e admins u
  = if Auth.is_owner e u.(Auth.uemail) then Some "owner"
    else Admin.role <$> Auth.admin_row admins u.(Auth.uid).
Proof.
  unfold Spec.principal_role, Auth.is_owner. destruct u.(Auth.uemail) as [m | ]; [ | reflexivity].
  destruct (in_dec string_dec _ _) as [Hin | Hout].
  - apply includes_In in Hin. rewrite Hin. reflexivity.
  - destruct (Js.includes _ _) eqn:Hinc; [ | reflexivity].
    apply includes_In in Hinc. contradiction.
Qed.

Lemma admin_row_absent (admins : list Admin.row) (uid : string) :
  (forall row, In row admins -> row.(Admin.user_id) <> uid) ->
  Auth.admin_row admins uid = None.
Proof.
  intros Hno. unfold Auth.admin_row, Sql.select.
  replace (List.filter _ admins) with (@nil Admin.row); [reflexivity | ].
  symmetry. induction admins as [ | a l IH]; [reflexivity | ].
  cbn [List.filter].
  destruct (String.eqb_spec a.(Admin.user_id) uid) as [E | _].
  - destruct (Hno a (or_introl eq_refl) E).
  - apply IH. intros row Hrow. apply Hno. right. exact Hrow.
Qed.

(** C5.  For a caller the identity provider resolves to the user [u], and
    a required role that is one of the hierarchy or is left out:
    [verifyAdmin] grants access exactly when the principal has a role whose
    level (owner 4, super_admin 3, admin 2, moderator 1) is at least the
    required level, which is 2 when no role is required; a user whose email
    is an entry of the owner allowlist is granted as [owner] whatever the
    role table holds; a user whose email is no entry of the allowlist and
    who has no row in the table is denied; an [admin] is denied where
    [super_admin] is required; and removing an admin whose email is an
    entry of the allowlist is refused, by whoever asks, leaving the
    database as it was. *)
Theorem verifyAdmin_hierarchy (e : Auth.env) (admins : list Admin.row)
    (authorization : option string) (token : string) (u : Auth.user)
    (required : option string) :
  Auth.bearer_token authorization = Some token ->
  e.(Auth.getUser) token = Some u ->
  Js.includes Js.object_prototype_keys (default "admin" required) = false ->
  (is_Some (Auth.verifyAdmin e admins authorization required)
   <-> exists r, Spec.principal_role e admins u = Some r
                 /\ Spec.required_level required <= Spec.level r)
  /\ (forall m,
        u.(Auth.uemail) = Some m ->
        In (Js.toLowerCase m) e.(Auth.OWNER_EMAILS) ->
        Auth.verifyAdmin e admins authorization required
        = Some {| Auth.userId := u.(Auth.uid); Auth.email := u.(Auth.uemail);
                  Auth.role := "owner" |})
  /\ (~ Spec.allowlisted e u.(Auth.uemail) ->
      Auth.admin_row admins u.(Auth.uid) = None ->
      Auth.verifyAdmin e admins authorization required = None)
  /\ (~ Spec.allowlisted e u.(Auth.uemail) ->
      (forall row, In row admins -> row.(Admin.user_id) <> u.(Auth.uid)) ->
      Auth.verifyAdmin e admins authorization required = None)
  /\ (forall row,
        ~ Spec.allowlisted e u.(Auth.uemail) ->
        Auth.admin_row admins u.(Auth.uid) = Some row ->
        row.(Admin.role) = "admin" ->
        Auth.verifyAdmin e admins authorization (Some "super_admin") = None)
  /\ Spec.required_level None = 2
  /\ (Spec.level "owner" = 4 /\ Spec.level "super_admin" = 3
      /\ Spec.level "admin" = 2 /\ Spec.level "moderator" = 1)
  /\ (forall d caller target tu m,
        e.(Auth.getUserById) target = Some tu ->
        tu.(Auth.uemail) = Some m ->
        In (Js.toLowerCase m) e.(Auth.OWNER_EMAILS) ->
        exists r, Auth.remove_admin e d caller target = (r, d) /\ r <> Auth.Success).
Proof.
  intros Htok Hu Hreq.
  assert (Hverify : forall req',
             Auth.verifyAdmin e admins authorization req'
             = if Auth.is_owner e u.(Auth.uemail)
               then Some {| Auth.userId := u.(Auth.uid); Auth.email := u.(Auth.uemail);
                            Auth.role := "owner" |}
               else match Auth.admin_row admins u.(Auth.uid) with
                    | None => None
                    | Some admin =>
                        if Auth.geq (Auth.level_or admin.(Admin.role) 0)
                             (Auth.level_or (default "admin" req') 2)
                        then Some {| Auth.userId := u.(Auth.uid);
                                     Auth.email := u.(Auth.uemail);
                                     Auth.role := admin.(Admin.role) |}
                        else None
                    end).
  { intros req'. unfold Auth.verifyAdmin. rewrite Htok, Hu. reflexivity. }
  assert (Hnot : ~ Spec.allowlisted e u.(Auth.uemail) -> Auth.is_owner e u.(Auth.uemail) = false).
  { intros Hn. destruct (Auth.is_owner e u.(Auth.uemail)) eqn:Ho; [ | reflexivity].
    apply is_owner_allowlisted in Ho. contradiction. }
  split.
  { rewrite Hverify, principal_role_cases.
    destruct (Auth.is_owner e u.(Auth.uemail)).
    - split; [intros _ | intros _; eauto].
      exists "owner". split; [reflexivity | ].
      pose proof (required_level_bounds required). change (Spec.level "owner") with 4. lia.
    - destruct (Auth.admin_row admins u.(Auth.uid)) as [row | ]; simpl.
      + pose proof (geq_levels row.(Admin.role) required Hreq) as Hgeq.
        destruct (Auth.geq _ _).
        * split; [intros _ | intros _; eauto].
          exists row.(Admin.role). split; [reflexivity | apply Hgeq; reflexivity].
        * split; [intros [? [=]] | ].
          intros (r & [= <-] & Hle). apply Hgeq in Hle. discriminate.
      + split; [intros [? [=]] | intros (r & [=] & _)]. }
  split.
  { intros m Hm Hin. rewrite Hverify.
    rewrite (proj2 (is_owner_allowlisted e u.(Auth.uemail)))
      by (exists m; split; assumption).
    reflexivity. }
  split; [intros Ho Hrow; rewrite Hverify, (Hnot Ho), Hrow; reflexivity | ].
  split.
  { intros Ho Hrows. rewrite Hverify, (Hnot Ho), (admin_row_absent _ _ Hrows). reflexivity. }
  split; [intros row Ho Hrow Hrole; rewrite Hverify, (Hnot Ho), Hrow, Hrole; reflexivity | ].
  split; [reflexivity | ].
  split; [repeat split | ].
  intros d caller target tu m Htu Hm Hin. unfold Auth.remove_admin.
  destruct (Auth.verifyAdmin e d.(Db.admins) caller (Some "super_admin"));
    [ | eexists; split; [reflexivity | discriminate]].
  rewrite Htu. cbn [mbind option_bind].
  rewrite (proj2 (is_owner_allowlisted e tu.(Auth.uemail)))
    by (exists m; split; assumption).
  eexists; split; [reflexivity | discriminate].
Qed.

Lemma verifyAdmin_hierarchy_witness :
  Auth.verifyAdmin Sample.auth Sample.admins (Some "Bearer owner-token") (Some "super_admin")
  = Some {| Auth.userId := "u-owner"; Auth.email := Some "Owner@Heartsnaps.com.au";
            Auth.role := "owner" |}
  /\ Auth.verifyAdmin Sample.auth Sample.admins (Some "Bearer guest-token") None = None
  /\ Auth.remove_admin Sample.auth (Sample.db_with (Sample.order "paid" None None))
       (Some "Bearer super-token") "u-owner"
     = (Auth.CannotRemoveOwner, Sample.db_with (Sample.order "paid" None None)).
Proof.
  destruct (verifyAdmin_hierarchy Sample.auth Sample.admins (Some "Bearer owner-token")
              "owner-token"
              {| Auth.uid := "u-owner"; Auth.uemail := Some "Owner@Heartsnaps.com.au" |}
              (Some "super_admin") eq_refl eq_refl eq_refl)
    as (_ & Howner & _).
  split; [exact (Howner "Owner@Heartsnaps.com.au" eq_refl (or_introl eq_refl)) | ].
  split; [ | reflexivity].
  destruct (verifyAdmin_hierarchy Sample.auth Sample.admins (Some "Bearer guest-token")
              "guest-token"
              {| Auth.uid := "u-guest"; Auth.uemail := Some "guest@example.com" |}
              None eq_refl eq_refl eq_refl)
    as (_ & _ & _ & Hguest & _).
  apply Hguest.
  - intros (m & [= <-] & [H | []]). discriminate H.
  - intros row [<- | [<- | []]]; discriminate.
Defined.

(** An [admin] asking for an operation that requires [super_admin] is
    denied, and is granted one that requires [admin]. *)
Lemma verifyAdmin_admin_examples :
  Auth.verifyAdmin Sample.auth Sample.admins (Some "Bearer admin-token") (Some "super_admin")
  = None
  /\ is_Some (Auth.verifyAdmin Sample.auth Sample.admins (Some "Bearer admin-token") None)
  /\ Auth.verifyAdmin Sample.auth Sample.admins (Some "Bearer guest-token") None = None.
Proof. repeat split. vm_compute. eauto. Qed.

(** ** Order numbers *)

Lemma append_assoc (a b c : string) : (a ++ b) ++ c = a ++ (b ++ c).
Proof. induction a as [ | x a IH]; simpl; [reflexivity | rewrite IH; reflexivity]. Qed.

Lemma append_inv_head (p a b : string) : p ++ a = p ++ b -> a = b.
Proof. induction p as [ | x p IH]; simpl; [trivial | intros [= H]; auto]. Qed.

Lemma like_percent (s : string) : OrderNumber.like_pat "%" s = true.
Proof.
  induction s as [ | c s IH]; [reflexivity | ].
  simpl in *. exact IH.
Qed.

Lemma like_prefix (p x : string) :
  Spec.no_wildcard p = true -> OrderNumber.like_pat (p ++ "%") (p ++ x) = true.
Proof.
  induction p as [ | c p IH]; intros Hp.
  - apply like_percent.
  - simpl in Hp. apply andb_prop in Hp as [Hc Hp]. apply andb_prop in Hc as [Hc1 Hc2].
    apply negb_true_iff in Hc1, Hc2.
    change (OrderNumber.like_pat (String c (p ++ "%")) (String c (p ++ x)) = true).
    simpl. rewrite Hc1, Hc2, Ascii.eqb_refl. simpl. apply IH, Hp.
Qed.

Lemma no_wildcard_app (a b : string) :
  Spec.no_wildcard (a ++ b) = Spec.no_wildcard a && Spec.no_wildcard b.
Proof.
  induction a as [ | c a IH]; simpl; [reflexivity | ].
  rewrite IH, !andb_assoc. reflexivity.
Qed.

Lemma digit_no_wildcard (c : ascii) :
  Spec.is_digit c = true -> negb (Ascii.eqb c "%") && negb (Ascii.eqb c "_") = true.
Proof.
  destruct c as [[] [] [] [] [] [] [] []]; vm_compute; congruence.
Qed.

Lemma digits_no_wildcard (s : string) :
  Spec.all_digits s = true -> Spec.no_wildcard s = true.
Proof.
  induction s as [ | c s IH]; simpl; [trivial | ].
  intros H. apply andb_prop in H as [Hc Hs].
  rewrite (digit_no_wildcard c Hc), (IH Hs). reflexivity.
Qed.

(** A number of the day matches the pattern the stored procedure counts
    with. *)
Lemma like_number_of_day (date x : string) :
  Spec.is_date date = true ->
  OrderNumber.LIKE ("HS-" ++ date ++ "-" ++ x) ("HS-" ++ date ++ "-%") = true.
Proof.
  intros Hd. apply andb_prop in Hd as [_ Hd]. unfold OrderNumber.LIKE.
  replace ("HS-" ++ date ++ "-%") with (("HS-" ++ date ++ "-") ++ "%")
    by (rewrite !append_assoc; reflexivity).
  replace ("HS-" ++ date ++ "-" ++ x) with (("HS-" ++ date ++ "-") ++ x)
    by (rewrite !append_assoc; reflexivity).
  apply like_prefix.
  rewrite !no_wildcard_app, (digits_no_wildcard date Hd). reflexivity.
Qed.

Lemma todays_app date orders o :
  Spec.todays date (orders ++ [o])%list
  = (Spec.todays date orders
     + if OrderNumber.LIKE o.(Order.order_number) ("HS-" ++ date ++ "-%") then 1 else 0)%nat.
Proof.
  unfold Spec.todays, Sql.select. rewrite List.filter_app, List.length_app.
  cbn [List.filter]. destruct (OrderNumber.LIKE _ _); reflexivity.
Qed.

Lemma below_1000 (P : nat -> bool) :
  forallb P (seq 0 1000) = true -> forall k, (k <= 999)%nat -> P k = true.
Proof.
  intros H k Hk. rewrite forallb_forall in H. apply H, in_seq. lia.
Qed.

(** Up to 999 the padding of the stored procedure cuts nothing. *)
Lemma LPAD_zero_padded (k : nat) :
  (k <= 999)%nat -> OrderNumber.LPAD (OrderNumber.to_text k) 3 "0" = Spec.zero_padded 3 k.
Proof.
  intros Hk. apply String.eqb_eq. revert k Hk.
  apply (below_1000
           (fun k => String.eqb (OrderNumber.LPAD (OrderNumber.to_text k) 3 "0")
                       (Spec.zero_padded 3 k))).
  vm_compute. reflexivity.
Qed.

(** Up to 999 the padded sequence number reads back as the number. *)
Lemma read_zero_padded (k : nat) :
  (k <= 999)%nat -> Spec.read_digits 0 (Spec.zero_padded 3 k) = k.
Proof.
  intros Hk. apply Nat.eqb_eq. revert k Hk.
  apply (below_1000 (fun k => Nat.eqb (Spec.read_digits 0 (Spec.zero_padded 3 k)) k)).
  vm_compute. reflexivity.
Qed.

Lemma zero_padded_length (k : nat) :
  (k <= 999)%nat -> String.length (Spec.zero_padded 3 k) = 3%nat.
Proof.
  intros Hk. apply Nat.eqb_eq. revert k Hk.
  apply (below_1000 (fun k => Nat.eqb (String.length (Spec.zero_padded 3 k)) 3)).
  vm_compute. reflexivity.
Qed.

Lemma order_number_of_inj (date : string) (j k : nat) :
  (j <= 999)%nat -> (k <= 999)%nat ->
  Spec.order_number_of date j = Spec.order_number_of date k -> j = k.
Proof.
  intros Hj Hk H. unfold Spec.order_number_of in H.
  apply append_inv_head, append_inv_head, append_inv_head in H.
  rewrite <- (read_zero_padded j Hj), <- (read_zero_padded k Hk), H. reflexivity.
Qed.

(** What one call of the handler does to the table of orders. *)
Lemma create_order_orders w d req r d' :
  Orders.create_order w d req = (r, d') ->
  (exists o,
      r = Orders.Created o
      /\ d'.(Db.orders) = (d.(Db.orders) ++ [o])%list
      /\ o.(Order.order_number)
         = OrderNumber.generateOrderNumber w.(World.rpc_fails) w.(World.today_date)
             w.(World.utc_date) w.(World.random) d.(Db.orders)
      /\ ~ In o.(Order.order_number) (List.map Order.order_number d.(Db.orders)))
  \/ ((forall o, r <> Orders.Created o) /\ d'.(Db.orders) = d.(Db.orders)).
Proof.
  unfold Orders.create_order.
  destruct (_ || _); [intros [= <- <-]; right; split; [discriminate | reflexivity] | ].
  destruct (_ && _); [intros [= <- <-]; right; split; [discriminate | reflexivity] | ].
  destruct (Pricing.calculatePrice _ _) as [subtotal | ];
    [ | intros [= <- <-]; right; split; [discriminate | reflexivity]].
  destruct (Orders.resolve_customer _ _ _ _ _) as [cid cs].
  destruct (Orders.insert_ok _ _) eqn:Hok;
    [ | intros [= <- <-]; right; split; [discriminate | reflexivity]].
  intros [= <- <-]. simpl.
  left. eexists. split; [reflexivity | ]. split; [reflexivity | ]. split; [reflexivity | ].
  unfold Orders.insert_ok in Hok. apply andb_prop in Hok as [Hok _]. simpl in Hok.
  apply negb_true_iff in Hok. intros Hin. apply in_map_iff in Hin as (r & Hr & Hin).
  assert (Hex : existsb
                  (fun r0 => String.eqb r0.(Order.order_number)
                     (OrderNumber.generateOrderNumber w.(World.rpc_fails)
                        w.(World.today_date) w.(World.utc_date) w.(World.random)
                        d.(Db.orders))) d.(Db.orders) = true).
  { apply existsb_exists. exists r. split; [exact Hin | ]. apply String.eqb_eq, Hr. }
  congruence.
Qed.

Lemma length_append (a b : string) :
  String.length (a ++ b) = (String.length a + String.length b)%nat.
Proof. induction a as [ | c a IH]; simpl; [reflexivity | rewrite IH; reflexivity]. Qed.

Lemma generate_order_number_next date orders :
  (Spec.todays date orders < 999)%nat ->
  OrderNumber.generate_order_number date orders
  = Spec.order_number_of date (Spec.todays date orders + 1).
Proof.
  intros Hc. unfold OrderNumber.generate_order_number, Spec.order_number_of.
  fold (Spec.todays date orders). rewrite LPAD_zero_padded by lia. reflexivity.
Qed.

Lemma order_number_of_length date k :
  Spec.is_date date = true -> (k <= 999)%nat ->
  String.length (Spec.order_number_of date k) = 15%nat.
Proof.
  intros Hd Hk. apply andb_prop in Hd as [Hd _]. apply Nat.eqb_eq in Hd.
  unfold Spec.order_number_of. rewrite !length_append, Hd, zero_padded_length by exact Hk.
  reflexivity.
Qed.

Section DailySequence.

Variable date : string.
Hypothesis date_ok : Spec.is_date date = true.

Lemma place_orders_sequence inputs :
  forall d os d',
    Forall (Spec.of_the_day date) inputs ->
    Spec.place_orders d inputs = (os, d') ->
    (Spec.todays date d.(Db.orders) + length os <= 999)%nat ->
    Spec.todays date d'.(Db.orders) = (Spec.todays date d.(Db.orders) + length os)%nat
    /\ forall k o,
        nth_error os k = Some o ->
        o.(Order.order_number)
        = Spec.order_number_of date (Spec.todays date d.(Db.orders) + S k).
Proof.
  induction inputs as [ | [w req] rest IH]; intros d os d' Hin Hrun Hle.
  - injection Hrun as <- <-. simpl. split; [lia | ].
    intros k o Hk. destruct k; discriminate.
  - inversion Hin as [ | ? ? Hday Hrest]; subst.
    destruct Hday as [Hdate Hrpc]. simpl in Hdate, Hrpc.
    simpl in Hrun.
    destruct (Orders.create_order w d req) as [r d1] eqn:Hcreate.
    destruct (Spec.place_orders d1 rest) as [os1 d2] eqn:Hplace.
    injection Hrun as <- <-.
    apply create_order_orders in Hcreate as [(o & -> & Horders & Hnum & _) | [Hno Horders]].
    + simpl in Hle.
      rewrite Hrpc in Hnum. simpl in Hnum. rewrite Hdate in Hnum.
      rewrite generate_order_number_next in Hnum by lia.
      assert (Hcount : Spec.todays date d1.(Db.orders)
                       = (Spec.todays date d.(Db.orders) + 1)%nat).
      { rewrite Horders, todays_app, Hnum. unfold Spec.order_number_of.
        rewrite like_number_of_day by exact date_ok. reflexivity. }
      destruct (IH d1 os1 d2 Hrest Hplace ltac:(lia)) as [Hend Hnth].
      split; [simpl; lia | ].
      intros [ | k] o' Hk; simpl in Hk.
      * injection Hk as <-. rewrite Hnum. reflexivity.
      * rewrite (Hnth k o' Hk), Hcount. f_equal. lia.
    + assert (Hos : match r with Orders.Created o => o :: os1 | _ => os1 end = os1)
        by (destruct r; try reflexivity; destruct (Hno o eq_refl)).
      rewrite Hos in *. rewrite <- Horders. apply (IH d1 os1 d2 Hrest Hplace).
      rewrite Horders. exact Hle.
Qed.

(** C8, as the code has it.  When the stored procedure answers, the number
    it allocates is the prefix [HS-], the eight digits of the day, a dash,
    and the count of that day's numbers plus one, padded with zeros to
    three digits: up to a count of 998 it is the number of the next
    sequence, 15 characters long.  Requests handled one after another on a
    day that starts with no order, with no order removed in between, up to
    the 999th order created: the [k]-th order created gets sequence [k],
    so the numbers are distinct and without gaps. *)
Theorem daily_sequence_up_to_999 (inputs : list (World.t * Orders.request)) (d : Db.t)
    (os : list Order.row) (d' : Db.t) :
  Forall (Spec.of_the_day date) inputs ->
  Spec.todays date d.(Db.orders) = 0%nat ->
  Spec.place_orders d inputs = (os, d') ->
  (length os <= 999)%nat ->
  (forall k o,
      nth_error os k = Some o ->
      o.(Order.order_number) = Spec.order_number_of date (S k)
      /\ String.length o.(Order.order_number) = 15%nat)
  /\ List.NoDup (List.map Order.order_number os)
  /\ Spec.todays date d'.(Db.orders) = length os
  /\ (forall orders,
        (Spec.todays date orders < 999)%nat ->
        OrderNumber.generate_order_number date orders
        = Spec.order_number_of date (Spec.todays date orders + 1)).
Proof.
  intros Hin Hzero Hrun Hle.
  destruct (place_orders_sequence inputs d os d' Hin Hrun ltac:(lia)) as [Hend Hnth].
  rewrite Hzero in Hend, Hnth. simpl in Hend, Hnth.
  assert (Hlt : forall k o, nth_error os k = Some o -> (S k <= 999)%nat).
  { intros k o Hk. assert (k < length os)%nat by (apply nth_error_Some; congruence). lia. }
  split; [ | split; [ | split; [exact Hend | ]]].
  - intros k o Hk. rewrite (Hnth k o Hk).
    split; [reflexivity | ].
    apply order_number_of_length; [exact date_ok | exact (Hlt k o Hk)].
  - apply NoDup_nth_error. intros i j Hi Heq.
    rewrite List.length_map in Hi. rewrite !nth_error_map in Heq.
    destruct (nth_error os i) as [oi | ] eqn:Hoi;
      [ | apply nth_error_None in Hoi; lia].
    destruct (nth_error os j) as [oj | ] eqn:Hoj; [ | discriminate].
    simpl in Heq. injection Heq as Heq.
    rewrite (Hnth i oi Hoi), (Hnth j oj Hoj) in Heq.
    apply order_number_of_inj in Heq;
      [injection Heq as ->; reflexivity | exact (Hlt i oi Hoi) | exact (Hlt j oj Hoj)].
  - intros orders. apply generate_order_number_next.
Qed.

End DailySequence.

Lemma daily_sequence_up_to_999_witness :
  exists os d',
    Spec.place_orders Sample.db
      [ (Sample.world_at 1, Sample.order_request 6 (Some "pickup") None);
        (Sample.world_at 2, Sample.order_request 12 (Some "delivery") None);
        (Sample.world_at 3, Sample.order_request 1 None None) ]
    = (os, d')
    /\ List.map Order.order_number os = ["HS-20240301-001"; "HS-20240301-002"]
    /\ List.NoDup (List.map Order.order_number os).
Proof.
  eexists _, _.
  eassert (E : Spec.place_orders Sample.db
                 [ (Sample.world_at 1, Sample.order_request 6 (Some "pickup") None);
                   (Sample.world_at 2, Sample.order_request 12 (Some "delivery") None);
                   (Sample.world_at 3, Sample.order_request 1 None None) ]
               = (_, _)) by (vm_compute; reflexivity).
  split; [exact E | ].
  split; [reflexivity | ].
  refine (proj1 (proj2 (daily_sequence_up_to_999 "20240301" eq_refl _ Sample.db _ _ _
                          eq_refl E _))).
  - repeat constructor.
  - simpl. lia.
Defined.

(** C8, as stated, fails at the thousandth order of a day: with the 999
    orders numbered 001 to 999 in the table, the stored procedure pads
    [1000] to three characters by cutting it to [100], the number of the
    hundredth order; that is not sequence 1000, it is already taken, and
    the insertion of the order is refused. *)
Lemma thousandth_order_number_collides :
  OrderNumber.generate_order_number "20240301" (Sample.day_orders 999) = "HS-20240301-100"
  /\ (Sample.numbered 100).(Order.order_number) = "HS-20240301-100"
  /\ In (Sample.numbered 100) (Sample.day_orders 999)
  /\ Spec.order_number_of "20240301" 1000 = "HS-20240301-1000"
  /\ ~ Spec.allocates_next "20240301" (Sample.day_orders 999)
  /\ (Orders.create_order (Sample.world_at 1000)
        (Db.with_orders Sample.db (Sample.day_orders 999))
        (Sample.order_request 6 (Some "pickup") None)).1 = Orders.Failed.
Proof.
  assert (Hgen : OrderNumber.generate_order_number "20240301" (Sample.day_orders 999)
                 = "HS-20240301-100") by (vm_compute; reflexivity).
  split; [exact Hgen | ].
  split; [reflexivity | ].
  split; [apply in_map, in_seq; lia | ].
  split; [reflexivity | ].
  split; [ | vm_compute; reflexivity].
  intros [Hnext _]. rewrite Hgen in Hnext. vm_compute in Hnext. discriminate.
Qed.

(** When the stored procedure fails, the server draws the sequence part at
    random and takes the day in UTC: the number is no sequence number. *)
Lemma generateOrderNumber_fallback today utc random orders :
  OrderNumber.generateOrderNumber true today utc random orders
  = "HS-" ++ utc ++ "-" ++ OrderNumber.padStart (OrderNumber.to_text random) 3 "0".
Proof. reflexivity. Qed.

(** * Further properties of the code *)

(** ** Prices *)

(** X1.  The price of [q >= 1] magnets lies between [700 q] and [1000 q]
    and is at least 1000; it grows with the quantity inside a tier, and
    drops at each tier boundary: six magnets cost less than five, and
    twelve less than eleven. *)
Theorem calculatePrice_bounds_and_drops (pt : string) :
  Pricing.non_product_key pt = false ->
  (forall q, 1 <= q ->
     exists p, Pricing.calculatePrice q (Some pt) = Some p
               /\ 700 * q <= p <= 1000 * q /\ 1000 <= p)
  /\ (forall q q' p p',
        1 <= q <= q' ->
        q' <= 5 \/ (6 <= q /\ q' <= 11) \/ 12 <= q ->
        Pricing.calculatePrice q (Some pt) = Some p ->
        Pricing.calculatePrice q' (Some pt) = Some p' ->
        p <= p')
  /\ (forall p5 p6,
        Pricing.calculatePrice 5 (Some pt) = Some p5 ->
        Pricing.calculatePrice 6 (Some pt) = Some p6 ->
        p6 < p5)
  /\ (forall p11 p12,
        Pricing.calculatePrice 11 (Some pt) = Some p11 ->
        Pricing.calculatePrice 12 (Some pt) = Some p12 ->
        p12 < p11).
Proof.
  intros Hpt. split; [ | split; [ | split]].
  - intros q Hq. rewrite (calculatePrice_tiers q pt Hpt).
    eexists. split; [reflexivity | ]. repeat case_match; lia.
  - intros q q' p p' Hq Htier. rewrite !(calculatePrice_tiers _ pt Hpt).
    intros [= <-] [= <-]. repeat case_match; lia.
  - intros p5 p6. rewrite !(calculatePrice_tiers _ pt Hpt). intros [= <-] [= <-]. lia.
  - intros p11 p12. rewrite !(calculatePrice_tiers _ pt Hpt). intros [= <-] [= <-]. lia.
Qed.

Lemma calculatePrice_bounds_and_drops_witness :
  Pricing.non_product_key "personal" = false
  /\ forall p5 p6,
      Pricing.calculatePrice 5 (Some "personal") = Some p5 ->
      Pricing.calculatePrice 6 (Some "personal") = Some p6 ->
      p6 < p5.
Proof.
  split; [reflexivity | ].
  exact (proj1 (proj2 (proj2 (calculatePrice_bounds_and_drops "personal" eq_refl)))).
Defined.

(** X2.  The stored procedure [calculate_order_price] returns what
    [calculatePrice] returns for every quantity from 1 to 3067833; for a
    larger quantity its 32-bit product is out of range and it raises an
    error, where [calculatePrice] still returns [700 q]. *)
Theorem calculate_order_price_range (q : Z) :
  1 <= q ->
  (q <= 3067833 ->
   Pricing.calculate_order_price q = Pricing.calculatePrice q None)
  /\ (3067833 < q ->
      Pricing.calculate_order_price q = None
      /\ Pricing.calculatePrice q None = Some (700 * q)).
Proof.
  intros Hq. unfold Pricing.calculate_order_price, Pricing.calculatePrice, Pricing.int4.
  simpl. split; intros Hr.
  - repeat (case_match; try lia); reflexivity.
  - repeat (case_match; try lia); split; try reflexivity; f_equal; lia.
Qed.

Lemma calculate_order_price_range_witness :
  Pricing.calculate_order_price 12 = Some 8400
  /\ Pricing.calculate_order_price 3067834 = None.
Proof.
  destruct (calculate_order_price_range 12 ltac:(lia)) as [H12 _].
  destruct (calculate_order_price_range 3067834 ltac:(lia)) as [_ Hbig].
  split; [rewrite (H12 ltac:(lia)); reflexivity | exact (proj1 (Hbig ltac:(lia)))].
Defined.

(** Whatever [calculatePrice] returns is the page's subtotal, in cents. *)
Lemma calculatePrice_cents q pt s :
  Pricing.calculatePrice q pt = Some s -> s = Client.calculateSubtotal q * 100.
Proof.
  unfold Pricing.calculatePrice, Pricing.PRICING, Client.calculateSubtotal.
  repeat (case_match; try discriminate; simplify_eq; simpl in * );
    intros [= <-]; lia.
Qed.

(** X3.  The subtotal the browser shows is the subtotal the server charges:
    whenever [calculatePrice] returns a price, that price is
    [calculateSubtotal] of the page, in cents; and it returns one for both
    product types and for an omitted product type. *)
Theorem client_subtotal_matches_server (q : Z) :
  (forall pt s,
      Pricing.calculatePrice q pt = Some s -> s = Client.calculateSubtotal q * 100)
  /\ Pricing.calculatePrice q (Some "personal") = Some (Client.calculateSubtotal q * 100)
  /\ Pricing.calculatePrice q (Some "business") = Some (Client.calculateSubtotal q * 100)
  /\ Pricing.calculatePrice q None = Some (Client.calculateSubtotal q * 100).
Proof.
  assert (H : forall pt s,
             Pricing.calculatePrice q pt = Some s -> s = Client.calculateSubtotal q * 100)
    by (intros pt s; apply calculatePrice_cents).
  split; [exact H | ].
  assert (Hp : forall pt, Pricing.non_product_key pt = false ->
                          Pricing.calculatePrice q (Some pt)
                          = Some (Client.calculateSubtotal q * 100)).
  { intros pt Hpt. pose proof (calculatePrice_tiers q pt Hpt) as E.
    rewrite E. f_equal. apply (H (Some pt)). exact E. }
  repeat split; [apply Hp; reflexivity | apply Hp; reflexivity | ].
  apply (Hp "personal"). reflexivity.
Qed.

(** ** Promo codes, from preview to order *)

Lemma map_string_empty f s : Js.map_string f s = "" <-> s = "".
Proof. destruct s; simpl; split; congruence. Qed.

Lemma truthyS_upper c c' :
  Js.toUpperCase c = Js.toUpperCase c' -> Js.truthyS (Some c) = Js.truthyS (Some c').
Proof.
  intros H. simpl. destruct (String.eqb_spec c "") as [-> | Hc].
  - symmetry in H. apply map_string_empty in H. subst c'. reflexivity.
  - destruct (String.eqb_spec c' "") as [-> | Hc']; [ | reflexivity].
    apply map_string_empty in H. contradiction.
Qed.

Lemma single_select_In {A} (f : A -> bool) (l : list A) (x : A) :
  Sql.single (Sql.select f l) = Some x -> f x = true /\ In x l.
Proof.
  unfold Sql.single, Sql.select. intros H.
  destruct (List.filter f l) as [ | y [ | z r]] eqn:E; try discriminate.
  injection H as ->.
  assert (Hin : In x (List.filter f l)) by (rewrite E; left; reflexivity).
  apply filter_In in Hin. tauto.
Qed.

(** X5.  Promo codes are matched without regard to the case of the
    letters: two requests whose codes have the same upper-case form get
    the same answer from the validation endpoint, and the same promo at
    order creation. *)
Theorem promo_lookup_ignores_case (now : Z) (promo_codes : list PromoCode.row)
    (usage : list PromoUsage.row) (c c' : string) (subtotal : option Z)
    (customerId : option string) :
  Js.toUpperCase c = Js.toUpperCase c' ->
  Promo.validate_promo now promo_codes usage
    {| Promo.code := Some c; Promo.subtotal := subtotal; Promo.customerId := customerId |}
  = Promo.validate_promo now promo_codes usage
      {| Promo.code := Some c'; Promo.subtotal := subtotal; Promo.customerId := customerId |}
  /\ Orders.lookup_promo promo_codes (Some c) = Orders.lookup_promo promo_codes (Some c').
Proof.
  intros H. pose proof (truthyS_upper c c' H) as Ht.
  unfold Promo.validate_promo, Orders.lookup_promo, Promo.find_active. simpl in *.
  rewrite Ht, H. split; reflexivity.
Qed.

Lemma promo_lookup_ignores_case_witness :
  Promo.validate_promo 2000 [Sample.min50] [] (Sample.promo_request "min50" (Some 8400))
  = Promo.validate_promo 2000 [Sample.min50] [] (Sample.promo_request "Min50" (Some 8400)).
Proof.
  exact (proj1 (promo_lookup_ignores_case 2000 [Sample.min50] [] "min50" "Min50"
                  (Some 8400) None eq_refl)).
Defined.

(** What an accepted validation says of the table. *)
Lemma validate_promo_valid now promo_codes usage req v :
  Promo.validate_promo now promo_codes usage req = Promo.Valid v ->
  exists p,
    Js.truthyS req.(Promo.code) = true
    /\ Promo.find_active promo_codes (default "" req.(Promo.code)) = Some p
    /\ Promo.expired now p = false
    /\ Promo.not_yet_active now p = false
    /\ Promo.limit_reached p = false
    /\ v.(Promo.promoId) = p.(PromoCode.id)
    /\ v.(Promo.v_code) = p.(PromoCode.code)
    /\ v.(Promo.calculatedDiscount) = Promo.discount_of (Js.orZero req.(Promo.subtotal)) p.
Proof.
  unfold Promo.validate_promo.
  destruct (Js.truthyS req.(Promo.code)); [ | discriminate]. simpl.
  destruct (Promo.find_active _ _) as [p | ]; [ | discriminate].
  destruct (Promo.expired now p) eqn:He; [discriminate | ].
  destruct (Promo.not_yet_active now p) eqn:Hn; [discriminate | ].
  destruct (Promo.limit_reached p) eqn:Hl; [discriminate | ].
  destruct (Promo.below_minimum _ p); [discriminate | ].
  destruct (Promo.customer_limit_reached _ _ p); [discriminate | ].
  intros [= <-]. exists p. simpl. repeat split; assumption || reflexivity.
Qed.

(** X4.  The discount the page previews is the discount the order gets:
    when the validation endpoint accepts the code for the subtotal the
    page computes from the quantity, an order created for that quantity
    and code, from the same table of promo codes, carries the previewed
    discount and that promo. *)
Theorem promo_preview_matches_order (w : World.t) (d : Db.t) (req : Orders.request)
    (o : Order.row) (d' : Db.t) (now : Z) (usage : list PromoUsage.row) (c : string)
    (v : Promo.valid) :
  Orders.create_order w d req = (Orders.Created o, d') ->
  req.(Orders.promoCode) = Some c ->
  Promo.validate_promo now d.(Db.promo_codes) usage
    (Client.promo_preview c (Js.toNumber req.(Orders.quantity))) = Promo.Valid v ->
  o.(Order.discount_amount) = v.(Promo.calculatedDiscount)
  /\ o.(Order.promo_code_id) = Some v.(Promo.promoId)
  /\ o.(Order.promo_code_used) = Some v.(Promo.v_code)
  /\ o.(Order.total)
     = o.(Order.subtotal) + o.(Order.shipping_cost) - v.(Promo.calculatedDiscount).
Proof.
  intros Hcreate Hcode Hvalid.
  pose proof (create_order_created _ _ _ _ _ Hcreate)
    as (s & Hs & Hq & _ & Hsub & _ & _ & Hdisc & Hid & Htot & _).
  assert (Hused : o.(Order.promo_code_used)
                  = PromoCode.code <$> Orders.lookup_promo d.(Db.promo_codes)
                                         req.(Orders.promoCode)).
  { revert Hcreate. unfold Orders.create_order.
    repeat (case_match; try discriminate); intros [= <- <-]; reflexivity. }
  pose proof (calculatePrice_cents _ _ _ Hs) as Hcents.
  assert (Hnz : Js.orZero (Some (Client.calculateSubtotal (Js.toNumber req.(Orders.quantity)) * 100))
                = s).
  { rewrite <- Hcents. unfold Js.orZero. simpl.
    destruct (Z.eqb_spec s 0) as [E0 | E0]; simpl; congruence. }
  apply validate_promo_valid in Hvalid
    as (p & Htruthy & Hfind & _ & _ & _ & Hvid & Hvcode & Hvdisc).
  cbn [Client.promo_preview Promo.code Promo.subtotal default] in Htruthy, Hfind, Hvdisc.
  assert (Hlook : Orders.lookup_promo d.(Db.promo_codes) req.(Orders.promoCode) = Some p).
  { rewrite Hcode. unfold Orders.lookup_promo. rewrite Htruthy. exact Hfind. }
  rewrite Hlook in Hdisc, Hid, Hused. simpl in Hdisc, Hid, Hused.
  assert (Hd : o.(Order.discount_amount) = v.(Promo.calculatedDiscount)).
  { rewrite Hdisc, Hvdisc, Hnz. reflexivity. }
  split; [exact Hd | ].
  split; [rewrite Hid, Hvid; reflexivity | ].
  split; [rewrite Hused, Hvcode; reflexivity | ].
  rewrite Htot, Hsub, Hd. reflexivity.
Qed.

Lemma promo_preview_matches_order_witness :
  exists o d',
    Orders.create_order Sample.world Sample.db
      (Sample.order_request 12 (Some "pickup") (Some "min50")) = (Orders.Created o, d')
    /\ o.(Order.discount_amount) = 840.
Proof.
  eexists _, _.
  eassert (E : Orders.create_order Sample.world Sample.db
                 (Sample.order_request 12 (Some "pickup") (Some "min50"))
               = (Orders.Created _, _)) by (vm_compute; reflexivity).
  split; [exact E | ].
  eassert (V : Promo.validate_promo 2000 Sample.db.(Db.promo_codes) []
                 (Client.promo_preview "min50" 12) = Promo.Valid _)
    by (vm_compute; reflexivity).
  exact (proj1 (promo_preview_matches_order _ _ _ _ _ _ _ "min50" _ E eq_refl V)).
Defined.

(** ** Checkout *)

Lemma order_by_id_fresh orders o :
  Forall (fun r => r.(Order.id) <> o.(Order.id)) orders ->
  Webhook.order_by_id (orders ++ [o])%list o.(Order.id) = Some o.
Proof.
  intros Hfresh. unfold Webhook.order_by_id, Sql.select.
  rewrite List.filter_app. simpl. rewrite String.eqb_refl.
  replace (List.filter (fun r => String.eqb r.(Order.id) o.(Order.id)) orders) with (@nil Order.row).
  - reflexivity.
  - symmetry. induction Hfresh as [ | r l Hr _ IH]; simpl; [reflexivity | ].
    apply String.eqb_neq in Hr. rewrite Hr. exact IH.
Qed.

(** The id and the promo a created order carries. *)
Lemma create_order_identity w d req o d' :
  Orders.create_order w d req = (Orders.Created o, d') ->
  o.(Order.id) = w.(World.order_uuid)
  /\ o.(Order.promo_code_used)
     = PromoCode.code <$> Orders.lookup_promo d.(Db.promo_codes) req.(Orders.promoCode)
  /\ d'.(Db.orders) = (d.(Db.orders) ++ [o])%list.
Proof.
  intros H. pose proof (create_order_orders _ _ _ _ _ H) as [(o1 & [= <-] & Ho & _) | [Hno _]];
    [ | destruct (Hno o eq_refl)].
  split; [ | split; [ | exact Ho]];
    revert H; unfold Orders.create_order;
    repeat (case_match; try discriminate); intros [= <- <-]; reflexivity.
Qed.

Lemma lookup_promo_code promo_codes promoCode p :
  Orders.lookup_promo promo_codes promoCode = Some p ->
  Js.truthyS (Some p.(PromoCode.code)) = true.
Proof.
  unfold Orders.lookup_promo, Promo.find_active.
  destruct (Js.truthyS promoCode) eqn:Ht; [ | discriminate].
  intros H. apply single_select_In in H as [H _].
  apply andb_prop in H as [H _]. apply String.eqb_eq in H.
  destruct promoCode as [c | ]; [ | discriminate]. simpl in *.
  destruct (String.eqb_spec p.(PromoCode.code) "") as [E | E]; [ | reflexivity].
  rewrite E in H. symmetry in H. apply map_string_empty in H. subst c. discriminate.
Qed.

(** X6.  The checkout session of a freshly created order asks the gateway
    for the order's total: the subtotal as one line, the shipping as a
    second line when there is any, and a coupon for the discount when
    there is one; this holds whenever the discount is not negative.  The
    session carries the order's id and number. *)
Theorem checkout_charges_order_total (w : World.t) (d : Db.t) (req : Orders.request)
    (o : Order.row) (d' : Db.t) :
  Orders.create_order w d req = (Orders.Created o, d') ->
  Forall (fun r => r.(Order.id) <> w.(World.order_uuid)) d.(Db.orders) ->
  w.(World.order_uuid) <> "" ->
  0 <= o.(Order.discount_amount) ->
  exists p,
    Checkout.create_checkout d'.(Db.orders) (Some o.(Order.id)) = Checkout.SessionCreated p
    /\ Derived.charged p = o.(Order.total)
    /\ p.(Checkout.metadata_orderId) = o.(Order.id)
    /\ p.(Checkout.metadata_orderNumber) = o.(Order.order_number).
Proof.
  intros Hcreate Hfresh Hne Hdisc.
  pose proof (create_order_identity _ _ _ _ _ Hcreate) as (Hid & Hused & Horders).
  pose proof (create_order_created _ _ _ _ _ Hcreate)
    as (s & _ & _ & _ & Hsub & _ & Hship & Hd & _ & Htot & Hstatus).
  rewrite <- Hid in Hfresh, Hne.
  unfold Checkout.create_checkout. simpl.
  apply String.eqb_neq in Hne. rewrite Hne. simpl.
  rewrite Horders, (order_by_id_fresh _ _ Hfresh), Hstatus. simpl.
  eexists. split; [reflexivity | ]. split; [ | split; reflexivity].
  unfold Derived.charged. simpl.
  assert (Hcoupon : (0 <? o.(Order.discount_amount)) = true ->
                    Js.truthyS o.(Order.promo_code_used) = true).
  { intros Hpos. rewrite Hused.
    destruct (Orders.lookup_promo _ _) as [p | ] eqn:Hl.
    - simpl. exact (lookup_promo_code _ _ _ Hl).
    - try rewrite Hl in Hd. simpl in Hd. rewrite Hd in Hpos. discriminate. }
  rewrite Htot, Hsub. rewrite Hship. unfold Orders.shipping_cost_of, Pricing.shipping.
  destruct (Sql.eq_opt _ _); simpl;
    destruct (0 <? o.(Order.discount_amount)) eqn:Hpos;
    try rewrite (Hcoupon eq_refl); simpl; try lia;
    apply Z.ltb_ge in Hpos; lia.
Qed.

Lemma checkout_charges_order_total_witness :
  exists o d' p,
    Orders.create_order Sample.world Sample.db
      (Sample.order_request 12 (Some "delivery-by-post") (Some "min50"))
    = (Orders.Created o, d')
    /\ Checkout.create_checkout d'.(Db.orders) (Some o.(Order.id)) = Checkout.SessionCreated p
    /\ Derived.charged p = 8360.
Proof.
  eexists _, _.
  eassert (E : Orders.create_order Sample.world Sample.db
                 (Sample.order_request 12 (Some "delivery-by-post") (Some "min50"))
               = (Orders.Created _, _)) by (vm_compute; reflexivity).
  destruct (checkout_charges_order_total _ _ _ _ _ E ltac:(constructor)
              ltac:(discriminate) ltac:(vm_compute; discriminate))
    as (p & Hp & Hcharged & _).
  exists p. split; [exact E | ]. split; [exact Hp | ].
  rewrite Hcharged. reflexivity.
Defined.

(** X7.  Once a confirmation has marked an order paid, no checkout session
    can be opened for it again: the order that could be checked out before
    the delivery is answered 'Order already processed' after it. *)
Theorem paid_order_cannot_be_checked_out (cfg : Webhook.config) (now : Z)
    (st : Webhook.state) (ev : Webhook.event) (o : Order.row) :
  ev.(Webhook.type) = "checkout.session.completed" ->
  Js.truthyS ev.(Webhook.object).(Webhook.orderId) = true ->
  Webhook.order_by_id st.(Webhook.db).(Db.orders)
    (default "" ev.(Webhook.object).(Webhook.orderId)) = Some o ->
  o.(Order.status) = "pending" ->
  (exists p,
      Checkout.create_checkout st.(Webhook.db).(Db.orders)
        ev.(Webhook.object).(Webhook.orderId) = Checkout.SessionCreated p)
  /\ Checkout.create_checkout
       (Webhook.handle cfg now st (Some ev)).2.(Webhook.db).(Db.orders)
       ev.(Webhook.object).(Webhook.orderId)
     = Checkout.AlreadyProcessed.
Proof.
  intros Hty Hid Ho Hp. split.
  - unfold Checkout.create_checkout. rewrite Hid, Ho, Hp. simpl. eauto.
  - rewrite (handle_confirm cfg now st ev o Hty Hid Ho Hp). cbn [snd].
    unfold Checkout.create_checkout. rewrite Hid. cbn [negb].
    rewrite (confirmed_order cfg now st ev o Ho). reflexivity.
Qed.

Lemma paid_order_cannot_be_checked_out_witness :
  Checkout.create_checkout
    (Webhook.handle Sample.config 100
       {| Webhook.db := Sample.db_with (Sample.order "pending" None None);
          Webhook.sent := [] |}
       (Some Sample.checkout_completed)).2.(Webhook.db).(Db.orders)
    (Some "order-1")
  = Checkout.AlreadyProcessed.
Proof.
  exact (proj2 (paid_order_cannot_be_checked_out Sample.config 100
                  {| Webhook.db := Sample.db_with (Sample.order "pending" None None);
                     Webhook.sent := [] |}
                  Sample.checkout_completed (Sample.order "pending" None None)
                  eq_refl eq_refl eq_refl eq_refl)).
Defined.

(** ** What a confirmation leaves alone *)

Lemma map_update {A B} (g : A -> B) (p : A -> bool) (f : A -> A) (l : list A) :
  (forall r, g (f r) = g r) -> List.map g (Sql.update p f l) = List.map g l.
Proof.
  intros Hg. unfold Sql.update. rewrite List.map_map. apply List.map_ext.
  intros r. destruct (p r); [apply Hg | reflexivity].
Qed.

Lemma select_update_other {A} (p q : A -> bool) (f : A -> A) (l : list A) :
  (forall r, q (f r) = q r) ->
  (forall r, p r = true -> q r = false) ->
  Sql.select q (Sql.update p f l) = Sql.select q l.
Proof.
  intros Hq Hpq. unfold Sql.select, Sql.update.
  induction l as [ | a l IH]; simpl; [reflexivity | ].
  destruct (p a) eqn:Hp.
  - rewrite Hq, (Hpq a Hp). exact IH.
  - rewrite IH. reflexivity.
Qed.

(** The two outcomes of a delivery. *)
Lemma handle_outcome cfg now st delivery :
  Webhook.handle cfg now st delivery = (Webhook.SignatureError, st)
  \/ Webhook.handle cfg now st delivery = (Webhook.Received, st)
  \/ exists ev o,
      delivery = Some ev
      /\ Webhook.order_by_id st.(Webhook.db).(Db.orders)
           (default "" ev.(Webhook.object).(Webhook.orderId)) = Some o
      /\ o.(Order.status) = "pending"
      /\ Webhook.handle cfg now st delivery = (Webhook.Received, Spec.confirmed cfg now st ev o).
Proof.
  destruct delivery as [ev | ]; [ | left; reflexivity].
  destruct (handle_cases st ev) as [Hskip | (Hty & Hid & o & Ho & Hp)].
  - right. left. apply handle_skip, Hskip.
  - right. right. exists ev, o. repeat split; try assumption.
    apply handle_confirm; assumption.
Qed.

(** X8.  A delivery to the webhook, whatever it carries, never adds or
    removes an order or a customer, never changes the id, number,
    customer, quantity or any amount of an order, nor the id or phone of a
    customer, and leaves every order other than the one it names exactly
    as it was, as it does the promo codes, the admins and the audit log. *)
Theorem confirmation_frame (cfg : Webhook.config) (now : Z) (st : Webhook.state)
    (delivery : option Webhook.event) :
  let d := st.(Webhook.db) in
  let d' := (Webhook.handle cfg now st delivery).2.(Webhook.db) in
  List.map Derived.money d'.(Db.orders) = List.map Derived.money d.(Db.orders)
  /\ List.map Derived.identity d'.(Db.customers) = List.map Derived.identity d.(Db.customers)
  /\ (forall ev id,
        delivery = Some ev ->
        id <> default "" ev.(Webhook.object).(Webhook.orderId) ->
        Sql.select (fun o => String.eqb o.(Order.id) id) d'.(Db.orders)
        = Sql.select (fun o => String.eqb o.(Order.id) id) d.(Db.orders))
  /\ d'.(Db.promo_codes) = d.(Db.promo_codes)
  /\ d'.(Db.promo_code_usage) = d.(Db.promo_code_usage)
  /\ d'.(Db.admins) = d.(Db.admins)
  /\ d'.(Db.admin_logs) = d.(Db.admin_logs).
Proof.
  intros d d'. subst d d'.
  destruct (handle_outcome cfg now st delivery)
    as [-> | [-> | (ev & o & -> & Ho & Hp & ->)]]; simpl;
    try (repeat split; reflexivity).
  unfold Spec.confirmed.
  set (upd := Sql.update _ _ _).
  assert (Hmoney : List.map Derived.money upd = List.map Derived.money st.(Webhook.db).(Db.orders))
    by (apply map_update; reflexivity).
  assert (Hother : forall id,
             id <> default "" ev.(Webhook.object).(Webhook.orderId) ->
             Sql.select (fun o => String.eqb o.(Order.id) id) upd
             = Sql.select (fun o => String.eqb o.(Order.id) id) st.(Webhook.db).(Db.orders)).
  { intros id Hne. apply select_update_other; [reflexivity | ].
    intros r Hr. apply String.eqb_eq in Hr. apply String.eqb_neq. congruence. }
  destruct (Js.truthyS _); simpl.
  - split; [exact Hmoney | ]. split; [apply map_update; reflexivity | ].
    split; [intros ev' id [= <-]; apply Hother | repeat split].
  - split; [exact Hmoney | ]. split; [reflexivity | ].
    split; [intros ev' id [= <-]; apply Hother | repeat split].
Qed.

(** X11.  The notification settings decide which messages are sent and
    nothing else: the answer of the webhook and the database it leaves are
    the same under any two configurations.  A delivery sends at most three
    messages, and none at all when no channel is configured. *)
Theorem notifications_do_not_affect_state (cfg cfg' : Webhook.config) (now : Z)
    (st : Webhook.state) (delivery : option Webhook.event) :
  (Webhook.handle cfg now st delivery).1 = (Webhook.handle cfg' now st delivery).1
  /\ (Webhook.handle cfg now st delivery).2.(Webhook.db)
     = (Webhook.handle cfg' now st delivery).2.(Webhook.db)
  /\ (exists msgs,
        (Webhook.handle cfg now st delivery).2.(Webhook.sent)
        = (st.(Webhook.sent) ++ msgs)%list
        /\ (length msgs <= 3)%nat)
  /\ (Webhook.handle Derived.silent now st delivery).2.(Webhook.sent) = st.(Webhook.sent).
Proof.
  assert (Hcases : forall c,
             (Webhook.handle c now st delivery).2 = st
             /\ ((Webhook.handle c now st delivery).1 = Webhook.SignatureError
                 <-> delivery = None)
             /\ ((Webhook.handle c now st delivery).1 = Webhook.Received
                 <-> delivery <> None)
             \/ exists ev o,
                 delivery = Some ev
                 /\ Webhook.order_by_id st.(Webhook.db).(Db.orders)
                      (default "" ev.(Webhook.object).(Webhook.orderId)) = Some o
                 /\ o.(Order.status) = "pending"
                 /\ ev.(Webhook.type) = "checkout.session.completed"
                 /\ Js.truthyS ev.(Webhook.object).(Webhook.orderId) = true).
  { intros c. destruct delivery as [ev | ].
    - destruct (handle_cases st ev) as [Hskip | (Hty & Hid & o & Ho & Hp)].
      + left. rewrite (handle_skip c now st ev Hskip). simpl.
        repeat split; intros; congruence.
      + right. exists ev, o. repeat split; assumption.
    - left. simpl. repeat split; intros; congruence. }
  destruct (Hcases cfg) as [(H1 & H2 & H3) | (ev & o & -> & Ho & Hp & Hty & Hid)].
  - destruct (Hcases cfg') as [(H1' & H2' & H3') | (ev & o & -> & Ho & Hp & Hty & Hid)].
    + destruct (Hcases Derived.silent) as [(H1s & _) | (ev & o & -> & Ho & Hp & Hty & Hid)].
      * rewrite H1, H1', H1s. split; [ | split; [reflexivity | split; [ | reflexivity]]].
        -- destruct delivery as [ev | ].
           ++ rewrite (proj2 H3), (proj2 H3'); [reflexivity | discriminate | discriminate].
           ++ rewrite (proj2 H2), (proj2 H2'); reflexivity.
        -- exists []. rewrite List.app_nil_r. split; [reflexivity | simpl; lia].
      * rewrite (handle_confirm cfg now st ev o Hty Hid Ho Hp) in H1. simpl in H1.
        exfalso. pose proof (confirmed_order cfg now st ev o Ho) as Hc.
        rewrite H1, Ho in Hc. injection Hc as Hc. rewrite Hc in Hp. discriminate.
    + rewrite (handle_confirm cfg now st ev o Hty Hid Ho Hp) in H1. simpl in H1.
      exfalso. pose proof (confirmed_order cfg now st ev o Ho) as Hc.
      rewrite H1, Ho in Hc. injection Hc as Hc. rewrite Hc in Hp. discriminate.
  - rewrite !(handle_confirm _ now st ev o Hty Hid Ho Hp). simpl.
    split; [reflexivity | ]. split; [reflexivity | ].
    split; [ | unfold Webhook.sendOrderConfirmationEmail, Webhook.sendAdminNotification;
               simpl; apply List.app_nil_r].
    eexists. split; [reflexivity | ].
    rewrite List.length_app.
    unfold Webhook.sendOrderConfirmationEmail, Webhook.sendAdminNotification.
    repeat case_match; simpl; lia.
Qed.

(** ** Customers at order creation *)

(** The customer an order is attached to, and the table of customers after
    the request. *)
Lemma create_order_customer w d req o d' :
  Orders.create_order w d req = (Orders.Created o, d') ->
  Js.truthyS req.(Orders.customerPhone) = true
  /\ Js.truthyS req.(Orders.customerName) = true
  /\ (Some (Orders.resolve_customer w d.(Db.customers) (default "" req.(Orders.customerName))
             (default "" req.(Orders.customerPhone)) req.(Orders.customerEmail)).1
      = o.(Order.customer_id))
  /\ (Orders.resolve_customer w d.(Db.customers) (default "" req.(Orders.customerName))
        (default "" req.(Orders.customerPhone)) req.(Orders.customerEmail)).2
     = d'.(Db.customers).
Proof.
  unfold Orders.create_order.
  destruct (Js.truthyS req.(Orders.customerName)); [ | discriminate].
  destruct (Js.truthyS req.(Orders.customerPhone)); [ | discriminate]. simpl.
  repeat (case_match; try discriminate); intros [= <- <-]; simpl; repeat split.
Qed.

Lemma resolve_customer_cases w cs name phone email :
  (exists existing,
      Sql.single (Sql.select (fun c => String.eqb c.(Customer.phone) phone) cs) = Some existing
      /\ (Orders.resolve_customer w cs name phone email).1 = existing.(Customer.id)
      /\ List.map Derived.stats (Orders.resolve_customer w cs name phone email).2
         = List.map Derived.stats cs
      /\ List.map Customer.phone (Orders.resolve_customer w cs name phone email).2
         = List.map Customer.phone cs
      /\ exists c, In c (Orders.resolve_customer w cs name phone email).2
                   /\ c.(Customer.id) = existing.(Customer.id)
                   /\ c.(Customer.phone) = phone /\ c.(Customer.name) = name)
  \/ (Sql.single (Sql.select (fun c => String.eqb c.(Customer.phone) phone) cs) = None
      /\ (Orders.resolve_customer w cs name phone email).1 = w.(World.customer_uuid)
      /\ exists c,
          (Orders.resolve_customer w cs name phone email).2 = (cs ++ [c])%list
          /\ c.(Customer.id) = w.(World.customer_uuid)
          /\ c.(Customer.phone) = phone /\ c.(Customer.name) = name
          /\ Derived.stats c = (Some 0, Some 0)).
Proof.
  unfold Orders.resolve_customer.
  destruct (Sql.single _) as [existing | ] eqn:Hs.
  - left. exists existing. simpl.
    split; [reflexivity | ]. split; [reflexivity | ].
    split; [apply map_update; reflexivity | ].
    split; [apply map_update; reflexivity | ].
    apply single_select_In in Hs as [Hphone Hin]. apply String.eqb_eq in Hphone.
    eexists. split.
    + unfold Sql.update. apply in_map_iff. exists existing. split; [ | exact Hin].
      rewrite String.eqb_refl. reflexivity.
    + simpl. auto.
  - right. simpl. split; [reflexivity | ]. split; [reflexivity | ].
    eexists. split; [reflexivity | ]. simpl. auto.
Qed.

(** X9.  Creating an order never changes the order count or the total
    spent of a customer: after any request to [POST /api/orders] the
    running totals of the customers already in the table are what they
    were, and the customer the request may have added starts at zero. *)
Theorem create_order_keeps_customer_stats (w : World.t) (d : Db.t) (req : Orders.request)
    (r : Orders.response) (d' : Db.t) :
  Orders.create_order w d req = (r, d') ->
  exists added,
    List.map Derived.stats d'.(Db.customers)
    = (List.map Derived.stats d.(Db.customers) ++ added)%list
    /\ (added = [] \/ added = [(Some 0, Some 0)]).
Proof.
  unfold Orders.create_order.
  repeat (case_match; try discriminate); intros [= <- <-]; simpl;
    try (exists []; rewrite List.app_nil_r; split; [reflexivity | left; reflexivity]);
    match goal with
    | H : Orders.resolve_customer ?w ?cs ?n ?p ?e = (_, ?l) |- _ =>
        destruct (resolve_customer_cases w cs n p e)
          as [(ex & _ & _ & Hst & _) | (_ & _ & c & Hcs & _ & _ & _ & Hz)];
        rewrite H in *; simpl in *
    end;
    try (exists []; rewrite List.app_nil_r; split; [assumption | left; reflexivity]);
    (exists [(Some 0, Some 0)]; subst; rewrite List.map_app; simpl; rewrite Hz;
     split; [reflexivity | right; reflexivity]).
Qed.

Lemma create_order_keeps_customer_stats_witness :
  exists r d',
    Orders.create_order Sample.world (Sample.db_with (Sample.order "paid" (Some 90) None))
      (Sample.order_request 12 (Some "pickup") None) = (r, d')
    /\ List.map Derived.stats d'.(Db.customers) = [(Some 2, Some 9600)].
Proof.
  eexists _, _.
  eassert (E : Orders.create_order Sample.world
                 (Sample.db_with (Sample.order "paid" (Some 90) None))
                 (Sample.order_request 12 (Some "pickup") None) = (_, _))
    by (vm_compute; reflexivity).
  split; [exact E | ].
  destruct (create_order_keeps_customer_stats _ _ _ _ _ E) as (added & _ & _).
  reflexivity.
Defined.

Lemma select_unique_phone cs phone :
  List.NoDup (List.map Customer.phone cs) ->
  Sql.single (Sql.select (fun c => String.eqb c.(Customer.phone) phone) cs) = None ->
  ~ In phone (List.map Customer.phone cs).
Proof.
  unfold Sql.select. induction cs as [ | a cs IH]; simpl; intros Hnd Hs; [tauto | ].
  inversion Hnd as [ | ? ? Hnotin Hnd']; subst.
  destruct (String.eqb_spec a.(Customer.phone) phone) as [E | E].
  - exfalso.
    assert (Hnil : List.filter (fun c => String.eqb c.(Customer.phone) phone) cs = [])
      by (destruct (List.filter _ cs) as [ | b l] eqn:Hf;
          [reflexivity
          | assert (Hb : In b (List.filter (fun c => String.eqb c.(Customer.phone) phone) cs))
              by (rewrite Hf; left; reflexivity);
            apply filter_In in Hb as [Hb1 Hb2]; apply String.eqb_eq in Hb2;
            destruct Hnotin; rewrite E, <- Hb2; apply in_map; exact Hb1]).
    rewrite Hnil in Hs. discriminate.
  - intros [H | H]; [contradiction | ]. exact (IH Hnd' Hs H).
Qed.

(** X10.  Order creation keeps customers deduplicated by phone: if no two
    customers of the table share a phone number, none do after an order is
    created, and the order is attached to the customer of the table that
    carries the request's phone number, whose name is now the request's. *)
Theorem create_order_keeps_phones_unique (w : World.t) (d : Db.t) (req : Orders.request)
    (o : Order.row) (d' : Db.t) :
  List.NoDup (List.map Customer.phone d.(Db.customers)) ->
  Orders.create_order w d req = (Orders.Created o, d') ->
  List.NoDup (List.map Customer.phone d'.(Db.customers))
  /\ exists c,
      In c d'.(Db.customers)
      /\ o.(Order.customer_id) = Some c.(Customer.id)
      /\ Some c.(Customer.phone) = req.(Orders.customerPhone)
      /\ Some c.(Customer.name) = req.(Orders.customerName).
Proof.
  intros Hnd Hcreate.
  apply create_order_customer in Hcreate as (Hphone & Hname & Hcid & Hcs).
  assert (Hp : Some (default "" req.(Orders.customerPhone)) = req.(Orders.customerPhone))
    by (destruct req.(Orders.customerPhone); [reflexivity | discriminate]).
  assert (Hn : Some (default "" req.(Orders.customerName)) = req.(Orders.customerName))
    by (destruct req.(Orders.customerName); [reflexivity | discriminate]).
  pose proof (resolve_customer_cases w d.(Db.customers)
                (default "" req.(Orders.customerName))
                (default "" req.(Orders.customerPhone)) req.(Orders.customerEmail))
    as Hcases.
  rewrite Hcs in Hcases. rewrite <- Hcid.
  destruct Hcases
    as [(ex & _ & Hid & _ & Hphones & c & Hin & Hcid' & Hcp & Hcn)
       | (Hnone & Hid & c & Hl & Hcid' & Hcp & Hcn & _)].
  - split; [rewrite Hphones; exact Hnd | ].
    exists c. rewrite Hid, Hcid', Hcp, Hcn. auto.
  - rewrite Hl. split.
    + rewrite List.map_app. simpl. rewrite Hcp.
      apply List.NoDup_app; [exact Hnd | repeat constructor; simpl; tauto | ].
      intros a Ha [<- | []]. revert Ha. apply select_unique_phone; assumption.
    + exists c. rewrite Hid, Hcid', Hcp, Hcn.
      split; [apply in_or_app; right; left; reflexivity | auto].
Qed.

Lemma create_order_keeps_phones_unique_witness :
  exists o d',
    Orders.create_order Sample.world (Sample.db_with (Sample.order "paid" (Some 90) None))
      (Sample.order_request 12 (Some "pickup") None) = (Orders.Created o, d')
    /\ List.NoDup (List.map Customer.phone d'.(Db.customers))
    /\ length d'.(Db.customers) = 1%nat.
Proof.
  eexists _, _.
  eassert (E : Orders.create_order Sample.world
                 (Sample.db_with (Sample.order "paid" (Some 90) None))
                 (Sample.order_request 12 (Some "pickup") None) = (Orders.Created _, _))
    by (vm_compute; reflexivity).
  split; [exact E | ].
  split; [ | reflexivity].
  refine (proj1 (create_order_keeps_phones_unique _ _ _ _ _ _ E)).
  repeat constructor. simpl. tauto.
Defined.

(** ** Promo code administration *)


Lemma filter_none {A} (f : A -> bool) (l : list A) :
  (forall x, In x l -> f x = false) -> List.filter f l = [].
Proof.
  induction l as [ | a l IH]; simpl; intros H; [reflexivity | ].
  rewrite (H a (or_introl eq_refl)). apply IH. intros x Hx. apply H. right. exact Hx.
Qed.





Lemma select_after_deactivate (f : PromoCode.row -> bool) promo_codes id :
  (forall r, f (PromoAdmin.deactivate r) = false) ->
  (forall r, In r (Sql.select f promo_codes) -> r.(PromoCode.id) = id) ->
  Sql.select f
    (Sql.update (fun p => String.eqb p.(PromoCode.id) id) PromoAdmin.deactivate promo_codes)
  = [].
Proof.
  intros Hoff Hall. unfold Sql.select, Sql.update in *.
  induction promo_codes as [ | a l IH]; simpl in *; [reflexivity | ].
  destruct (String.eqb_spec a.(PromoCode.id) id) as [E | E].
  - rewrite Hoff. apply IH. intros r Hr. apply Hall.
    destruct (f a); [right | ]; exact Hr.
  - destruct (f a) eqn:Hfa.
    + exfalso. apply E, Hall. left. reflexivity.
    + apply IH. exact Hall.
Qed.

(** X17.  Deactivating a promo code takes it out of use without erasing
    it: the rows and their codes stay, but the code is no longer found, so
    the validation endpoint answers 'Invalid promo code' and an order
    created with it gets no discount. *)
Theorem deactivated_promo_is_not_found (e : Auth.env) (d : Db.t)
    (authorization : option string) (p : PromoCode.row) (d' : Db.t) (c : string) :
  PromoAdmin.deactivate_promo e d authorization p.(PromoCode.id) = (PromoAdmin.Success, d') ->
  Promo.find_active d.(Db.promo_codes) c = Some p ->
  List.map PromoCode.code d'.(Db.promo_codes) = List.map PromoCode.code d.(Db.promo_codes)
  /\ Orders.lookup_promo d'.(Db.promo_codes) (Some c) = None
  /\ (forall subtotal, Orders.discount_amount_of subtotal
                         (Orders.lookup_promo d'.(Db.promo_codes) (Some c)) = 0)
  /\ (c <> "" ->
      forall now usage subtotal customerId,
        Promo.validate_promo now d'.(Db.promo_codes) usage
          {| Promo.code := Some c; Promo.subtotal := subtotal; Promo.customerId := customerId |}
        = Promo.Rejected Promo.NOT_FOUND).
Proof.
  unfold PromoAdmin.deactivate_promo. intros Hd Hfind.
  destruct (Auth.verifyAdmin _ _ _ _); [ | discriminate].
  injection Hd as <-. simpl.
  assert (Hnone : Promo.find_active
                    (Sql.update (fun q => String.eqb q.(PromoCode.id) p.(PromoCode.id))
                       PromoAdmin.deactivate d.(Db.promo_codes)) c = None).
  { unfold Promo.find_active in *. rewrite select_after_deactivate; [reflexivity | | ].
    - intros r. simpl. apply andb_false_r.
    - intros r Hr. destruct (Sql.select _ _) as [ | x [ | y l]]; try discriminate.
      injection Hfind as <-. destruct Hr as [<- | []]. reflexivity. }
  assert (Hlook : Orders.lookup_promo
                    (Sql.update (fun q => String.eqb q.(PromoCode.id) p.(PromoCode.id))
                       PromoAdmin.deactivate d.(Db.promo_codes)) (Some c) = None).
  { unfold Orders.lookup_promo. destruct (Js.truthyS (Some c)); [exact Hnone | reflexivity]. }
  split; [apply map_update; reflexivity | ].
  split; [exact Hlook | ].
  split; [intros subtotal; rewrite Hlook; reflexivity | ].
  intros Hc now usage subtotal customerId. unfold Promo.validate_promo. simpl.
  apply String.eqb_neq in Hc. rewrite Hc. simpl. rewrite Hnone. reflexivity.
Qed.

Lemma deactivated_promo_is_not_found_witness :
  exists d',
    PromoAdmin.deactivate_promo Sample.auth
      (PromoAdmin.with_promo_codes (Sample.db_with (Sample.order "paid" None None))
         [Sample.min50])
      (Some "Bearer admin-token") Sample.min50.(PromoCode.id) = (PromoAdmin.Success, d')
    /\ Orders.lookup_promo d'.(Db.promo_codes) (Some "min50") = None.
Proof.
  eexists.
  eassert (E : PromoAdmin.deactivate_promo Sample.auth
                 (PromoAdmin.with_promo_codes (Sample.db_with (Sample.order "paid" None None))
                    [Sample.min50])
                 (Some "Bearer admin-token") Sample.min50.(PromoCode.id)
               = (PromoAdmin.Success, _)) by (vm_compute; reflexivity).
  split; [exact E | ].
  exact (proj1 (proj2 (deactivated_promo_is_not_found _ _ _ Sample.min50 _ "min50" E eq_refl))).
Defined.

(** ** Admin users *)

Lemma add_admin_success e users d authorization b d' :
  AdminUsers.add_admin e users d authorization b = (AdminUsers.Success, d') ->
  exists caller user,
    Auth.verifyAdmin e d.(Db.admins) authorization (Some "super_admin") = Some caller
    /\ AdminUsers.find_user users (default "" b.(AdminUsers.email)) = Some user
    /\ default "admin" b.(AdminUsers.role) <> "owner"
    /\ existsb (fun a => String.eqb a.(Admin.user_id) user.(Auth.uid)) d.(Db.admins) = false
    /\ d'.(Db.admins)
       = (d.(Db.admins)
          ++ [ {| Admin.user_id := user.(Auth.uid);
                  Admin.role := default "admin" b.(AdminUsers.role) |} ])%list
    /\ d'.(Db.admin_logs)
       = (d.(Db.admin_logs)
          ++ [ {| AdminLog.admin_id := caller.(Auth.userId);
                  AdminLog.action := "add_admin";
                  AdminLog.target_type := "admin";
                  AdminLog.target_id := user.(Auth.uid) |} ])%list.
Proof.
  unfold AdminUsers.add_admin.
  destruct (Auth.verifyAdmin _ _ _ _) as [caller | ]; [ | discriminate].
  destruct (negb _); [discriminate | ].
  destruct (String.eqb_spec (default "admin" b.(AdminUsers.role)) "owner"); [discriminate | ].
  destruct (AdminUsers.find_user _ _) as [user | ]; [ | discriminate].
  destruct (Auth.admin_row _ _); [discriminate | ].
  destruct (existsb _ _) eqn:Hex; [discriminate | ].
  intros [= <-]. exists caller, user. simpl. repeat split; assumption || reflexivity.
Qed.

Lemma add_admin_other e users d authorization b r d' :
  AdminUsers.add_admin e users d authorization b = (r, d') ->
  r <> AdminUsers.Success -> d' = d.
Proof.
  unfold AdminUsers.add_admin.
  repeat (case_match; try discriminate); intros [= <- <-]; congruence.
Qed.

Lemma remove_admin_cases e d authorization target r d' :
  Auth.remove_admin e d authorization target = (r, d') ->
  (r <> Auth.Success /\ d' = d)
  \/ (r = Auth.Success
      /\ exists caller,
          Auth.verifyAdmin e d.(Db.admins) authorization (Some "super_admin") = Some caller
          /\ d'.(Db.admins)
             = Sql.delete (fun a => String.eqb a.(Admin.user_id) target) d.(Db.admins)
          /\ d'.(Db.admin_logs)
             = (d.(Db.admin_logs)
                ++ [ {| AdminLog.admin_id := caller.(Auth.userId);
                        AdminLog.action := "remove_admin";
                        AdminLog.target_type := "admin";
                        AdminLog.target_id := target |} ])%list).
Proof.
  unfold Auth.remove_admin.
  destruct (Auth.verifyAdmin _ _ _ _) as [caller | ];
    [ | intros [= <- <-]; left; split; [discriminate | reflexivity]].
  destruct (Auth.is_owner _ _);
    intros [= <- <-]; [left; split; [discriminate | reflexivity] | ].
  right. split; [reflexivity | ]. exists caller. simpl. repeat split.
Qed.

Lemma not_in_user_ids admins uid :
  existsb (fun a => String.eqb a.(Admin.user_id) uid) admins = false ->
  ~ In uid (List.map Admin.user_id admins).
Proof.
  intros Hex Hin. apply in_map_iff in Hin as (a & Ha & Hin).
  assert (existsb (fun a => String.eqb a.(Admin.user_id) uid) admins = true)
    by (apply existsb_exists; exists a; split; [exact Hin | apply String.eqb_eq, Ha]).
  congruence.
Qed.

Lemma NoDup_map_filter {A B} (g : A -> B) (f : A -> bool) (l : list A) :
  List.NoDup (List.map g l) -> List.NoDup (List.map g (List.filter f l)).
Proof.
  induction l as [ | a l IH]; simpl; intros Hnd; [constructor | ].
  inversion Hnd as [ | ? ? Hnotin Hnd']; subst.
  destruct (f a); simpl; [ | apply IH, Hnd'].
  constructor; [ | apply IH, Hnd'].
  intros Hin. apply Hnotin. apply in_map_iff in Hin as (x & Hx & Hin).
  apply in_map_iff. exists x. split; [exact Hx | ]. apply filter_In in Hin. tauto.
Qed.

(** X14.  The table of admins keeps one row per user and never receives
    the role [owner]: if its user ids are distinct they stay distinct
    through any request to add or to remove an admin, and a request to add
    an admin adds no row whose role is [owner]. *)
Theorem admins_stay_unique (e : Auth.env) (users : list Auth.user) (d : Db.t)
    (authorization : option string) :
  List.NoDup (List.map Admin.user_id d.(Db.admins)) ->
  (forall b r d',
      AdminUsers.add_admin e users d authorization b = (r, d') ->
      List.NoDup (List.map Admin.user_id d'.(Db.admins))
      /\ (Forall (fun a => a.(Admin.role) <> "owner") d.(Db.admins) ->
          Forall (fun a => a.(Admin.role) <> "owner") d'.(Db.admins)))
  /\ (forall target r d',
        Auth.remove_admin e d authorization target = (r, d') ->
        List.NoDup (List.map Admin.user_id d'.(Db.admins))
        /\ (Forall (fun a => a.(Admin.role) <> "owner") d.(Db.admins) ->
            Forall (fun a => a.(Admin.role) <> "owner") d'.(Db.admins))).
Proof.
  intros Hnd. split.
  - intros b r d' Hadd.
    destruct r; try (rewrite (add_admin_other _ _ _ _ _ _ _ Hadd ltac:(discriminate));
                     split; [exact Hnd | trivial]).
    apply add_admin_success in Hadd as (caller & user & _ & _ & Hrole & Hex & -> & _).
    split.
    + rewrite List.map_app. simpl.
      apply List.NoDup_app; [exact Hnd | repeat constructor; simpl; tauto | ].
      intros a Ha [<- | []]. revert Ha. apply not_in_user_ids, Hex.
    + intros Hall. apply List.Forall_app. split; [exact Hall | ].
      constructor; [exact Hrole | constructor].
  - intros target r d' Hrem.
    apply remove_admin_cases in Hrem as [[_ ->] | (_ & caller & _ & -> & _)];
      [split; [exact Hnd | trivial] | ].
    unfold Sql.delete. split; [apply NoDup_map_filter, Hnd | ].
    intros Hall. apply List.Forall_forall. intros a Ha. apply filter_In in Ha as [Ha _].
    rewrite List.Forall_forall in Hall. exact (Hall a Ha).
Qed.

Lemma admins_stay_unique_witness :
  exists r d',
    AdminUsers.add_admin Sample.auth
      [ {| Auth.uid := "u-guest"; Auth.uemail := Some "Guest@Example.com" |} ]
      (Sample.db_with (Sample.order "paid" None None)) (Some "Bearer super-token")
      {| AdminUsers.email := Some "guest@example.com"; AdminUsers.role := Some "moderator" |}
    = (r, d')
    /\ List.NoDup (List.map Admin.user_id d'.(Db.admins))
    /\ length d'.(Db.admins) = 3%nat.
Proof.
  eexists _, _.
  eassert (E : AdminUsers.add_admin Sample.auth
                 [ {| Auth.uid := "u-guest"; Auth.uemail := Some "Guest@Example.com" |} ]
                 (Sample.db_with (Sample.order "paid" None None)) (Some "Bearer super-token")
                 {| AdminUsers.email := Some "guest@example.com";
                    AdminUsers.role := Some "moderator" |}
               = (_, _)) by (vm_compute; reflexivity).
  split; [exact E | ].
  split; [ | reflexivity].
  refine (proj1 (proj1 (admins_stay_unique Sample.auth _ _ (Some "Bearer super-token") _)
                   _ _ _ E)).
  repeat constructor; simpl; intuition discriminate.
Defined.

(** X15.  Adding an admin and removing that admin again leaves the table
    of admins as it was.  In between, the user has exactly the row the
    request asked for, with role [admin] when the request named none. *)
Theorem add_then_remove_admin (e : Auth.env) (users : list Auth.user) (d : Db.t)
    (authorization : option string) (b : AdminUsers.body) (d1 : Db.t) :
  AdminUsers.add_admin e users d authorization b = (AdminUsers.Success, d1) ->
  exists user,
    AdminUsers.find_user users (default "" b.(AdminUsers.email)) = Some user
    /\ Auth.admin_row d1.(Db.admins) user.(Auth.uid)
       = Some {| Admin.user_id := user.(Auth.uid);
                 Admin.role := default "admin" b.(AdminUsers.role) |}
    /\ forall authorization' d2,
        Auth.remove_admin e d1 authorization' user.(Auth.uid) = (Auth.Success, d2) ->
        d2.(Db.admins) = d.(Db.admins)
        /\ Auth.admin_row d2.(Db.admins) user.(Auth.uid) = None.
Proof.
  intros Hadd.
  apply add_admin_success in Hadd as (caller & user & _ & Huser & _ & Hex & Hadmins & _).
  exists user. split; [exact Huser | ].
  assert (Hnone : forall a, In a d.(Db.admins) ->
                            String.eqb a.(Admin.user_id) user.(Auth.uid) = false).
  { intros a Ha. destruct (String.eqb_spec a.(Admin.user_id) user.(Auth.uid)) as [E | E];
      [ | reflexivity].
    exfalso. apply (not_in_user_ids _ _ Hex). rewrite <- E. apply in_map. exact Ha. }
  split.
  - rewrite Hadmins. unfold Auth.admin_row, Sql.select. rewrite List.filter_app. simpl.
    rewrite String.eqb_refl, (filter_none _ _ Hnone). reflexivity.
  - intros authorization' d2 Hrem.
    apply remove_admin_cases in Hrem as [[Hr _] | (_ & _ & _ & Hd2 & _)];
      [destruct (Hr eq_refl) | ].
    assert (Hback : d2.(Db.admins) = d.(Db.admins)).
    { rewrite Hd2, Hadmins. unfold Sql.delete. rewrite List.filter_app. simpl.
      rewrite String.eqb_refl. simpl. rewrite List.app_nil_r.
      clear - Hnone. induction d.(Db.admins) as [ | a l IH]; simpl; [reflexivity | ].
      rewrite (Hnone a (or_introl eq_refl)). simpl. f_equal.
      apply IH. intros x Hx. apply Hnone. right. exact Hx. }
    split; [exact Hback | ].
    rewrite Hback. unfold Auth.admin_row, Sql.select. rewrite (filter_none _ _ Hnone).
    reflexivity.
Qed.

Lemma add_then_remove_admin_witness :
  exists d1 d2,
    AdminUsers.add_admin Sample.auth
      [ {| Auth.uid := "u-guest"; Auth.uemail := Some "Guest@Example.com" |} ]
      (Sample.db_with (Sample.order "paid" None None)) (Some "Bearer super-token")
      {| AdminUsers.email := Some "guest@example.com"; AdminUsers.role := None |}
    = (AdminUsers.Success, d1)
    /\ Auth.remove_admin Sample.auth d1 (Some "Bearer owner-token") "u-guest"
       = (Auth.Success, d2)
    /\ d2.(Db.admins) = Sample.admins.
Proof.
  eexists _, _.
  eassert (E : AdminUsers.add_admin Sample.auth
                 [ {| Auth.uid := "u-guest"; Auth.uemail := Some "Guest@Example.com" |} ]
                 (Sample.db_with (Sample.order "paid" None None)) (Some "Bearer super-token")
                 {| AdminUsers.email := Some "guest@example.com"; AdminUsers.role := None |}
               = (AdminUsers.Success, _)) by (vm_compute; reflexivity).
  split; [exact E | ].
  eassert (R : Auth.remove_admin Sample.auth _ (Some "Bearer owner-token") "u-guest"
               = (Auth.Success, _)) by (vm_compute; reflexivity).
  split; [exact R | ].
  destruct (add_then_remove_admin _ _ _ _ _ _ E) as (user & Huser & _ & Hback).
  injection Huser as <-.
  exact (proj1 (Hback _ _ R)).
Defined.

(** ** Deleting an order *)

Lemma delete_order_success e d st authorization id d' st' :
  AdminDelete.delete_order e d st authorization id = (AdminDelete.Success, d', st') ->
  exists caller,
    Auth.verifyAdmin e d.(Db.admins) authorization (Some "super_admin") = Some caller
    /\ is_Some (Webhook.order_by_id d.(Db.orders) id)
    /\ d'.(Db.orders)
       = (if existsb (fun u => String.eqb u.(PromoUsage.order_id) id) d.(Db.promo_code_usage)
          then d.(Db.orders)
          else Sql.delete (fun o => String.eqb o.(Order.id) id) d.(Db.orders))
    /\ d'.(Db.admin_logs)
       = (d.(Db.admin_logs)
          ++ [ {| AdminLog.admin_id := caller.(Auth.userId);
                  AdminLog.action := "delete_order";
                  AdminLog.target_type := "order";
                  AdminLog.target_id := id |} ])%list
    /\ st'.(AdminDelete.order_items)
       = Sql.delete (fun i => String.eqb i.(OrderItem.order_id) id) st.(AdminDelete.order_items)
    /\ st'.(AdminDelete.order_photos)
       = List.filter
           (fun path =>
              negb (Js.includes
                      (List.map OrderItem.original_file_path
                         (Sql.select (fun i => String.eqb i.(OrderItem.order_id) id)
                            st.(AdminDelete.order_items))) path))
           st.(AdminDelete.order_photos)
    /\ d'.(Db.customers) = d.(Db.customers)
    /\ d'.(Db.promo_codes) = d.(Db.promo_codes).
Proof.
  unfold AdminDelete.delete_order.
  destruct (Auth.verifyAdmin _ _ _ _) as [caller | ]; [ | discriminate].
  destruct (Webhook.order_by_id _ _) as [o | ]; [ | discriminate].
  intros [= <- <-]. exists caller. simpl. repeat split; eauto.
Qed.

(** X13.  A successful deletion of an order takes with it the order's
    items and their photos, and nothing else: the items of other orders
    stay, as do the photos no item of the order points to.  The order row
    goes too, unless a promo redemption still refers to it: then the
    database keeps the row, and the handler answers success all the
    same, the order now without its items. *)
Theorem delete_order_cascade (e : Auth.env) (d : Db.t) (st : AdminDelete.store)
    (authorization : option string) (id : string) (d' : Db.t) (st' : AdminDelete.store) :
  AdminDelete.delete_order e d st authorization id = (AdminDelete.Success, d', st') ->
  (forall i, In i st'.(AdminDelete.order_items)
             <-> In i st.(AdminDelete.order_items) /\ i.(OrderItem.order_id) <> id)
  /\ (forall path,
        In path st'.(AdminDelete.order_photos)
        <-> In path st.(AdminDelete.order_photos)
            /\ forall i, In i st.(AdminDelete.order_items) ->
                         i.(OrderItem.order_id) = id ->
                         i.(OrderItem.original_file_path) <> path)
  /\ (existsb (fun u => String.eqb u.(PromoUsage.order_id) id) d.(Db.promo_code_usage) = false ->
      (forall o, In o d'.(Db.orders) <-> In o d.(Db.orders) /\ o.(Order.id) <> id)
      /\ Webhook.order_by_id d'.(Db.orders) id = None)
  /\ (existsb (fun u => String.eqb u.(PromoUsage.order_id) id) d.(Db.promo_code_usage) = true ->
      d'.(Db.orders) = d.(Db.orders))
  /\ d'.(Db.customers) = d.(Db.customers).
Proof.
  intros H. apply delete_order_success in H
    as (caller & _ & _ & Horders & _ & Hitems & Hphotos & Hcust & _).
  split; [ | split; [ | split; [ | split; [ | exact Hcust]]]].
  - intros i. rewrite Hitems. unfold Sql.delete. rewrite filter_In.
    rewrite negb_true_iff, String.eqb_neq. reflexivity.
  - intros path. rewrite Hphotos, filter_In, negb_true_iff.
    split; intros [Hin Hno]; (split; [exact Hin | ]).
    + intros i Hi Hid Hpath. apply not_true_iff_false in Hno. apply Hno.
      apply includes_In, in_map_iff. exists i. split; [exact Hpath | ].
      apply filter_In. split; [exact Hi | apply String.eqb_eq, Hid].
    + apply not_true_iff_false. intros Hinc.
      apply includes_In, in_map_iff in Hinc as (i & Hpath & Hi).
      apply filter_In in Hi as [Hi Hid]. apply String.eqb_eq in Hid.
      exact (Hno i Hi Hid Hpath).
  - intros Hfree. rewrite Hfree in Horders. rewrite Horders. split.
    + intros o. unfold Sql.delete. rewrite filter_In, negb_true_iff, String.eqb_neq.
      reflexivity.
    + unfold Webhook.order_by_id, Sql.select, Sql.delete.
      rewrite filter_none; [reflexivity | ].
      intros x Hx. apply filter_In in Hx as [_ Hx]. apply negb_true_iff in Hx. exact Hx.
  - intros Hheld. rewrite Hheld in Horders. exact Horders.
Qed.

Lemma delete_order_cascade_witness :
  exists d' st',
    AdminDelete.delete_order Sample.auth (Cases.day_db 3) Cases.store
      (Some "Bearer super-token") "order-1" = (AdminDelete.Success, d', st')
    /\ st'.(AdminDelete.order_photos) = ["orders/order-2/0_12.jpg"]
    /\ Webhook.order_by_id d'.(Db.orders) "order-1" = None.
Proof.
  eexists _, _.
  eassert (E : AdminDelete.delete_order Sample.auth (Cases.day_db 3) Cases.store
                 (Some "Bearer super-token") "order-1" = (AdminDelete.Success, _, _))
    by (vm_compute; reflexivity).
  split; [exact E | ]. split; [reflexivity | ].
  destruct (delete_order_cascade _ _ _ _ _ _ _ E) as (_ & _ & Hfree & _).
  exact (proj2 (Hfree eq_refl)).
Defined.

Lemma todays_all date orders :
  Spec.is_date date = true ->
  Forall (fun o => exists k, o.(Order.order_number) = Spec.order_number_of date k) orders ->
  Spec.todays date orders = length orders.
Proof.
  intros Hd Hall. unfold Spec.todays, Sql.select.
  induction Hall as [ | o l (k & Hk) _ IH]; [reflexivity | ].
  cbn [List.filter]. rewrite Hk. unfold Spec.order_number_of at 1.
  rewrite (like_number_of_day date _ Hd). cbn [length]. rewrite IH. reflexivity.
Qed.

Lemma length_delete_one orders (victim : Order.row) :
  List.NoDup (List.map Order.id orders) ->
  In victim orders ->
  S (length (Sql.delete (fun o => String.eqb o.(Order.id) victim.(Order.id)) orders))
  = length orders.
Proof.
  unfold Sql.delete. induction orders as [ | a l IH]; simpl; intros Hnd Hin; [tauto | ].
  inversion Hnd as [ | ? ? Hnotin Hnd']; subst.
  destruct Hin as [-> | Hin].
  - rewrite String.eqb_refl. simpl. f_equal.
    assert (Hall : List.filter
                     (fun o => negb (String.eqb o.(Order.id) victim.(Order.id))) l = l).
    { clear - Hnotin. induction l as [ | b l IH]; simpl; [reflexivity | ].
      destruct (String.eqb_spec b.(Order.id) victim.(Order.id)) as [E | E]; simpl.
      - exfalso. apply Hnotin. left. exact E.
      - f_equal. apply IH. intros H. apply Hnotin. right. exact H. }
    rewrite Hall. reflexivity.
  - destruct (String.eqb_spec a.(Order.id) victim.(Order.id)) as [E | E]; simpl.
    + exfalso. apply Hnotin. rewrite E. apply in_map. exact Hin.
    + f_equal. apply IH; assumption.
Qed.

(** X12.  Deleting an order of the day that is not the day's last order
    stops order creation for that day: the stored procedure counts the
    rows left and allocates the number of the last order, which is still
    in the table, and every later request to create an order of that day
    is refused. *)
Theorem delete_blocks_order_numbers (date : string) (e : Auth.env) (d : Db.t)
    (st : AdminDelete.store) (authorization : option string)
    (front : list Order.row) (victim last_order : Order.row)
    (d' : Db.t) (st' : AdminDelete.store) :
  Spec.is_date date = true ->
  d.(Db.orders) = (front ++ [last_order])%list ->
  In victim front ->
  List.NoDup (List.map Order.id d.(Db.orders)) ->
  Numbering.numbered date d.(Db.orders) ->
  (length d.(Db.orders) <= 999)%nat ->
  existsb (fun u => String.eqb u.(PromoUsage.order_id) victim.(Order.id))
    d.(Db.promo_code_usage) = false ->
  AdminDelete.delete_order e d st authorization victim.(Order.id)
  = (AdminDelete.Success, d', st') ->
  OrderNumber.generate_order_number date d'.(Db.orders) = last_order.(Order.order_number)
  /\ In last_order d'.(Db.orders)
  /\ forall w req r d'',
      w.(World.today_date) = date ->
      w.(World.rpc_fails) = false ->
      Orders.create_order w d' req = (r, d'') ->
      forall o, r <> Orders.Created o.
Proof.
  intros Hdate Horders Hvictim Hnd Hnum Hlen Hfree Hdel.
  apply delete_order_success in Hdel as (_ & _ & _ & Hd' & _).
  rewrite Hfree in Hd'. rewrite Horders in *.
  rewrite List.length_app in Hlen. simpl in Hlen.
  assert (Hlast_id : String.eqb last_order.(Order.id) victim.(Order.id) = false).
  { apply String.eqb_neq. intros E. rewrite List.map_app in Hnd. simpl in Hnd.
    apply NoDup_remove_2 in Hnd. apply Hnd. rewrite List.app_nil_r, E.
    apply in_map. exact Hvictim. }
  assert (Hd'' : d'.(Db.orders)
                 = (Sql.delete (fun o => String.eqb o.(Order.id) victim.(Order.id)) front
                    ++ [last_order])%list).
  { rewrite Hd'. unfold Sql.delete. rewrite List.filter_app. simpl.
    rewrite Hlast_id. reflexivity. }
  assert (Hfront_nd : List.NoDup (List.map Order.id front)).
  { rewrite List.map_app in Hnd. apply NoDup_app_remove_r in Hnd. exact Hnd. }
  pose proof (length_delete_one front victim Hfront_nd Hvictim) as Hcount.
  assert (Hall : Forall (fun o => exists k, o.(Order.order_number)
                                             = Spec.order_number_of date k)
                   d'.(Db.orders)).
  { apply List.Forall_forall. intros o Ho. rewrite Hd' in Ho. unfold Sql.delete in Ho.
    apply filter_In in Ho as [Ho _]. apply In_nth_error in Ho as [k Hk].
    exists (S k). exact (Hnum k o Hk). }
  assert (Hlast : last_order.(Order.order_number)
                  = Spec.order_number_of date (S (length front))).
  { apply Hnum. rewrite nth_error_app2 by lia. rewrite Nat.sub_diag. reflexivity. }
  assert (Hgen : OrderNumber.generate_order_number date d'.(Db.orders)
                 = last_order.(Order.order_number)).
  { rewrite generate_order_number_next; rewrite (todays_all date _ Hdate Hall), Hd'',
      List.length_app; simpl; [ | lia].
    rewrite Hlast. f_equal. lia. }
  assert (Hin : In last_order d'.(Db.orders))
    by (rewrite Hd''; apply in_or_app; right; left; reflexivity).
  split; [exact Hgen | ]. split; [exact Hin | ].
  intros w req r d'' Hw Hrpc Hcreate o ->.
  apply create_order_orders in Hcreate as [(o1 & [= <-] & _ & Ho & Hfresh) | [Hno _]];
    [ | exact (Hno o eq_refl)].
  apply Hfresh. rewrite Ho, Hrpc, Hw. simpl. rewrite Hgen. apply in_map. exact Hin.
Qed.

Lemma delete_blocks_order_numbers_witness :
  exists d' st',
    AdminDelete.delete_order Sample.auth (Cases.day_db 3) Cases.store
      (Some "Bearer super-token") "order-1" = (AdminDelete.Success, d', st')
    /\ OrderNumber.generate_order_number "20240301" d'.(Db.orders) = "HS-20240301-003"
    /\ (Orders.create_order (Sample.world_at 4) d'
          (Sample.order_request 6 (Some "pickup") None)).1 = Orders.Failed.
Proof.
  eexists _, _.
  eassert (E : AdminDelete.delete_order Sample.auth (Cases.day_db 3) Cases.store
                 (Some "Bearer super-token") (Sample.numbered 1).(Order.id)
               = (AdminDelete.Success, _, _)) by (vm_compute; reflexivity).
  split; [exact E | ].
  split; [ | vm_compute; reflexivity].
  refine (proj1 (delete_blocks_order_numbers "20240301" Sample.auth (Cases.day_db 3)
                   Cases.store (Some "Bearer super-token")
                   [Sample.numbered 1; Sample.numbered 2] (Sample.numbered 1)
                   (Sample.numbered 3) _ _ eq_refl eq_refl _ _ _ _ eq_refl E)).
  - left. reflexivity.
  - repeat constructor; simpl; intuition discriminate.
  - intros [ | [ | [ | [ | k]]]] o H; simpl in H; try discriminate;
      injection H as <-; reflexivity.
  - simpl. lia.
Defined.

(** ** The audit log *)

(** X18.  Every admin action that succeeds is written to the audit log
    once, in the name of the caller [verifyAdmin] has verified, and an
    action that is refused or fails changes nothing in the database: this
    holds for status updates, for adding and removing admins, for creating
    and deactivating promo codes and for deleting orders.  Order creation
    by customers never writes to the log. *)
Theorem admin_actions_are_logged (e : Auth.env) (d : Db.t) (authorization : option string) :
  (forall now id b r d',
      AdminOrders.update_order_status e now d authorization id b = (r, d') ->
      Audit.logged d d' (Auth.verifyAdmin e d.(Db.admins) authorization None)
        (match r with AdminOrders.Success => true | _ => false end))
  /\ (forall target r d',
        Auth.remove_admin e d authorization target = (r, d') ->
        Audit.logged d d' (Auth.verifyAdmin e d.(Db.admins) authorization (Some "super_admin"))
          (match r with Auth.Success => true | _ => false end))
  /\ (forall users b r d',
        AdminUsers.add_admin e users d authorization b = (r, d') ->
        Audit.logged d d' (Auth.verifyAdmin e d.(Db.admins) authorization (Some "super_admin"))
          (match r with AdminUsers.Success => true | _ => false end))
  /\ (forall now uuid b r d',
        PromoAdmin.create_promo e now uuid d authorization b = (r, d') ->
        Audit.logged d d' (Auth.verifyAdmin e d.(Db.admins) authorization None)
          (match r with PromoAdmin.Created _ => true | _ => false end))
  /\ (forall id r d',
        PromoAdmin.deactivate_promo e d authorization id = (r, d') ->
        Audit.logged d d' (Auth.verifyAdmin e d.(Db.admins) authorization None)
          (match r with PromoAdmin.Success => true | _ => false end))
  /\ (forall st id r d' st',
        AdminDelete.delete_order e d st authorization id = (r, d', st') ->
        Audit.logged d d' (Auth.verifyAdmin e d.(Db.admins) authorization (Some "super_admin"))
          (match r with AdminDelete.Success => true | _ => false end)
        /\ (r <> AdminDelete.Success -> st' = st))
  /\ (forall w req r d',
        Orders.create_order w d req = (r, d') ->
        d'.(Db.admin_logs) = d.(Db.admin_logs)).
Proof.
  refine (conj _ (conj _ (conj _ (conj _ (conj _ (conj _ _)))))).
  - intros now id b r d'. unfold AdminOrders.update_order_status.
    destruct (Auth.verifyAdmin _ _ _ _) as [c | ]; [ | intros [= <- <-]; reflexivity].
    destruct (negb _); intros [= <- <-]; [reflexivity | ].
    simpl. eexists c, _. split; [reflexivity | split; [ | reflexivity]]; reflexivity.
  - intros target r d'. unfold Auth.remove_admin.
    destruct (Auth.verifyAdmin _ _ _ _) as [c | ]; [ | intros [= <- <-]; reflexivity].
    destruct (Auth.is_owner _ _); intros [= <- <-]; [reflexivity | ].
    simpl. eexists c, _. split; [reflexivity | split; [ | reflexivity]]; reflexivity.
  - intros users b r d' H.
    destruct r; try (rewrite (add_admin_other _ _ _ _ _ _ _ H ltac:(discriminate));
                     reflexivity).
    apply add_admin_success in H as (c & user & Hc & _ & _ & _ & _ & Hlog).
    simpl. eexists c, _. split; [exact Hc | ]. split; [ | exact Hlog]. reflexivity.
  - intros now uuid b r d'. unfold PromoAdmin.create_promo.
    destruct (Auth.verifyAdmin _ _ _ _) as [c | ]; [ | intros [= <- <-]; reflexivity].
    destruct (_ || _); [intros [= <- <-]; reflexivity | ].
    destruct (PromoAdmin.insert_ok _ _); intros [= <- <-]; [ | reflexivity].
    simpl. eexists c, _. split; [reflexivity | split; [ | reflexivity]]; reflexivity.
  - intros id r d'. unfold PromoAdmin.deactivate_promo.
    destruct (Auth.verifyAdmin _ _ _ _) as [c | ]; intros [= <- <-]; [ | reflexivity].
    simpl. eexists c, _. split; [reflexivity | split; [ | reflexivity]]; reflexivity.
  - intros st id r d' st'. unfold AdminDelete.delete_order.
    destruct (Auth.verifyAdmin _ _ _ _) as [c | ];
      [ | intros [= <- <- <-]; split; reflexivity].
    destruct (Webhook.order_by_id _ _); intros [= <- <- <-];
      [ | split; reflexivity].
    split; [ | intros Hs; destruct (Hs eq_refl)].
    simpl. eexists c, _. split; [reflexivity | split; [ | reflexivity]]; reflexivity.
  - intros w req r d'. unfold Orders.create_order.
    repeat (case_match; try discriminate); intros [= <- <-]; reflexivity.
Qed.

(** ** Order tracking *)

Lemma upper_lower_ascii (c : ascii) :
  negb ((97 <=? nat_of_ascii c) && (nat_of_ascii c <=? 122))%nat = true ->
  Js.upper_ascii c = c /\ Js.upper_ascii (Js.lower_ascii c) = c.
Proof.
  destruct c as [[] [] [] [] [] [] [] []]; vm_compute; intros H;
    first [discriminate H | split; reflexivity].
Qed.

Lemma no_lower_upper (s : string) :
  Numbering.no_lower s = true ->
  Js.toUpperCase s = s /\ Js.toUpperCase (Js.toLowerCase s) = s.
Proof.
  unfold Js.toUpperCase, Js.toLowerCase.
  induction s as [ | c s IH]; simpl; intros H; [split; reflexivity | ].
  apply andb_prop in H as [Hc Hs]. destruct (IH Hs) as [IH1 IH2].
  destruct (upper_lower_ascii c Hc) as [H1 H2].
  rewrite H1, H2, IH1, IH2. split; reflexivity.
Qed.

Lemma no_lower_app (a b : string) :
  Numbering.no_lower (a ++ b) = Numbering.no_lower a && Numbering.no_lower b.
Proof.
  induction a as [ | c a IH]; simpl; [reflexivity | ].
  rewrite IH, andb_assoc. reflexivity.
Qed.

Lemma digit_no_lower (c : ascii) :
  Spec.is_digit c = true ->
  negb ((97 <=? nat_of_ascii c) && (nat_of_ascii c <=? 122))%nat = true.
Proof.
  destruct c as [[] [] [] [] [] [] [] []]; vm_compute; congruence.
Qed.

Lemma digits_no_lower (s : string) :
  Spec.all_digits s = true -> Numbering.no_lower s = true.
Proof.
  induction s as [ | c s IH]; [trivial | ].
  cbn [Spec.all_digits Numbering.no_lower]. intros H. apply andb_prop in H as [Hc Hs].
  rewrite (digit_no_lower c Hc), (IH Hs). reflexivity.
Qed.

Lemma order_number_of_no_lower date k :
  Spec.is_date date = true -> (k <= 999)%nat ->
  Numbering.no_lower (Spec.order_number_of date k) = true.
Proof.
  intros Hd Hk. apply andb_prop in Hd as [_ Hd]. unfold Spec.order_number_of.
  rewrite !no_lower_app, (digits_no_lower date Hd). simpl.
  revert k Hk. apply (below_1000 (fun k => Numbering.no_lower (Spec.zero_padded 3 k))).
  vm_compute. reflexivity.
Qed.

(** X19.  An order that has just been created can be tracked: the tracking
    endpoint finds it, and only it, under any spelling whose upper-case
    form is its order number.  For a number allocated by the stored
    procedure, up to the 999th order of the day, that includes the number
    as printed and the number typed in lower case. *)
Theorem created_order_can_be_tracked (w : World.t) (d : Db.t) (req : Orders.request)
    (o : Order.row) (d' : Db.t) :
  Orders.create_order w d req = (Orders.Created o, d') ->
  (forall n,
      Js.toUpperCase n = o.(Order.order_number) ->
      Track.track_order d'.(Db.orders) n = Some (Track.view_of o))
  /\ (Spec.is_date w.(World.today_date) = true ->
      w.(World.rpc_fails) = false ->
      (Spec.todays w.(World.today_date) d.(Db.orders) < 999)%nat ->
      Track.track_order d'.(Db.orders) o.(Order.order_number) = Some (Track.view_of o)
      /\ Track.track_order d'.(Db.orders) (Js.toLowerCase o.(Order.order_number))
         = Some (Track.view_of o)).
Proof.
  intros Hcreate.
  apply create_order_orders in Hcreate as [(o1 & [= <-] & Horders & Hnum & Hfresh) | [Hno _]];
    [ | destruct (Hno o eq_refl)].
  assert (Htrack : forall n,
             Js.toUpperCase n = o.(Order.order_number) ->
             Track.track_order d'.(Db.orders) n = Some (Track.view_of o)).
  { intros n Hn. unfold Track.track_order, Sql.select.
    rewrite Horders, List.filter_app, Hn. simpl. rewrite String.eqb_refl.
    rewrite filter_none; [reflexivity | ].
    intros x Hx. apply String.eqb_neq. intros E. apply Hfresh. rewrite <- E.
    apply in_map. exact Hx. }
  split; [exact Htrack | ].
  intros Hdate Hrpc Hcount.
  rewrite Hrpc in Hnum. simpl in Hnum.
  rewrite generate_order_number_next in Hnum by exact Hcount.
  assert (Hno_lower : Numbering.no_lower o.(Order.order_number) = true)
    by (rewrite Hnum; apply order_number_of_no_lower; [exact Hdate | lia]).
  destruct (no_lower_upper _ Hno_lower) as [H1 H2].
  split; apply Htrack; assumption.
Qed.

Lemma created_order_can_be_tracked_witness :
  exists o d',
    Orders.create_order Sample.world Sample.db
      (Sample.order_request 6 (Some "pickup") None) = (Orders.Created o, d')
    /\ Track.track_order d'.(Db.orders) "hs-20240301-001" = Some (Track.view_of o).
Proof.
  eexists _, _.
  eassert (E : Orders.create_order Sample.world Sample.db
                 (Sample.order_request 6 (Some "pickup") None)
               = (Orders.Created _, _)) by (vm_compute; reflexivity).
  split; [exact E | ].
  exact (proj1 (created_order_can_be_tracked _ _ _ _ _ E) "hs-20240301-001" eq_refl).
Defined.

(** ** The dashboard *)

Lemma sum_total_from (rows : list Stats.row) (acc : Z) :
  fold_left (fun sum o => sum + o.(Stats.total)) rows acc = acc + Stats.sum_total rows.
Proof.
  unfold Stats.sum_total. revert acc.
  induction rows as [ | a l IH]; intros acc; simpl; [lia | ].
  rewrite IH, (IH (0 + a.(Stats.total))). lia.
Qed.

Lemma sum_total_cons a (rows : list Stats.row) :
  Stats.sum_total (a :: rows) = a.(Stats.total) + Stats.sum_total rows.
Proof. unfold Stats.sum_total at 1. simpl. apply sum_total_from. Qed.

Lemma sum_since_mono (start start' : Z) (rows : list Stats.row) :
  start' <= start ->
  Forall (fun o => 0 <= o.(Stats.total)) rows ->
  0 <= Stats.sum_total (Stats.since start rows)
       <= Stats.sum_total (Stats.since start' rows)
  /\ Stats.sum_total (Stats.since start' rows) <= Stats.sum_total rows.
Proof.
  intros Hle Hall. unfold Stats.since.
  induction Hall as [ | a l Ha _ IH]; cbn [List.filter]; [vm_compute; intuition discriminate | ].
  destruct (Z.leb_spec start a.(Stats.created_at)) as [H1 | H1];
    destruct (Z.leb_spec start' a.(Stats.created_at)) as [H2 | H2];
    rewrite ?sum_total_cons; lia.
Qed.

Lemma sum_total_snoc (rows : list Stats.row) (o : Stats.row) :
  Stats.sum_total (rows ++ [o]) = Stats.sum_total rows + o.(Stats.total).
Proof.
  unfold Stats.sum_total. rewrite fold_left_app. reflexivity.
Qed.

Lemma sum_since_snoc (start : Z) (rows : list Stats.row) (o : Stats.row) :
  Stats.sum_total (Stats.since start (rows ++ [o]))
  = Stats.sum_total (Stats.since start rows)
    + (if start <=? o.(Stats.created_at) then o.(Stats.total) else 0).
Proof.
  unfold Stats.since. rewrite List.filter_app. cbn [List.filter].
  destruct (start <=? o.(Stats.created_at)).
  - apply sum_total_snoc.
  - rewrite app_nil_r. lia.
Qed.

(** X20.  On the dashboard, an order is counted under at most one status:
    the seven status counts add up to the number of orders when every
    order has one of the seven statuses, and to less otherwise (an
    archived order is in the total only); the orders needing action are
    the paid ones.  Revenue counts every order that is neither pending
    nor cancelled, and no other: with no order every revenue is 0; one
    more order of any other status (paid, printing, shipped, ready for
    pickup, completed, archived or any other text) adds its total to the
    revenue overall and to the revenue of each period that starts at or
    before its creation, and to no other; one more pending or cancelled
    order changes no revenue.  When no total is negative and the three
    period starts are in order, revenue of the day is at most that of the
    week, that of the month and the revenue overall. *)
Theorem dashboard_is_consistent (todayStart weekStart monthStart : Z)
    (rows : list Stats.row) (customerCount : Z) :
  let s := Stats.compute todayStart weekStart monthStart rows customerCount in
  let c := s.(Stats.orders) in
  (c.(Stats.pending) + c.(Stats.paid) + c.(Stats.printing) + c.(Stats.shipped)
   + c.(Stats.ready_pickup) + c.(Stats.completed) + c.(Stats.cancelled)
   + length (List.filter (fun o => negb (Js.includes Stats.counted o.(Stats.status))) rows)
   = c.(Stats.oc_total))%nat
  /\ c.(Stats.needsAction) = c.(Stats.paid)
  /\ (s.(Stats.personal) + s.(Stats.business) <= c.(Stats.oc_total))%nat
  /\ (Forall (fun o => o.(Stats.status) = "pending" \/ o.(Stats.status) = "cancelled") rows ->
      s.(Stats.rev).(Stats.rv_total) = 0)
  /\ (Forall (fun o => 0 <= o.(Stats.total)) rows ->
      monthStart <= weekStart <= todayStart ->
      0 <= s.(Stats.rev).(Stats.today) <= s.(Stats.rev).(Stats.week)
      /\ s.(Stats.rev).(Stats.week) <= s.(Stats.rev).(Stats.month)
      /\ s.(Stats.rev).(Stats.month) <= s.(Stats.rev).(Stats.rv_total))
  /\ (Stats.compute todayStart weekStart monthStart [] customerCount).(Stats.rev)
     = {| Stats.rv_total := 0; Stats.today := 0; Stats.week := 0; Stats.month := 0 |}
  /\ (forall o : Stats.row,
        let r := s.(Stats.rev) in
        let r' := (Stats.compute todayStart weekStart monthStart (rows ++ [o])
                     customerCount).(Stats.rev) in
        (o.(Stats.status) = "pending" \/ o.(Stats.status) = "cancelled" -> r' = r)
        /\ (o.(Stats.status) <> "pending" -> o.(Stats.status) <> "cancelled" ->
            r'.(Stats.rv_total) = r.(Stats.rv_total) + o.(Stats.total)
            /\ (todayStart <= o.(Stats.created_at) ->
                r'.(Stats.today) = r.(Stats.today) + o.(Stats.total))
            /\ (o.(Stats.created_at) < todayStart -> r'.(Stats.today) = r.(Stats.today))
            /\ (weekStart <= o.(Stats.created_at) ->
                r'.(Stats.week) = r.(Stats.week) + o.(Stats.total))
            /\ (o.(Stats.created_at) < weekStart -> r'.(Stats.week) = r.(Stats.week))
            /\ (monthStart <= o.(Stats.created_at) ->
                r'.(Stats.month) = r.(Stats.month) + o.(Stats.total))
            /\ (o.(Stats.created_at) < monthStart -> r'.(Stats.month) = r.(Stats.month)))).
Proof.
  intros s c. subst s c. unfold Stats.compute. cbn -[Js.includes Stats.counted List.filter].
  split; [ | split; [ | split; [ | split; [ | split; [ | split]]]]].
  - unfold Stats.with_status.
    remember (fun o : Stats.row => negb (Js.includes Stats.counted o.(Stats.status)))
      as other eqn:Hother.
    induction rows as [ | a l IH]; [reflexivity | ].
    cbn [List.filter length].
    assert (Ha : other a
                 = negb (String.eqb a.(Stats.status) "pending"
                         || String.eqb a.(Stats.status) "paid"
                         || String.eqb a.(Stats.status) "printing"
                         || String.eqb a.(Stats.status) "shipped"
                         || String.eqb a.(Stats.status) "ready_pickup"
                         || String.eqb a.(Stats.status) "completed"
                         || String.eqb a.(Stats.status) "cancelled")).
    { subst other. unfold Js.includes, Stats.counted. simpl.
      rewrite orb_false_r, !orb_assoc. reflexivity. }
    rewrite Ha. clear Ha.
    repeat match goal with
           | |- context [String.eqb (Stats.status a) ?y] =>
               destruct (String.eqb_spec (Stats.status a) y); try congruence
           end; cbn [length negb orb]; lia.
  - unfold Stats.with_status, Js.includes. f_equal. apply List.filter_ext.
    intros a. simpl. apply orb_false_r.
  - induction rows as [ | a l IH]; [reflexivity | ].
    cbn [List.filter length].
    repeat match goal with
           | |- context [String.eqb ?x ?y] =>
               destruct (String.eqb_spec x y); try congruence
           end; cbn [length]; lia.
  - intros Hall. rewrite filter_none; [reflexivity | ].
    intros x Hx. rewrite List.Forall_forall in Hall.
    destruct (Hall x Hx) as [-> | ->]; reflexivity.
  - intros Hall [Hmw Hwt].
    set (paidOrders := List.filter _ rows).
    assert (Hpaid : Forall (fun o => 0 <= o.(Stats.total)) paidOrders).
    { rewrite List.Forall_forall in *. intros x Hx. apply filter_In in Hx as [Hx _].
      exact (Hall x Hx). }
    pose proof (sum_since_mono todayStart weekStart paidOrders Hwt Hpaid) as [H1 _].
    pose proof (sum_since_mono weekStart monthStart paidOrders Hmw Hpaid) as [H2 H3].
    lia.
  - reflexivity.
  - intros o. cbv zeta. rewrite List.filter_app. cbn [List.filter].
    set (paidOrders := List.filter _ rows).
    destruct (String.eqb_spec o.(Stats.status) "pending") as [Hp | Hp];
      [ | destruct (String.eqb_spec o.(Stats.status) "cancelled") as [Hc | Hc]];
      cbn [negb andb].
    + rewrite app_nil_r. split; [reflexivity | intros H; destruct (H Hp)].
    + rewrite app_nil_r. split; [reflexivity | intros _ H; destruct (H Hc)].
    + split; [intros [H | H]; [destruct (Hp H) | destruct (Hc H)] | ].
      intros _ _. cbn [Stats.rv_total Stats.today Stats.week Stats.month].
      rewrite sum_total_snoc, !sum_since_snoc.
      split; [reflexivity | ].
      repeat split; intros Hle;
        match goal with
        | |- context [?a <=? ?b] => destruct (Z.leb_spec a b)
        end; lia.
Qed.

Lemma dashboard_is_consistent_witness :
  let rows :=
    [ {| Stats.id := "a"; Stats.status := "paid"; Stats.total := 4800;
         Stats.product_type := "personal"; Stats.created_at := 950 |};
      {| Stats.id := "b"; Stats.status := "archived"; Stats.total := 8400;
         Stats.product_type := "business"; Stats.created_at := 100 |};
      {| Stats.id := "c"; Stats.status := "pending"; Stats.total := 1000;
         Stats.product_type := "personal"; Stats.created_at := 990 |} ] in
  let s := Stats.compute 900 300 50 rows 2 in
  s.(Stats.rev).(Stats.today) = 4800
  /\ s.(Stats.rev).(Stats.rv_total) = 13200
  /\ s.(Stats.rev).(Stats.today) <= s.(Stats.rev).(Stats.week)
  /\ (Stats.compute 900 300 50
        (rows ++ [ {| Stats.id := "d"; Stats.status := "printing"; Stats.total := 700;
                      Stats.product_type := "personal"; Stats.created_at := 400 |} ])
        2).(Stats.rev)
     = {| Stats.rv_total := 13900; Stats.today := 4800; Stats.week := 5500;
          Stats.month := 13900 |}.
Proof.
  intros rows s. split; [reflexivity | ]. split; [reflexivity | ].
  destruct (dashboard_is_consistent 900 300 50 rows 2) as (_ & _ & _ & _ & H & _).
  split; [ | reflexivity].
  refine (proj2 (proj1 (H _ _))).
  - repeat constructor; simpl; lia.
  - lia.
Defined.

(** ** The authorization header *)

Lemma split_on_no_space (t : string) :
  Header.no_space t = true -> Auth.split_on " " t = [t].
Proof.
  induction t as [ | c t IH]; [reflexivity | ].
  cbn [Auth.split_on Header.no_space]. intros H.
  apply andb_prop in H as [Hc Ht]. apply negb_true_iff in Hc.
  rewrite Hc, (IH Ht). reflexivity.
Qed.

Lemma split_on_space (t rest : string) :
  Header.no_space t = true ->
  Auth.split_on " " (t ++ String " " rest) = t :: Auth.split_on " " rest.
Proof.
  induction t as [ | c t IH]; intros H.
  - reflexivity.
  - cbn [Header.no_space] in H. apply andb_prop in H as [Hc Ht]. apply negb_true_iff in Hc.
    change (String c t ++ String " " rest) with (String c (t ++ String " " rest)).
    cbn [Auth.split_on]. rewrite Hc, (IH Ht). reflexivity.
Qed.

(** X21.  [verifyAdmin] takes as token the text between the first and the
    second space of the header: a header made of [Bearer], a space and a
    token without spaces yields that token, and anything after a further
    space is ignored.  Without a header, or with a header that does not
    start with [Bearer] and a space (in that exact case), nobody is
    verified, and a token the identity provider does not know verifies
    nobody either. *)
Theorem bearer_token_parsing (e : Auth.env) (admins : list Admin.row)
    (required : option string) :
  (forall t, Header.no_space t = true ->
             Auth.bearer_token (Some ("Bearer " ++ t)) = Some t)
  /\ (forall t rest, Header.no_space t = true ->
                     Auth.bearer_token (Some ("Bearer " ++ t ++ " " ++ rest)) = Some t)
  /\ Auth.verifyAdmin e admins None required = None
  /\ (forall h, String.prefix "Bearer " h = false ->
                Auth.verifyAdmin e admins (Some h) required = None)
  /\ Auth.verifyAdmin e admins (Some "bearer owner-token") required = None
  /\ (forall t, Header.no_space t = true -> e.(Auth.getUser) t = None ->
                Auth.verifyAdmin e admins (Some ("Bearer " ++ t)) required = None).
Proof.
  assert (H1 : forall t, Header.no_space t = true ->
                         Auth.bearer_token (Some ("Bearer " ++ t)) = Some t).
  { intros t Ht. unfold Auth.bearer_token.
    change ("Bearer " ++ t) with ("Bearer" ++ String " " t).
    rewrite (split_on_space "Bearer" t eq_refl), (split_on_no_space t Ht).
    destruct t; reflexivity. }
  split; [exact H1 | ].
  split.
  { intros t rest Ht. unfold Auth.bearer_token.
    change ("Bearer " ++ t ++ " " ++ rest) with ("Bearer" ++ String " " (t ++ String " " rest)).
    rewrite (split_on_space "Bearer" _ eq_refl), (split_on_space t rest Ht).
    destruct t; reflexivity. }
  split; [reflexivity | ].
  split; [intros h Hh; unfold Auth.verifyAdmin, Auth.bearer_token; rewrite Hh; reflexivity | ].
  split; [reflexivity | ].
  intros t Ht Hu. unfold Auth.verifyAdmin. rewrite (H1 t Ht), Hu. reflexivity.
Qed.

(** ** What a status update leaves alone *)

(** X22.  A status update by staff never touches the money or the identity
    of an order, nor any order other than the one it names, nor the
    customers, the promo codes or the admins; and the status it leaves on
    the order is one of the eight statuses of the handler. *)
Theorem status_update_frame (e : Auth.env) (now : Z) (d : Db.t)
    (authorization : option string) (id : string) (b : AdminOrders.body)
    (r : AdminOrders.response) (d' : Db.t) :
  AdminOrders.update_order_status e now d authorization id b = (r, d') ->
  List.map Derived.money d'.(Db.orders) = List.map Derived.money d.(Db.orders)
  /\ (forall id', id' <> id ->
        Sql.select (fun o => String.eqb o.(Order.id) id') d'.(Db.orders)
        = Sql.select (fun o => String.eqb o.(Order.id) id') d.(Db.orders))
  /\ d'.(Db.customers) = d.(Db.customers)
  /\ d'.(Db.promo_codes) = d.(Db.promo_codes)
  /\ d'.(Db.admins) = d.(Db.admins)
  /\ (r = AdminOrders.Success ->
      forall o', Webhook.order_by_id d'.(Db.orders) id = Some o' ->
                 In o'.(Order.status) AdminOrders.validStatuses).
Proof.
  unfold AdminOrders.update_order_status.
  destruct (Auth.verifyAdmin _ _ _ _) as [c | ];
    [ | intros [= <- <-]; repeat split; discriminate].
  destruct b.(AdminOrders.status) as [s | ] eqn:Hs; cbv beta iota;
    [ | intros [= <- <-]; repeat split; discriminate].
  destruct (Js.includes AdminOrders.validStatuses s) eqn:Hvalid; cbv beta iota;
    intros [= <- <-]; [ | repeat split; discriminate]. cbn [Db.log Db.with_orders
      Db.orders Db.customers Db.promo_codes Db.admins].
  split; [apply map_update; reflexivity | ].
  split.
  { intros id' Hne. apply select_update_other; [reflexivity | ].
    intros o Ho. apply String.eqb_eq in Ho. apply String.eqb_neq. congruence. }
  repeat split.
  intros _ o' Ho'. unfold Webhook.order_by_id in Ho'.
  rewrite select_update, single_map in Ho' by (intros x Hx; exact Hx).
  destruct (Sql.single _) as [o | ]; [ | discriminate].
  injection Ho' as <-. cbn [AdminOrders.apply_update Order.status]. rewrite Hs.
  apply (proj1 (includes_In AdminOrders.validStatuses s)). exact Hvalid.
Qed.

Lemma status_update_frame_witness :
  exists d',
    AdminOrders.update_order_status Sample.auth 200
      (Sample.db_with (Sample.order "paid" (Some 90) None))
      (Some "Bearer admin-token") "order-1" (Sample.status_body "shipped")
    = (AdminOrders.Success, d')
    /\ List.map Order.total d'.(Db.orders) = [4800].
Proof.
  eexists.
  eassert (E : AdminOrders.update_order_status Sample.auth 200
                 (Sample.db_with (Sample.order "paid" (Some 90) None))
                 (Some "Bearer admin-token") "order-1" (Sample.status_body "shipped")
               = (AdminOrders.Success, _)) by (vm_compute; reflexivity).
  split; [exact E | ].
  pose proof (proj1 (status_update_frame _ _ _ _ _ _ _ _ E)) as H.
  reflexivity.
Defined.

(** ** The list of admins *)

Lemma add_owners_keeps owners acc a :
  In a acc -> In a (AdminList.add_owners owners acc).
Proof.
  unfold AdminList.add_owners. revert acc.
  induction owners as [ | o owners IH]; intros acc Ha; simpl; [exact Ha | ].
  apply IH. destruct (existsb _ acc); [exact Ha | right; exact Ha].
Qed.

Lemma add_owners_length owners acc :
  (length (AdminList.add_owners owners acc) <= length acc + length owners)%nat.
Proof.
  unfold AdminList.add_owners. revert acc.
  induction owners as [ | o owners IH]; intros acc; simpl; [lia | ].
  destruct (existsb _ acc).
  - specialize (IH acc). lia.
  - match goal with |- context [fold_left _ owners (?x :: acc)] => specialize (IH (x :: acc)) end.
    simpl in IH. lia.
Qed.

(** X23.  The list of admins shows every row of the table, with the role
    it stores, and every owner of the allowlist, marked as owner, whether
    or not the owner has a row; it has no more entries than rows and
    owners together. *)
Theorem list_admins_shows_owners (e : Auth.env) (admins : list Admin.row)
    (authorization : option string) (l : list AdminList.entry) :
  AdminList.list_admins e admins authorization = Some l ->
  (forall row, In row admins ->
     exists a, In a l /\ a.(AdminList.user_id) = Some row.(Admin.user_id)
               /\ a.(AdminList.role) = row.(Admin.role))
  /\ (forall owner, In owner e.(Auth.OWNER_EMAILS) ->
        exists a, In a l
                  /\ (a.(AdminList.email) = Some owner \/ AdminList.has_email owner a = true)
                  /\ a.(AdminList.isOwner) = true)
  /\ (length l <= length admins + length e.(Auth.OWNER_EMAILS))%nat.
Proof.
  unfold AdminList.list_admins.
  destruct (Auth.verifyAdmin _ _ _ _); [ | discriminate]. intros [= <-].
  split; [ | split].
  - intros row Hrow. exists (AdminList.of_row e row).
    split; [apply add_owners_keeps, in_map, Hrow | split; reflexivity].
  - assert (Hgen : forall owners acc,
               (forall a, In a acc -> forall o, AdminList.has_email o a = true ->
                                                In o e.(Auth.OWNER_EMAILS) ->
                                                a.(AdminList.isOwner) = true) ->
               (forall o, In o owners -> In o e.(Auth.OWNER_EMAILS)) ->
               forall owner, In owner owners ->
                 exists a, In a (AdminList.add_owners owners acc)
                           /\ (a.(AdminList.email) = Some owner
                               \/ AdminList.has_email owner a = true)
                           /\ a.(AdminList.isOwner) = true).
    { induction owners as [ | o owners IH]; intros acc Hacc Hsub owner Hin; [destruct Hin | ].
      unfold AdminList.add_owners. simpl. fold (AdminList.add_owners owners).
      destruct (existsb (AdminList.has_email o) acc) eqn:Hex.
      - destruct Hin as [<- | Hin].
        + apply existsb_exists in Hex as (a & Ha & Hm).
          exists a. split; [apply add_owners_keeps, Ha | ]. split; [right; exact Hm | ].
          apply (Hacc a Ha o Hm). apply Hsub. left. reflexivity.
        + apply IH; [exact Hacc | intros x Hx; apply Hsub; right; exact Hx | exact Hin].
      - destruct Hin as [<- | Hin].
        + eexists. split; [apply add_owners_keeps; left; reflexivity | ].
          split; [left; reflexivity | reflexivity].
        + apply IH; [ | intros x Hx; apply Hsub; right; exact Hx | exact Hin].
          intros a [<- | Ha] o' Hm Ho'; [reflexivity | exact (Hacc a Ha o' Hm Ho')]. }
    apply Hgen; [ | trivial].
    intros a Ha o Hm Ho. apply in_map_iff in Ha as (row & <- & _).
    unfold AdminList.has_email, AdminList.of_row in *. simpl in *.
    destruct (_ ≫= Auth.uemail) as [m | ]; [ | discriminate]. simpl.
    apply String.eqb_eq in Hm. rewrite Hm. apply includes_In. exact Ho.
  - pose proof (add_owners_length e.(Auth.OWNER_EMAILS) (List.map (AdminList.of_row e) admins)).
    rewrite List.length_map in *. assumption.
Qed.

Lemma list_admins_shows_owners_witness :
  exists l,
    AdminList.list_admins Sample.auth Sample.admins (Some "Bearer super-token") = Some l
    /\ length l = 3%nat
    /\ exists a, In a l /\ a.(AdminList.isOwner) = true.
Proof.
  eexists.
  eassert (E : AdminList.list_admins Sample.auth Sample.admins (Some "Bearer super-token")
               = Some _) by (vm_compute; reflexivity).
  split; [exact E | ]. split; [reflexivity | ].
  destruct (proj1 (proj2 (list_admins_shows_owners _ _ _ _ E)) "owner@heartsnaps.com.au"
              ltac:(left; reflexivity)) as (a & Ha & _ & Howner).
  exists a. split; assumption.
Defined.

(** ** The fallback order number *)

(** X24.  When the stored procedure fails, the number the server makes up
    has the shape of a sequence number: it is the number of sequence
    [random] of the UTC day.  Nothing checks it against the table: if an
    order already carries that number the creation of the order fails,
    and otherwise the order is created under it. *)
Theorem fallback_number_can_collide (w : World.t) (d : Db.t) (req : Orders.request)
    (r : Orders.response) (d' : Db.t) :
  w.(World.rpc_fails) = true ->
  Orders.create_order w d req = (r, d') ->
  OrderNumber.generateOrderNumber w.(World.rpc_fails) w.(World.today_date)
    w.(World.utc_date) w.(World.random) d.(Db.orders)
  = Spec.order_number_of w.(World.utc_date) w.(World.random)
  /\ (In (Spec.order_number_of w.(World.utc_date) w.(World.random))
        (List.map Order.order_number d.(Db.orders)) ->
      forall o, r <> Orders.Created o)
  /\ (forall o, r = Orders.Created o ->
                o.(Order.order_number)
                = Spec.order_number_of w.(World.utc_date) w.(World.random)).
Proof.
  intros Hrpc Hcreate. rewrite Hrpc.
  split; [reflexivity | ].
  apply create_order_orders in Hcreate as [(o1 & -> & _ & Ho & Hfresh) | [Hno _]].
  - rewrite Hrpc in Ho. split.
    + intros Hin o _. apply Hfresh. rewrite Ho. exact Hin.
    + intros o [= <-]. exact Ho.
  - split; [intros _; exact Hno | intros o ->; destruct (Hno o eq_refl)].
Qed.

Lemma fallback_number_can_collide_witness :
  let w := {| World.now := 3000; World.today_date := "20240302";
              World.utc_date := "20240301"; World.rpc_fails := true;
              World.random := 2%nat; World.customer_uuid := "customer-9";
              World.order_uuid := "order-9" |} in
  (Orders.create_order w (Cases.day_db 3) (Sample.order_request 6 (Some "pickup") None)).1
  = Orders.Failed.
Proof.
  intros w.
  destruct (Orders.create_order w (Cases.day_db 3)
              (Sample.order_request 6 (Some "pickup") None)) as [r d'] eqn:E.
  destruct (fallback_number_can_collide w _ _ r d' eq_refl E) as (_ & Hcollide & _).
  assert (Hin : In (Spec.order_number_of "20240301" 2)
                  (List.map Order.order_number (Cases.day_db 3).(Db.orders)))
    by (right; left; reflexivity).
  specialize (Hcollide Hin).
  vm_compute in E. injection E as <- _. reflexivity.
Defined.
